(** * Black-map: the data-join and derived-metric pipeline

    A shallow embedding of the tabular core of the repository:

    - [process_census_data.py]   ([CensusCsv]): the local-CSV ethnicity reader;
    - [download_census_data.py]  ([CensusApi]): the reader of API observations;
    - [london_black_income_map.py] ([MapData]): shapefile selection and the
      share column;
    - [streamlit_app.py] ([App]): the joiner, the table-wide statistics and
      the filter mask.

    Conventions of the embedding.  A DataFrame is the list of its rows, in
    row order; a Series is the list of its values.  Integer columns are [Z]
    and the sums of an int64 column wrap around as they do in pandas
    ([Pandas.int64]).  A float64 cell is a value of [F64.t]: a finite value
    is an exact rational, a result of an addition or a multiplication that
    reaches the overflow threshold is an infinity, and the three special
    values that pandas produces for missing cells, for division by zero and
    on overflow are kept; rounding below the threshold is not modelled.
    The mean of a float column is the library's own summation and
    rounding: [Pandas.mean] takes it as a parameter, and what is stated of
    a mean holds for every such function.  Strings are sequences of code
    points below 256.  Writing a frame with [to_csv] and reading it back
    with [read_csv] is the identity on the string and integer cells of
    [black_population.csv]. *)

From Stdlib Require Import List String Ascii Bool Arith ZArith QArith Qround Lia.
From Stdlib Require Import Permutation Sorted OrderedTypeEx Lqa.
Import ListNotations.

Set Implicit Arguments.
Close Scope Q_scope.

(* ------------------------------------------------------------------ *)
(** ** Python string methods *)

Module Str.

Local Open Scope string_scope.

(** [s.startswith(p)] *)
Definition startswith (p s : string) : bool := String.prefix p s.

(** [s.endswith(suf)]: some tail of [s] is [suf]. *)
Fixpoint endswith (suf s : string) : bool :=
  String.eqb s suf ||
  match s with
  | EmptyString => false
  | String _ t => endswith suf t
  end.

(** [sub in s]: [sub] is a prefix of some tail of [s]. *)
Fixpoint contains (sub s : string) : bool :=
  String.prefix sub s ||
  match s with
  | EmptyString => false
  | String _ t => contains sub t
  end.

(** [c.lower()] on one code point below 256: A-Z, and the Latin-1 capitals
    U+00C0-U+00DE except the multiplication sign U+00D7, move up by 32. *)
Definition lower_char (c : ascii) : ascii :=
  let n := nat_of_ascii c in
  if ((65 <=? n) && (n <=? 90))%nat then ascii_of_nat (n + 32)
  else if ((192 <=? n) && (n <=? 222) && negb (n =? 215))%nat
       then ascii_of_nat (n + 32)
  else c.

(** [s.lower()] *)
Fixpoint lower (s : string) : string :=
  match s with
  | EmptyString => EmptyString
  | String c t => String (lower_char c) (lower t)
  end.

End Str.

(* ------------------------------------------------------------------ *)
(** ** float64 cells *)

Module F64.

Inductive t : Type :=
| NaN
| NegInf
| Fin (q : Q)
| PosInf.

Definition of_int (z : Z) : t := Fin (inject_Z z).

(** [pd.isna] on a float cell: infinities are not missing. *)
Definition isna (x : t) : bool :=
  match x with NaN => true | _ => false end.

Definition is_finite (x : t) : bool :=
  match x with Fin _ => true | _ => false end.

Definition neg (x : t) : t :=
  match x with
  | NaN => NaN
  | NegInf => PosInf
  | Fin q => Fin (Qred (- q))
  | PosInf => NegInf
  end.

(** The least magnitude that rounds to an infinity, 2^1024 - 2^970. *)
Definition HUGE : Q := inject_Z (2 ^ 1024 - 2 ^ 970).

(** The result of an operation on finite values, from its exact value:
    an infinity from [HUGE] on. *)
Definition fin (q : Q) : t :=
  if Qle_bool HUGE q then PosInf
  else if Qle_bool q (- HUGE) then NegInf
  else Fin (Qred q).

Definition add (x y : t) : t :=
  match x, y with
  | NaN, _ | _, NaN => NaN
  | PosInf, NegInf | NegInf, PosInf => NaN
  | PosInf, _ | _, PosInf => PosInf
  | NegInf, _ | _, NegInf => NegInf
  | Fin a, Fin b => fin (a + b)
  end.

Definition sub (x y : t) : t := add x (neg y).

(** The sign of a rational as a comparison with zero. *)
Definition sgn (q : Q) : comparison := (Qnum q ?= 0)%Z.

Definition inf_of (c : comparison) : t :=
  match c with Eq => NaN | Lt => NegInf | Gt => PosInf end.

Definition mul (x y : t) : t :=
  match x, y with
  | NaN, _ | _, NaN => NaN
  | Fin a, Fin b => fin (a * b)
  | PosInf, PosInf | NegInf, NegInf => PosInf
  | PosInf, NegInf | NegInf, PosInf => NegInf
  | PosInf, Fin a | Fin a, PosInf => inf_of (sgn a)
  | NegInf, Fin a | Fin a, NegInf => inf_of (CompOpp (sgn a))
  end.

(** True division of two integer cells, [a / b] on int64 columns: a
    float64, infinite when only the divisor is zero and NaN for [0 / 0]. *)
Definition truediv_int (a b : Z) : t :=
  if (b =? 0)%Z then inf_of (a ?= 0)%Z
  else Fin (Qred (inject_Z a / inject_Z b)).

(** A finite, non-negative value below the overflow threshold. *)
Definition is_nonneg (x : t) : bool :=
  match x with
  | Fin q => Qle_bool 0 q && negb (Qle_bool HUGE q)
  | _ => false
  end.

(** [x <= y]; every comparison with NaN is false. *)
Definition leb (x y : t) : bool :=
  match x, y with
  | NaN, _ | _, NaN => false
  | NegInf, _ => true
  | _, PosInf => true
  | Fin a, Fin b => Qle_bool a b
  | _, _ => false
  end.

(** [x >= y] *)
Definition geb (x y : t) : bool := leb y x.

End F64.

(* ------------------------------------------------------------------ *)
(** ** The pandas operations the scripts call *)

Module Pandas.

Local Open Scope Z_scope.

(** An integer as a cell of an int64 column: reduced modulo 2^64 into
    -2^63 .. 2^63 - 1 (the identity on that range). *)
Definition int64 (z : Z) : Z := (z + 2 ^ 63) mod 2 ^ 64 - 2 ^ 63.

(** One step of [groupby(key)[value].sum()] on an int64 column: the
    groups are kept in ascending key order ([sort=True] is the default),
    and a sum wraps around. *)
Fixpoint add_group (k : string) (v : Z) (acc : list (string * Z))
  : list (string * Z) :=
  match acc with
  | [] => [(k, int64 v)]
  | (k', v') :: rest =>
      match String.compare k k' with
      | Eq => (k', int64 (v' + v)) :: rest
      | Lt => (k, int64 v) :: acc
      | Gt => (k', v') :: add_group k v rest
      end
  end.

(** [df.groupby(key)[value].sum().reset_index()] on the (key, value)
    pairs of the rows: one row per distinct key, keys ascending. *)
Definition groupby_sum (rows : list (string * Z)) : list (string * Z) :=
  fold_left (fun acc r => add_group (fst r) (snd r) acc) rows [].

Section Merge.
Variables (A B C : Type).
Variable keyA : A -> string.
Variable keyB : B -> string.

(** The rows of the right frame whose key equals [k], in their order. *)
Definition matching (k : string) (right : list B) : list B :=
  filter (fun y => String.eqb (keyB y) k) right.

(** [left.merge(right, on=key)] (how="inner"): for every left row, in
    order, one output row per right row with the same key. *)
Definition merge_inner (mk : A -> B -> C) (left : list A) (right : list B)
  : list C :=
  flat_map (fun x => map (mk x) (matching (keyA x) right)) left.

(** [left.merge(right, on=key, how="left")]: as above, and a left row
    without a match is kept once, its right-hand columns missing. *)
Definition merge_left (mk : A -> option B -> C)
           (left : list A) (right : list B) : list C :=
  flat_map (fun x =>
              match matching (keyA x) right with
              | [] => [mk x None]
              | ms => map (fun y => mk x (Some y)) ms
              end) left.
End Merge.

(** [series.dropna()] *)
Definition dropna (s : list F64.t) : list F64.t :=
  filter (fun x => negb (F64.isna x)) s.

Section Mean.
(** The float64 mean that pandas computes of one or more non-missing
    values: its summation and its rounding are those of the library, and
    nothing is assumed of it. *)
Variable float_mean : list F64.t -> F64.t.

(** [series.mean()]: missing values are skipped ([skipna=True]); the mean
    of no value is NaN. *)
Definition mean (s : list F64.t) : F64.t :=
  match dropna s with
  | [] => F64.NaN
  | vs => float_mean vs
  end.
End Mean.

(** Ascending sort of the non-missing values. *)
Fixpoint insert_sorted (x : F64.t) (l : list F64.t) : list F64.t :=
  match l with
  | [] => [x]
  | y :: rest => if F64.leb x y then x :: l else y :: insert_sorted x rest
  end.

Definition sort_values (s : list F64.t) : list F64.t :=
  fold_right insert_sorted [] s.

(** The linear interpolation of numpy between [a] and [b] at [t]:
    [a + (b - a) * t], computed as [b - (b - a) * (1 - t)] from
    [t = 0.5] on. *)
Definition lerp (a b : F64.t) (t : Q) : F64.t :=
  let diff_b_a := F64.sub b a in
  if Qle_bool (1 # 2) t
  then F64.sub b (F64.mul diff_b_a (F64.Fin (1 - t)))
  else F64.add a (F64.mul diff_b_a (F64.Fin t)).

(** [series.quantile(q)] with the default [interpolation="linear"]:
    on the sorted non-missing values [v], with [h = (n - 1) * q],
    [i = v[floor h]], [j = v[floor h + 1]] (the last value when [floor h]
    is the last index), the result interpolates between [i] and [j] at
    [h - floor h]; NaN when there is no value. *)
Definition quantile (q : Q) (s : list F64.t) : F64.t :=
  match sort_values (dropna s) with
  | [] => F64.NaN
  | v =>
      let n := List.length v in
      let h := (inject_Z (Z.of_nat (n - 1)) * q)%Q in
      let lo := Z.to_nat (Qfloor h) in
      let hi := Nat.min (lo + 1) (n - 1) in
      let frac := (h - inject_Z (Qfloor h))%Q in
      let i := nth lo v F64.NaN in
      let j := nth hi v F64.NaN in
      lerp i j frac
  end.

(** [mask.sum()] on a boolean Series: the number of [True]. *)
Definition bool_sum (mask : list bool) : Z :=
  fold_left (fun acc (b : bool) => if b then acc + 1 else acc) mask 0.

(** [a & b] on two boolean Series over the same index. *)
Fixpoint series_and (a b : list bool) : list bool :=
  match a, b with
  | x :: a', y :: b' => (x && y) :: series_and a' b'
  | _, _ => []
  end.

End Pandas.

(* ------------------------------------------------------------------ *)
(** ** Exceptions *)

Inductive exn : Type :=
| RuntimeError (msg : string)
| KeyError (msg : string).

Inductive result (A : Type) : Type :=
| Ok (a : A)
| Raise (e : exn).

Arguments Ok {A} a.
Arguments Raise {A} e.

(* ------------------------------------------------------------------ *)
(** ** Table schemas *)

(** [black_population.csv]: columns [msoa,black_count,population]. *)
Module BlackPop.
Record row : Type := mk
  { msoa : string; black_count : Z; population : Z }.
End BlackPop.

(** The frame [load_black_population] returns. *)
Module BlackShare.
Record row : Type := mk
  { msoa : string; black_count : Z; population : Z; black_share : F64.t }.
End BlackShare.

(** The frame [load_income] returns. *)
Module Income.
Record row : Type := mk { msoa : string; income : F64.t }.
End Income.

(** The frame [load_housing_affordability] returns. *)
Module Housing.
Record row : Type := mk
  { msoa : string; msoa_full_name : string; median_house_price : F64.t }.
End Housing.

(** The frame [load_london_shapes] returns; [G] is the geometry type. *)
Module Shapes.
Record row (G : Type) : Type := mk
  { msoa : string; msoa_name : string; geometry : G }.
Arguments mk {G} _ _ _.
End Shapes.

(* ------------------------------------------------------------------ *)
(** ** process_census_data.py *)

Module CensusCsv.

Local Open Scope string_scope.

(** One line of [census_ts021.csv], by the three columns the script
    reads: [geo_col], [ethnic_col], [value_col]. *)
Record row : Type := mk
  { geo : string; ethnic : string; observation : Z }.

(** The column [value_col] read as int64: what a cell of it can hold. *)
Definition int64_cell (r : row) : Prop :=
  (- 2 ^ 63 <= observation r < 2 ^ 63)%Z.

Definition MSOA_PREFIX : string := "E02".

Definition BLACK_PREFIX : string :=
  "Black, Black British, Black Welsh, Caribbean or African:".

Definition geo_value (r : row) : string * Z := (geo r, observation r).

Definition process_census_data (df : list row) : list BlackPop.row :=
  let msoa_data := filter (fun r => Str.startswith MSOA_PREFIX (geo r)) df in
  let total := Pandas.groupby_sum (map geo_value msoa_data) in
  let black :=
    filter (fun r => Str.startswith BLACK_PREFIX (ethnic r)) msoa_data in
  let black_sum := Pandas.groupby_sum (map geo_value black) in
  Pandas.merge_inner fst fst
    (fun b t => BlackPop.mk (fst b) (snd b) (snd t))
    black_sum total.

End CensusCsv.

(* ------------------------------------------------------------------ *)
(** ** download_census_data.py *)

Module CensusApi.

Local Open Scope string_scope.

(** One element of the API's [observations]: the [id] of its geography
    dimension, the [label] of its ethnic_group and sex dimensions, and
    [int(obs["observation"])]. *)
Record obs : Type := mk
  { geography_id : string;
    ethnic_group_label : string;
    sex_label : string;
    observation : Z }.

(** A row of the intermediate frame [df]. *)
Record drow : Type := mkd
  { msoa : string; ethnic_group : string; count : Z }.

Definition ALL_PERSONS : string := "All persons".
Definition ALL_GROUPS : string := "All ethnic groups".
Definition BLACK_LABEL : string :=
  "Black, Black British, Black Welsh, Caribbean or African".

(** The loop that fills [data]. *)
Definition collect (observations : list obs) : list drow :=
  flat_map (fun o =>
              if negb (String.eqb (sex_label o) ALL_PERSONS) then []
              else [mkd (geography_id o) (ethnic_group_label o)
                        (observation o)])
           observations.

(** [pd.DataFrame([])] has no column, so selecting ["ethnic_group"] on
    it raises [KeyError]. *)
Definition process_observations (observations : list obs)
  : result (list BlackPop.row) :=
  match collect observations with
  | [] => Raise (KeyError "ethnic_group")
  | df =>
      let total :=
        filter (fun r => String.eqb (ethnic_group r) ALL_GROUPS) df in
      let black :=
        filter (fun r => String.eqb (ethnic_group r) BLACK_LABEL) df in
      Ok (Pandas.merge_inner msoa msoa
            (fun b t => BlackPop.mk (msoa b) (count b) (count t))
            black total)
  end.

End CensusApi.

(* ------------------------------------------------------------------ *)
(** ** london_black_income_map.py *)

Module MapData.

Local Open Scope string_scope.

Definition is_candidate (m : string) : bool :=
  Str.endswith ".shp" (Str.lower m)
  && Str.contains "msoa" (Str.lower m)
  && Str.contains "london" (Str.lower m).

(** [min(candidates, key=len)] on a non-empty list given as head and
    tail: the first element of least length. *)
Definition min_by_len (first : string) (others : list string) : string :=
  fold_left
    (fun best m => if (String.length m <? String.length best)%nat
                   then m else best)
    others first.

(** The argument is [zf.namelist()]. *)
Definition _search_shp_member (namelist : list string) : result string :=
  match filter is_candidate namelist with
  | [] => Raise (RuntimeError "MSOA shapefile not found in boundary ZIP")
  | first :: others => Ok (min_by_len first others)
  end.

(** The argument is the frame read from [black_population.csv]. *)
Definition load_black_population (df : list BlackPop.row)
  : list BlackShare.row :=
  map (fun r =>
         BlackShare.mk (BlackPop.msoa r) (BlackPop.black_count r)
           (BlackPop.population r)
           (F64.truediv_int (BlackPop.black_count r) (BlackPop.population r)))
      df.

End MapData.

(* ------------------------------------------------------------------ *)
(** ** streamlit_app.py *)

Module App.

Section Joiner.
Variable G : Type.

(** A row of the merged frame: the geometry row and, for each of the
    three left merges, the row it matched, if any.  A column brought
    by a merge is missing (NaN) where nothing matched. *)
Definition gdf_row : Type :=
  (Shapes.row G * option Income.row * option BlackShare.row
   * option Housing.row)%type.

Definition shape (r : gdf_row) : Shapes.row G := fst (fst (fst r)).
Definition msoa (r : gdf_row) : string := Shapes.msoa (shape r).

Definition income (r : gdf_row) : F64.t :=
  match snd (fst (fst r)) with
  | Some i => Income.income i
  | None => F64.NaN
  end.

Definition black_share (r : gdf_row) : F64.t :=
  match snd (fst r) with
  | Some b => BlackShare.black_share b
  | None => F64.NaN
  end.

Definition black_count (r : gdf_row) : F64.t :=
  match snd (fst r) with
  | Some b => F64.of_int (BlackShare.black_count b)
  | None => F64.NaN
  end.

Definition population (r : gdf_row) : F64.t :=
  match snd (fst r) with
  | Some b => F64.of_int (BlackShare.population b)
  | None => F64.NaN
  end.

Definition median_house_price (r : gdf_row) : F64.t :=
  match snd r with
  | Some h => Housing.median_house_price h
  | None => F64.NaN
  end.

(** [gdf.dropna(subset=['black_share','income','median_house_price'])] *)
Definition complete (r : gdf_row) : bool :=
  negb (F64.isna (black_share r))
  && negb (F64.isna (income r))
  && negb (F64.isna (median_house_price r)).

(** The arguments are the four frames the loaders return. *)
Definition load_all_data
           (gdf : list (Shapes.row G))
           (income_df : list Income.row)
           (black_df : list BlackShare.row)
           (housing_df : list Housing.row) : list gdf_row :=
  let gdf1 :=
    Pandas.merge_left (@Shapes.msoa G) Income.msoa pair gdf income_df in
  let gdf2 :=
    Pandas.merge_left (fun r => Shapes.msoa (fst r)) BlackShare.msoa
                      pair gdf1 black_df in
  let gdf3 :=
    Pandas.merge_left (fun r => Shapes.msoa (fst (fst r))) Housing.msoa
                      pair gdf2 housing_df in
  filter complete gdf3.

(** The mask of the sidebar's three thresholds over the frame. *)
Definition current_filter_mask (gdf : list gdf_row)
           (black_share_threshold income_threshold_value
              housing_threshold_value : F64.t) : list bool :=
  Pandas.series_and
    (Pandas.series_and
       (map (fun v => F64.geb v black_share_threshold)
            (map black_share gdf))
       (map (fun v => F64.geb v income_threshold_value)
            (map income gdf)))
    (map (fun v => F64.leb v housing_threshold_value)
         (map median_house_price gdf)).

(** The number shown in the subheader: [current_filter_mask.sum()]. *)
Definition match_count (gdf : list gdf_row)
           (black_share_threshold income_threshold_value
              housing_threshold_value : F64.t) : Z :=
  Pandas.bool_sum
    (current_filter_mask gdf black_share_threshold
       income_threshold_value housing_threshold_value).
End Joiner.

(** The call [calculate_global_stats(gdf["income"],
    gdf["median_house_price"])] that follows the definition below. *)
Definition stats_columns (G : Type) (gdf : list (gdf_row G))
  : list F64.t * list F64.t :=
  (map (@income G) gdf, map (@median_house_price G) gdf).

(** [float_mean] is the mean of the library, see [Pandas.mean]. *)
Definition calculate_global_stats (float_mean : list F64.t -> F64.t)
           (income_series housing_series : list F64.t)
  : F64.t * F64.t :=
  let mean_income := Pandas.mean float_mean income_series in
  let percentile_65_house_price :=
    Pandas.quantile (65 # 100) housing_series in
  (mean_income, percentile_65_house_price).

(** [mean_income, percentile_65_house_price] as the script binds them. *)
Definition global_stats (float_mean : list F64.t -> F64.t)
           (G : Type) (gdf : list (gdf_row G)) : F64.t * F64.t :=
  calculate_global_stats float_mean (fst (stats_columns gdf))
                         (snd (stats_columns gdf)).

End App.

(* ------------------------------------------------------------------ *)
(** ** The order on float64 cells, as a proposition *)

Module F64Order.

(** [x <= y] on the extended line; nothing compares with NaN. *)
Definition le (x y : F64.t) : Prop :=
  match x, y with
  | F64.NaN, _ | _, F64.NaN => False
  | F64.NegInf, _ => True
  | _, F64.PosInf => True
  | F64.Fin a, F64.Fin b => (a <= b)%Q
  | _, _ => False
  end.

Definition ge (x y : F64.t) : Prop := le y x.

End F64Order.

(** The comparison [F64.leb] and the test [F64.is_finite] as relations. *)
Definition fle (x y : F64.t) : Prop := F64.leb x y = true.
Definition finite (x : F64.t) : Prop := F64.is_finite x = true.
Definition nonneg (x : F64.t) : Prop := F64.is_nonneg x = true.

(** The worked scenario: three complete rows given by their
    (black_share, income, median_house_price). *)
Module Scenario.

Local Open Scope string_scope.

Definition area (code : string) (share_pct : Z) (inc price : Z)
  : App.gdf_row unit :=
  (Shapes.mk code code tt,
   Some (Income.mk code (F64.of_int inc)),
   Some (BlackShare.mk code share_pct 100
           (F64.Fin (share_pct # 100))),
   Some (Housing.mk code code (F64.of_int price))).

Definition gdf : list (App.gdf_row unit) :=
  [ area "E02000001" 20 50000 300000;
    area "E02000002" 5 60000 200000;
    area "E02000003" 30 40000 500000 ].

(** The two census rows of the reader's worked scenario. *)
Definition census : list CensusCsv.row :=
  [ CensusCsv.mk "E02000001"
      "Black, Black British, Black Welsh, Caribbean or African: African" 50;
    CensusCsv.mk "E02000001" "White: English" 450 ].

(** Two complete rows with house prices 100 and 200. *)
Definition two_prices : list (App.gdf_row unit) :=
  [ area "E02000001" 20 50000 100;
    area "E02000002" 5 60000 200 ].

Definition min_group_share : F64.t := F64.Fin (15 # 100).
Definition min_income : F64.t := F64.of_int 45000.
Definition max_house_price : F64.t := F64.of_int 400000.

End Scenario.

(** Four small tables in which the income table lists one area twice. *)
Module Repeated.

Local Open Scope string_scope.

Definition gdf : list (Shapes.row unit) :=
  [ Shapes.mk "E02000001" "City of London 001" tt ].

Definition income_df : list Income.row :=
  [ Income.mk "E02000001" (F64.of_int 50000);
    Income.mk "E02000001" (F64.of_int 52000) ].

Definition black_df : list BlackShare.row :=
  MapData.load_black_population [ BlackPop.mk "E02000001" 50 500 ].

Definition housing_df : list Housing.row :=
  [ Housing.mk "E02000001" "City of London 001" (F64.of_int 300000) ].

End Repeated.

(** Four small tables without a repeated code; the second area has no
    row in the ethnicity-derived table. *)
Module Distinct.

Local Open Scope string_scope.

Definition gdf : list (Shapes.row unit) :=
  [ Shapes.mk "E02000001" "City of London 001" tt;
    Shapes.mk "E02000002" "Barking and Dagenham 001" tt ].

Definition income_df : list Income.row :=
  [ Income.mk "E02000001" (F64.of_int 50000);
    Income.mk "E02000002" (F64.of_int 40000) ].

Definition black_df : list BlackShare.row :=
  MapData.load_black_population [ BlackPop.mk "E02000001" 50 500 ].

Definition housing_df : list Housing.row :=
  [ Housing.mk "E02000002" "Barking and Dagenham 001" (F64.of_int 250000);
    Housing.mk "E02000001" "City of London 001" (F64.of_int 300000) ].

End Distinct.

(** The three thresholds read on one row. *)
Module RowWise.

Definition row_matches (G : Type)
           (min_group_share min_income max_house_price : F64.t)
           (r : App.gdf_row G) : bool :=
  F64.geb (App.black_share r) min_group_share
  && F64.geb (App.income r) min_income
  && F64.leb (App.median_house_price r) max_house_price.

End RowWise.

(** Per-area sums over the rows of the census file, as the reader's
    contract names them. *)
Module PerArea.

Definition zsum (l : list Z) : Z := fold_right Z.add 0%Z l.

(** The sum of the values paired with key [k]. *)
Definition sum_for (k : string) (rows : list (string * Z)) : Z :=
  zsum (map snd (filter (fun r => String.eqb (fst r) k) rows)).

(** The sum of the observation over the rows that satisfy [p]. *)
Definition sum_where (p : CensusCsv.row -> bool) (df : list CensusCsv.row)
  : Z :=
  zsum (map CensusCsv.observation (filter p df)).

Definition in_area (a : string) (r : CensusCsv.row) : bool :=
  String.eqb (CensusCsv.geo r) a.

Definition is_black (r : CensusCsv.row) : bool :=
  Str.startswith CensusCsv.BLACK_PREFIX (CensusCsv.ethnic r).

(** Sum over all subcategory rows of area [a]. *)
Definition total_population (df : list CensusCsv.row) (a : string) : Z :=
  sum_where (in_area a) df.

(** Sum over the rows of area [a] whose label starts with the prefix. *)
Definition group_count (df : list CensusCsv.row) (a : string) : Z :=
  sum_where (fun r => in_area a r && is_black r) df.

Definition in_region (r : CensusCsv.row) : bool :=
  Str.startswith CensusCsv.MSOA_PREFIX (CensusCsv.geo r).

(** The key column of [black_sum]: the areas of the region that have a
    row of the tracked group, ascending. *)
Definition black_areas (df : list CensusCsv.row) : list string :=
  map fst
      (Pandas.groupby_sum
         (map CensusCsv.geo_value (filter is_black (filter in_region df)))).

End PerArea.


(** Census files of one area whose sums leave the int64 range: a total of
    2^63, and three lines of 2^62 of which one is of the tracked group. *)
Module Overflow.

Local Open Scope string_scope.

Definition two_lines : list CensusCsv.row :=
  [ CensusCsv.mk "E02000001" "White: English" 9223372036854775807;
    CensusCsv.mk "E02000001"
      "Black, Black British, Black Welsh, Caribbean or African: African" 1 ].

Definition three_lines : list CensusCsv.row :=
  [ CensusCsv.mk "E02000001"
      "Black, Black British, Black Welsh, Caribbean or African: African"
      4611686018427387904;
    CensusCsv.mk "E02000001" "White: English" 4611686018427387904;
    CensusCsv.mk "E02000001" "Asian, Asian British or Asian Welsh: Indian"
      4611686018427387904 ].

End Overflow.

(** The two ethnicity paths side by side. *)
Module TwoPaths.

Local Open Scope string_scope.

(** The frames [black] and [total] inside [process_observations]. *)
Definition black_frame (observations : list CensusApi.obs)
  : list CensusApi.drow :=
  filter (fun r => String.eqb (CensusApi.ethnic_group r)
                              CensusApi.BLACK_LABEL)
         (CensusApi.collect observations).

Definition total_frame (observations : list CensusApi.obs)
  : list CensusApi.drow :=
  filter (fun r => String.eqb (CensusApi.ethnic_group r)
                              CensusApi.ALL_GROUPS)
         (CensusApi.collect observations).

(** What it is for a census file and a list of observations to describe
    the same per-area counts.  [kept label a] is the values of the
    observations of area [a] with sex "All persons" and the given label. *)
Definition kept (label a : string) (observations : list CensusApi.obs)
  : list Z :=
  map CensusApi.observation
      (filter (fun o =>
                 String.eqb (CensusApi.sex_label o) CensusApi.ALL_PERSONS
                 && String.eqb (CensusApi.ethnic_group_label o) label
                 && String.eqb (CensusApi.geography_id o) a)
              observations).

(** Area [a] has one aggregate observation of each of the two labels, the
    total being the sum of the lines of [a] in the file and the count of
    the tracked group the sum of its lines of that group. *)
Definition describes (df : list CensusCsv.row)
           (observations : list CensusApi.obs) (a : string) : bool :=
  match kept CensusApi.ALL_GROUPS a observations,
        kept CensusApi.BLACK_LABEL a observations with
  | [t], [b] =>
      (t =? PerArea.total_population df a)%Z
      && (b =? PerArea.group_count df a)%Z
  | _, _ => false
  end.

(** Every area of the file is described by the observations, and every
    observation with sex "All persons" is of an area of the file. *)
Definition same_counts (df : list CensusCsv.row)
           (observations : list CensusApi.obs) : bool :=
  forallb (fun r => describes df observations (CensusCsv.geo r)) df
  && forallb (fun o =>
                negb (String.eqb (CensusApi.sex_label o)
                                 CensusApi.ALL_PERSONS)
                || existsb (fun r => String.eqb (CensusCsv.geo r)
                                                (CensusApi.geography_id o))
                           df)
             observations.

(** One Welsh area of 100 residents, 7 of the tracked group. *)
Definition welsh_file : list CensusCsv.row :=
  [ CensusCsv.mk "W02000001"
      "Black, Black British, Black Welsh, Caribbean or African: African" 7;
    CensusCsv.mk "W02000001" "White: Welsh" 93 ].

Definition welsh_observations : list CensusApi.obs :=
  [ CensusApi.mk "W02000001" "All ethnic groups" "All persons" 100;
    CensusApi.mk "W02000001"
      "Black, Black British, Black Welsh, Caribbean or African"
      "All persons" 7 ].

(** Two areas, which the observations list in descending order. *)
Definition two_areas_file : list CensusCsv.row :=
  [ CensusCsv.mk "E02000001"
      "Black, Black British, Black Welsh, Caribbean or African: African" 50;
    CensusCsv.mk "E02000001" "White: English" 450;
    CensusCsv.mk "E02000002"
      "Black, Black British, Black Welsh, Caribbean or African: Caribbean" 30;
    CensusCsv.mk "E02000002" "White: English" 270 ].

Definition descending_observations : list CensusApi.obs :=
  [ CensusApi.mk "E02000002" "All ethnic groups" "All persons" 300;
    CensusApi.mk "E02000002"
      "Black, Black British, Black Welsh, Caribbean or African"
      "All persons" 30;
    CensusApi.mk "E02000001" "All ethnic groups" "All persons" 500;
    CensusApi.mk "E02000001"
      "Black, Black British, Black Welsh, Caribbean or African"
      "All persons" 50 ].

(** One area without a line of the tracked group: its count is 0. *)
Definition no_group_file : list CensusCsv.row :=
  [ CensusCsv.mk "E02000001" "White: English" 450 ].

Definition no_group_observations : list CensusApi.obs :=
  [ CensusApi.mk "E02000001" "All ethnic groups" "All persons" 450;
    CensusApi.mk "E02000001"
      "Black, Black British, Black Welsh, Caribbean or African"
      "All persons" 0 ].

(** The observations that describe [Overflow.two_lines]: 2^63 residents,
    1 of the tracked group. *)
Definition overflow_observations : list CensusApi.obs :=
  [ CensusApi.mk "E02000001" "All ethnic groups" "All persons"
      9223372036854775808;
    CensusApi.mk "E02000001"
      "Black, Black British, Black Welsh, Caribbean or African"
      "All persons" 1 ].

(** The aggregate observations that match [Scenario.census]. *)
Definition aggregates : list CensusApi.obs :=
  [ CensusApi.mk "E02000001" "All ethnic groups" "All persons" 500;
    CensusApi.mk "E02000001" "All ethnic groups" "Female" 260;
    CensusApi.mk "E02000001"
      "Black, Black British, Black Welsh, Caribbean or African"
      "All persons" 50 ].

End TwoPaths.

(** A census file that lists the two lines of the worked scenario in the
    other order, with a line of a Welsh area in between. *)
Module Reordered.

Local Open Scope string_scope.

Definition census : list CensusCsv.row :=
  [ CensusCsv.mk "E02000001" "White: English" 450;
    CensusCsv.mk "W02000001"
      "Black, Black British, Black Welsh, Caribbean or African: African" 7;
    CensusCsv.mk "E02000001"
      "Black, Black British, Black Welsh, Caribbean or African: African" 50 ].

End Reordered.

(* ------------------------------------------------------------------ *)
(** ** download_census_data.py: the requests *)

(** The network is the sequence of what the successive requests give; a
    function that needs a request when the sequence is used up has no
    result ([None]).  [time.sleep] and the requests made are recorded, in
    order, in a log. *)
Module Download.

Local Open Scope string_scope.

Definition MAX_RETRIES : nat := 3.

Definition DIMENSIONS_URL : string :=
  "https://api.beta.ons.gov.uk/v1/datasets/TS021/editions/2021/versions/1/dimensions".

Definition BASE_URL : string :=
  "https://api.beta.ons.gov.uk/v1/datasets/TS021/editions/2021/versions/1/observations".

(** A JSON body, by what the script reads of it: [data["observations"]],
    absent or a list, and [data.get("pagination", {}).get("next")], where
    "pagination" is absent or an object and "next" absent, null or a
    string. *)
Record json : Type := mkjson
  { observations : option (list CensusApi.obs);
    pagination_next : option string }.

(** One request: [requests.get] or [raise_for_status] raised a
    [RequestException] with text [exc]; or the status is fine and the body
    is not JSON; or the body is JSON. *)
Inductive outcome : Type :=
| RequestFailed (exc : string)
| NotJson
| Json (data : json).

Inductive event : Type :=
| Get (url : string) (with_params : bool)
| Sleep (seconds : nat).

Definition NON_JSON : exn := RuntimeError "ONS API returned non-JSON".

(** The [for attempt in range(MAX_RETRIES)] loop of [get_dimensions], from
    iteration [attempt] with [n] iterations left.  The function returns
    [None] when the loop ends. *)
Fixpoint get_dimensions_loop (n attempt : nat) (net : list outcome)
         (log : list event)
  : option (result (option json) * list outcome * list event) :=
  match n with
  | O => Some (Ok None, net, log)
  | S n' =>
      match net with
      | [] => None
      | o :: net' =>
          let log := (log ++ [Get DIMENSIONS_URL false])%list in
          match o with
          | Json data => Some (Ok (Some data), net', log)
          | NotJson => Some (Raise NON_JSON, net', log)
          | RequestFailed exc =>
              if (attempt =? MAX_RETRIES - 1)%nat then
                Some (Raise (RuntimeError
                               ("Failed to fetch dimensions after 3 attempts: "
                                ++ exc)),
                      net', log)
              else
                get_dimensions_loop n' (S attempt) net'
                                    (log ++ [Sleep (2 ^ attempt)])%list
          end
      end
  end.

Definition get_dimensions (net : list outcome)
  : option (result (option json) * list outcome * list event) :=
  get_dimensions_loop MAX_RETRIES 0 net [].

(** How the [for] loop of [fetch_census_data] is left. *)
Inductive page_step : Type :=
| Fetched (url : option string) (all_observations : list CensusApi.obs)
| Failed (e : exn)
| Exhausted.

(** The [for attempt in range(MAX_RETRIES)] loop of [fetch_census_data]
    for the page at [url]. *)
Fixpoint fetch_page_loop (n attempt : nat) (url : string)
         (all_observations : list CensusApi.obs)
         (net : list outcome) (log : list event)
  : option (page_step * list outcome * list event) :=
  match n with
  | O => Some (Exhausted, net, log)
  | S n' =>
      match net with
      | [] => None
      | o :: net' =>
          let log := (log ++ [Get url (String.eqb url BASE_URL)])%list in
          match o with
          | Json data =>
              match observations data with
              | None => Some (Failed (KeyError "observations"), net', log)
              | Some page =>
                  Some (Fetched (pagination_next data)
                                (all_observations ++ page)%list,
                        net', log)
              end
          | NotJson => Some (Failed NON_JSON, net', log)
          | RequestFailed exc =>
              if (attempt =? MAX_RETRIES - 1)%nat then
                Some (Failed (RuntimeError
                                ("Failed to fetch data after 3 attempts: "
                                 ++ exc)),
                      net', log)
              else
                fetch_page_loop n' (S attempt) url all_observations net'
                                (log ++ [Sleep (2 ^ attempt)])%list
          end
      end
  end.

(** [while url:] with at most [fuel] turns; a missing or empty [next]
    ends the loop. *)
Fixpoint while_url (fuel : nat) (url : option string)
         (all_observations : list CensusApi.obs)
         (net : list outcome) (log : list event)
  : option (result (list CensusApi.obs) * list outcome * list event) :=
  match url with
  | None => Some (Ok all_observations, net, log)
  | Some u =>
      if String.eqb u "" then Some (Ok all_observations, net, log)
      else
        match fuel with
        | O => None
        | S fuel' =>
            match fetch_page_loop MAX_RETRIES 0 u all_observations net log with
            | None => None
            | Some (Fetched url' all_observations', net', log') =>
                while_url fuel' url' all_observations' net' log'
            | Some (Failed e, net', log') => Some (Raise e, net', log')
            | Some (Exhausted, net', log') =>
                while_url fuel' (Some u) all_observations net' log'
            end
        end
  end.

(** Every turn of the [while] loop makes a request, so one turn more than
    there are outcomes is enough. *)
Definition fetch_census_data (net : list outcome)
  : option (result (list CensusApi.obs) * list outcome * list event) :=
  while_url (S (List.length net)) (Some BASE_URL) [] net [].

(** The requests of a page that fails [k] times before it is served:
    each failed request is followed by a sleep of 1, 2, ... seconds. *)
Definition retries (url : string) (with_params : bool) (k : nat)
  : list event :=
  flat_map (fun attempt => [Get url with_params; Sleep (2 ^ attempt)])
           (seq 0 k).

(** The seconds slept in a log. *)
Definition slept (log : list event) : nat :=
  fold_right (fun e acc => match e with Sleep s => s + acc | Get _ _ => acc end)
             0 log.

(** The URLs requested in a log. *)
Definition requested (log : list event) : list string :=
  flat_map (fun e => match e with Get u _ => [u] | Sleep _ => [] end) log.

(** A page served after some failed requests, by the texts of the
    failures, its observations and its [next]. *)
Definition serve (fails : list string) (page : list CensusApi.obs)
           (next : option string) : list outcome :=
  (map RequestFailed fails ++ [Json (mkjson (Some page) next)])%list.

(** A page that is served after some failed requests and names a next
    page. *)
Record served : Type := mkserved
  { fails : list string;
    page : list CensusApi.obs;
    next_url : string }.

(** What the network gives while a chain of such pages is read. *)
Definition serve_all (pages : list served) : list outcome :=
  flat_map (fun s => serve (fails s) (page s) (Some (next_url s))) pages.

(** The URL reached after the chain, starting from [url]. *)
Fixpoint last_url (url : string) (pages : list served) : string :=
  match pages with
  | [] => url
  | s :: rest => last_url (next_url s) rest
  end.

(** The requests and sleeps while the chain is read, starting at [url]. *)
Fixpoint pages_log (url : string) (pages : list served) : list event :=
  match pages with
  | [] => []
  | s :: rest =>
      (retries url (String.eqb url BASE_URL) (List.length (fails s))
       ++ [Get url (String.eqb url BASE_URL)]
       ++ pages_log (next_url s) rest)%list
  end.

(** A chain the loop reads through: fewer than three failures in a row,
    and every [next] a non-empty string. *)
Definition readable (pages : list served) : Prop :=
  Forall (fun s => List.length (fails s) <= 2 /\ next_url s <> "") pages.

(** [main]: the dimensions are fetched first and not used; the table is
    written to the output file by the last statement, so [Ok table] is the
    file written and [Raise e] the exception logged and raised again with
    no file written. *)
Definition main (net : list outcome)
  : option (result (list BlackPop.row) * list outcome * list event) :=
  match get_dimensions net with
  | None => None
  | Some (Raise e, net1, log1) => Some (Raise e, net1, log1)
  | Some (Ok dimensions, net1, log1) =>
      match fetch_census_data net1 with
      | None => None
      | Some (Raise e, net2, log2) => Some (Raise e, net2, (log1 ++ log2)%list)
      | Some (Ok observations, net2, log2) =>
          Some (CensusApi.process_observations observations, net2,
                (log1 ++ log2)%list)
      end
  end.

(** Two pages of observations, the first served at the second request. *)
Definition two_pages : list served :=
  [ mkserved ["timeout"]
      [ CensusApi.mk "E02000001" "All ethnic groups" "All persons" 500;
        CensusApi.mk "E02000001" "All ethnic groups" "Female" 260 ]
      "https://api.beta.ons.gov.uk/v1/page2" ].

Definition second_page : list CensusApi.obs :=
  [ CensusApi.mk "E02000001"
      "Black, Black British, Black Welsh, Caribbean or African"
      "All persons" 50 ].

End Download.

(* ------------------------------------------------------------------ *)
(** ** london_black_income_map.py: the attribute columns *)

Module Columns.

Local Open Scope string_scope.

(** The two generator conditions of [_identify_msoa_columns]. *)
Definition is_code_col (c : string) : bool :=
  Str.startswith "msoa" (Str.lower c) && Str.endswith "cd" (Str.lower c).

Definition is_name_col (c : string) : bool :=
  Str.startswith "msoa" (Str.lower c)
  && (Str.endswith "nm" (Str.lower c) || Str.contains "name" (Str.lower c)).

(** [not x] on a value that is [None] or a string. *)
Definition falsy (x : option string) : bool :=
  match x with
  | None => true
  | Some s => String.eqb s ""
  end.

(** The argument is [gdf.columns]; [next(gen, None)] is the first element
    that satisfies the condition. *)
Definition _identify_msoa_columns (columns : list string)
  : result (string * string) :=
  let code_col := find is_code_col columns in
  let name_col := find is_name_col columns in
  if falsy code_col || falsy name_col then
    Raise (KeyError "Could not find MSOA code/name columns in shapefile")
  else
    match code_col, name_col with
    | Some c, Some n => Ok (c, n)
    | _, _ => Raise (KeyError "Could not find MSOA code/name columns in shapefile")
    end.

(** The attribute table of the London boundary file, and one whose only
    MSOA column serves as code and as name. *)
Definition london_columns : list string :=
  ["MSOA11CD"; "MSOA11NM"; "LAD11CD"; "LAD11NM"; "geometry"].

Definition one_column : list string := ["MSOA_NAME_CD"; "geometry"].

End Columns.

(** What the joiner needs of each right-hand table for a code [k]: a row
    with that code whose metric is not missing. *)
Module JoinSpec.

Definition has_income (income_df : list Income.row) (k : string) : bool :=
  existsb (fun r => String.eqb (Income.msoa r) k
                    && negb (F64.isna (Income.income r))) income_df.

Definition has_share (black_df : list BlackShare.row) (k : string) : bool :=
  existsb (fun r => String.eqb (BlackShare.msoa r) k
                    && negb (F64.isna (BlackShare.black_share r))) black_df.

Definition has_price (housing_df : list Housing.row) (k : string) : bool :=
  existsb (fun r => String.eqb (Housing.msoa r) k
                    && negb (F64.isna (Housing.median_house_price r)))
          housing_df.

End JoinSpec.

(* ------------------------------------------------------------------ *)
(** ** london_black_income_map.py: the percentile band *)

Module MiddleClass.

(** [df["income"].quantile(q)] with the check pandas makes first: a
    percentile outside [0, 1] raises [ValueError] ([None] here). *)
Definition quantile_checked (q : Q) (s : list F64.t) : option F64.t :=
  if Qle_bool 0 q && Qle_bool q 1 then Some (Pandas.quantile q s) else None.

(** [series.between(left, right)], both ends included. *)
Definition between (s : list F64.t) (left right : F64.t) : list bool :=
  Pandas.series_and (map (fun x => F64.geb x left) s)
                    (map (fun x => F64.leb x right) s).

(** The argument [income] is the column [df["income"]]; [low / 100] and
    [high / 100] are true divisions of integers. *)
Definition classify_middle_class (income : list F64.t) (low high : Z)
  : option (list bool) :=
  match quantile_checked (low # 100) income with
  | None => None
  | Some lo =>
      match quantile_checked (high # 100) income with
      | None => None
      | Some hi => Some (between income lo hi)
      end
  end.

End MiddleClass.

(* ------------------------------------------------------------------ *)
(** ** streamlit_app.py: the dynamic layer and the legends *)

Module Layer.

Local Open Scope string_scope.

(** [series.astype(int)] on one boolean. *)
Definition astype_int (b : bool) : Z := if b then 1%Z else 0%Z.

(** The dictionary [style_function] returns. *)
Record style : Type := mkstyle
  { fillColor : string; color : string; weight : Z; fillOpacity : Q }.

(** The argument is [feature['properties']['is_filtered']]; the
    conditions test its truth value. *)
Definition style_function (is_filtered : Z) : style :=
  let shown := negb (is_filtered =? 0)%Z in
  {| fillColor := if shown then "#00CCFF" else "transparent";
     color := if shown then "black" else "transparent";
     weight := if shown then 1%Z else 0%Z;
     fillOpacity := if shown then 7 # 10 else 0%Q |}.

(** The styles of the features of the "Live Filtered Areas" layer: the
    column [is_filtered] is the mask as integers. *)
Definition live_layer_styles (G : Type) (gdf : list (App.gdf_row G))
           (black_share_threshold income_threshold_value
              housing_threshold_value : F64.t) : list style :=
  map style_function
      (map astype_int
           (App.current_filter_mask gdf black_share_threshold
              income_threshold_value housing_threshold_value)).

Section Children.
Variable child : Type.

(** [children.pop(key)] on an ordered dictionary given by its items. *)
Fixpoint pop (key : string) (children : list (string * child))
  : result (list (string * child)) :=
  match children with
  | [] => Raise (KeyError key)
  | (k, c) :: rest =>
      if String.eqb k key then Ok rest
      else match pop key rest with
           | Ok rest' => Ok ((k, c) :: rest')
           | Raise e => Raise e
           end
  end.

(** The argument is [choropleth_obj._children]; the result is what it
    holds when the function returns. *)
Definition remove_folium_choropleth_legend (children : list (string * child))
  : result (list (string * child)) :=
  let del_list :=
    filter (fun k => Str.startswith "color_map" k) (map fst children) in
  fold_left (fun acc del_item =>
               match acc with
               | Ok cs => pop del_item cs
               | Raise e => Raise e
               end)
            del_list (Ok children).
End Children.

End Layer.

(* ------------------------------------------------------------------ *)
(** ** london_black_income_map.py: the housing sheet *)

Module HousingSheet.

Section Loader.
(** A cell of the sheet as [xl.parse] gives it, and what
    [pd.to_numeric(..., errors='coerce')] makes of it (NaN for a cell it
    cannot read as a number). *)
Variable cell : Type.
Variable to_numeric : cell -> F64.t.

(** A line of "Table 1", by the three columns the loader keeps. *)
Record raw : Type := mkraw
  { msoa_code : string; msoa_name : string; all_properties : cell }.

(** The frame returned, and the figure of the warning when one is
    logged. *)
Definition load_housing_affordability (df : list raw)
  : list Housing.row * option nat :=
  let converted :=
    map (fun r => Housing.mk (msoa_code r) (msoa_name r)
                             (to_numeric (all_properties r))) df in
  let original_rows := List.length converted in
  let kept :=
    filter (fun r => negb (F64.isna (Housing.median_house_price r)))
           converted in
  (kept,
   if List.length kept <? original_rows
   then Some (original_rows - List.length kept)
   else None).
End Loader.

End HousingSheet.
(* ------------------------------------------------------------------ *)
(** * Properties *)

(** ** Comparisons of cells *)

Lemma leb_le (x y : F64.t) : F64.leb x y = true <-> F64Order.le x y.
Proof.
  destruct x, y; simpl; try tauto; try (split; [discriminate | tauto]).
  apply Qle_bool_iff.
Qed.

Lemma geb_ge (x y : F64.t) : F64.geb x y = true <-> F64Order.ge x y.
Proof. apply leb_le. Qed.

(** ** Boolean Series *)

Lemma series_and_map (A : Type) (f g : A -> bool) (l : list A) :
  Pandas.series_and (map f l) (map g l) = map (fun x => f x && g x) l.
Proof.
  induction l as [|x l IH]; simpl; [reflexivity|].
  now rewrite IH.
Qed.

Lemma bool_sum_from (mask : list bool) (acc : Z) :
  fold_left (fun a (b : bool) => if b then (a + 1)%Z else a) mask acc
  = (acc + Z.of_nat (count_occ bool_dec mask true))%Z.
Proof.
  revert acc; induction mask as [|b mask IH]; intros acc; simpl.
  - lia.
  - rewrite IH. destruct b; simpl; lia.
Qed.

Lemma bool_sum_count (mask : list bool) :
  Pandas.bool_sum mask = Z.of_nat (count_occ bool_dec mask true).
Proof. unfold Pandas.bool_sum. now rewrite bool_sum_from. Qed.

(** ** The filter mask *)

Section Mask.
Variable G : Type.
Variables min_group_share min_income max_house_price : F64.t.

Lemma mask_rowwise (gdf : list (App.gdf_row G)) :
  App.current_filter_mask gdf min_group_share min_income max_house_price
  = map (RowWise.row_matches min_group_share min_income max_house_price)
        gdf.
Proof.
  unfold App.current_filter_mask.
  rewrite !map_map, series_and_map.
  rewrite (series_and_map
             (fun r => F64.geb (App.black_share r) min_group_share
                       && F64.geb (App.income r) min_income)).
  reflexivity.
Qed.

Lemma row_matches_iff (r : App.gdf_row G) :
  RowWise.row_matches min_group_share min_income max_house_price r = true
  <->
  F64Order.ge (App.black_share r) min_group_share
  /\ F64Order.ge (App.income r) min_income
  /\ F64Order.le (App.median_house_price r) max_house_price.
Proof.
  unfold RowWise.row_matches.
  rewrite !andb_true_iff, !geb_ge, leb_le. tauto.
Qed.
End Mask.

(** C1.  For every joined table and every triple of thresholds, the mask
    has one entry per row, the entry of a row is true exactly when
    black_share >= min_group_share and income >= min_income and
    median_house_price <= max_house_price, and the reported count is the
    number of true entries.  On the three-row scenario the mask is
    [true; false; false] and the count is 1. *)
Theorem filter_mask_rowwise :
  (forall (G : Type) (gdf : list (App.gdf_row G))
          (min_group_share min_income max_house_price : F64.t),
      Forall2
        (fun r (b : bool) =>
           b = true <->
           F64Order.ge (App.black_share r) min_group_share
           /\ F64Order.ge (App.income r) min_income
           /\ F64Order.le (App.median_house_price r) max_house_price)
        gdf
        (App.current_filter_mask gdf min_group_share min_income
           max_house_price)
      /\ App.match_count gdf min_group_share min_income max_house_price
         = Z.of_nat
             (count_occ bool_dec
                (App.current_filter_mask gdf min_group_share min_income
                   max_house_price) true))
  /\ App.current_filter_mask Scenario.gdf Scenario.min_group_share
       Scenario.min_income Scenario.max_house_price
     = [true; false; false]
  /\ App.match_count Scenario.gdf Scenario.min_group_share
       Scenario.min_income Scenario.max_house_price = 1%Z.
Proof.
  split; [|split; reflexivity].
  intros G gdf a b c. split.
  - rewrite mask_rowwise.
    induction gdf as [|r gdf IH]; simpl; constructor; [|exact IH].
    apply row_matches_iff.
  - unfold App.match_count. apply bool_sum_count.
Qed.

(** ** Python string methods *)

Section Strings.
Local Open Scope string_scope.

Lemma prefix_iff (p s : string) :
  String.prefix p s = true <-> exists rest, s = p ++ rest.
Proof.
  revert s; induction p as [|c p IH]; intros s; simpl.
  - split; [intros _; now exists s | intros _; now destruct s].
  - destruct s as [|d s]; simpl.
    + split; [discriminate | intros [rest H]; discriminate H].
    + destruct (Ascii.ascii_dec c d) as [->|Hcd].
      * rewrite IH. split; intros [rest H]; exists rest.
        -- now rewrite H.
        -- now inversion H.
      * split; [discriminate|].
        intros [rest H]. inversion H. congruence.
Qed.

Lemma startswith_iff (p s : string) :
  Str.startswith p s = true <-> exists rest, s = p ++ rest.
Proof. apply prefix_iff. Qed.

Lemma contains_iff (sub s : string) :
  Str.contains sub s = true <-> exists a b, s = a ++ sub ++ b.
Proof.
  induction s as [|c s IH]; cbn [Str.contains];
    rewrite orb_true_iff, prefix_iff.
  - split.
    + intros [[rest H]|H]; [|discriminate]. now exists "", rest.
    + intros [a [b H]]. left. destruct a; [now exists b | discriminate H].
  - rewrite IH. split.
    + intros [[rest H]|[a [b H]]].
      * now exists "", rest.
      * exists (String c a), b. simpl. now rewrite H.
    + intros [a [b H]]. destruct a as [|d a]; simpl in H.
      * left. now exists b.
      * right. inversion H. now exists a, b.
Qed.

Lemma endswith_iff (suf s : string) :
  Str.endswith suf s = true <-> exists a, s = a ++ suf.
Proof.
  induction s as [|c s IH]; cbn [Str.endswith];
    rewrite orb_true_iff, String.eqb_eq.
  - split.
    + intros [H|H]; [|discriminate]. now exists "".
    + intros [a H]. left. destruct a; [exact H | discriminate H].
  - rewrite IH. split.
    + intros [H|[a H]].
      * now exists "".
      * exists (String c a). simpl. now rewrite H.
    + intros [a H]. destruct a as [|d a]; simpl in H.
      * now left.
      * right. inversion H. now exists a.
Qed.
End Strings.

(** ** Shapefile selection *)

Lemma min_by_len_spec (others : list string) (best : string) :
  In (MapData.min_by_len best others) (best :: others)
  /\ Forall (fun m => String.length (MapData.min_by_len best others)
                      <= String.length m) (best :: others).
Proof.
  unfold MapData.min_by_len.
  revert best; induction others as [|m others IH]; intros best; simpl.
  - split; [now left | constructor; [lia | constructor]].
  - destruct (Nat.ltb_spec (String.length m) (String.length best)) as [Hlt|Hge].
    + destruct (IH m) as [Hin Hall]. split.
      * simpl in Hin. tauto.
      * inversion Hall as [|? ? Hm Hrest]; subst.
        constructor; [lia | now constructor].
    + destruct (IH best) as [Hin Hall]. split.
      * simpl in Hin. simpl. tauto.
      * inversion Hall as [|? ? Hb Hrest]; subst.
        constructor; [exact Hb | constructor; [lia | exact Hrest]].
Qed.

Lemma is_candidate_iff (m : string) :
  MapData.is_candidate m = true <->
  (exists a, Str.lower m = a ++ ".shp")%string
  /\ (exists a b, Str.lower m = a ++ "msoa" ++ b)%string
  /\ (exists a b, Str.lower m = a ++ "london" ++ b)%string.
Proof.
  unfold MapData.is_candidate.
  rewrite !andb_true_iff, endswith_iff, !contains_iff. tauto.
Qed.

(** C7 (as amended).  On every member list, the selection returns a member
    whose lower-cased name ends in ".shp" and contains "msoa" and "london",
    of least length among the members with these three properties; it
    raises exactly when no member has the three properties. *)
Theorem search_shp_member_spec (namelist : list string) :
  match MapData._search_shp_member namelist with
  | Ok chosen =>
      In chosen namelist
      /\ ((exists a, Str.lower chosen = a ++ ".shp")
          /\ (exists a b, Str.lower chosen = a ++ "msoa" ++ b)
          /\ (exists a b, Str.lower chosen = a ++ "london" ++ b))%string
      /\ Forall (fun m => MapData.is_candidate m = true ->
                          String.length chosen <= String.length m) namelist
  | Raise e =>
      e = RuntimeError "MSOA shapefile not found in boundary ZIP"
      /\ Forall (fun m => MapData.is_candidate m = false) namelist
  end.
Proof.
  unfold MapData._search_shp_member.
  destruct (filter MapData.is_candidate namelist) as [|first others] eqn:Hc.
  - split; [reflexivity|].
    apply Forall_forall. intros m Hm.
    destruct (MapData.is_candidate m) eqn:Hm'; [|reflexivity].
    assert (Hin : In m (filter MapData.is_candidate namelist))
      by (apply filter_In; now split).
    rewrite Hc in Hin. destruct Hin.
  - destruct (min_by_len_spec others first) as [Hin Hall].
    rewrite <- Hc in Hin, Hall.
    apply filter_In in Hin. destruct Hin as [Hin Hcand].
    split; [exact Hin|]. split; [now apply is_candidate_iff|].
    apply Forall_forall. intros m Hm Hm'.
    rewrite Forall_forall in Hall. apply Hall.
    apply filter_In. now split.
Qed.

(** C7, as stated: the only member contains both tokens, in any case, and
    the selection raises all the same; and with a second member, a
    shapefile, the selection returns it although the first member
    contains both tokens and has the shorter name. *)
Lemma search_shp_member_needs_shp :
  (Str.contains "msoa" (Str.lower "MSOA_London.dbf") = true
   /\ Str.contains "london" (Str.lower "MSOA_London.dbf") = true)
  /\ MapData._search_shp_member ["MSOA_London.dbf"%string]
     = Raise (RuntimeError "MSOA shapefile not found in boundary ZIP")
  /\ MapData._search_shp_member
       ["MSOA_London.dbf"%string; "MSOA_London_2011.shp"%string]
     = Ok "MSOA_London_2011.shp"%string
  /\ String.length "MSOA_London.dbf" < String.length "MSOA_London_2011.shp".
Proof. repeat split. simpl. lia. Qed.

(** ** Downloaded observations *)

Lemma collect_app (l1 l2 : list CensusApi.obs) :
  CensusApi.collect (l1 ++ l2) = CensusApi.collect l1 ++ CensusApi.collect l2.
Proof. apply flat_map_app. Qed.

(** C9.  An observation whose sex label is not "All persons" can be
    removed from the list without changing the rows collected or the
    result, error or table. *)
Theorem other_sex_is_skipped (before after : list CensusApi.obs)
        (o : CensusApi.obs)
        (Hsex : String.eqb (CensusApi.sex_label o) "All persons" = false) :
  CensusApi.collect (before ++ o :: after)
  = CensusApi.collect (before ++ after)
  /\ CensusApi.process_observations (before ++ o :: after)
     = CensusApi.process_observations (before ++ after).
Proof.
  assert (Hc : CensusApi.collect (before ++ o :: after)
               = CensusApi.collect (before ++ after)).
  { rewrite !collect_app. f_equal.
    unfold CensusApi.collect at 1. simpl.
    unfold CensusApi.ALL_PERSONS. now rewrite Hsex. }
  split; [exact Hc|].
  unfold CensusApi.process_observations. now rewrite Hc.
Qed.

Lemma other_sex_is_skipped_witness :
  String.eqb (CensusApi.sex_label
                (CensusApi.mk "E02000001" "All ethnic groups" "Female" 260))
             "All persons" = false
  /\ CensusApi.process_observations
       [ CensusApi.mk "E02000001" "All ethnic groups" "All persons" 500;
         CensusApi.mk "E02000001" "All ethnic groups" "Female" 260;
         CensusApi.mk "E02000001"
           "Black, Black British, Black Welsh, Caribbean or African"
           "All persons" 50 ]
     = CensusApi.process_observations
       [ CensusApi.mk "E02000001" "All ethnic groups" "All persons" 500;
         CensusApi.mk "E02000001"
           "Black, Black British, Black Welsh, Caribbean or African"
           "All persons" 50 ].
Proof.
  split; [reflexivity|].
  apply (other_sex_is_skipped
           [CensusApi.mk "E02000001" "All ethnic groups" "All persons" 500]
           [CensusApi.mk "E02000001"
              "Black, Black British, Black Welsh, Caribbean or African"
              "All persons" 50]
           (CensusApi.mk "E02000001" "All ethnic groups" "Female" 260)).
  reflexivity.
Defined.

(** ** groupby-sum *)

Section GroupBy.
Local Open Scope Z_scope.

Lemma compare_gt_lt (a b : string) :
  String.compare a b = Gt -> String_as_OT.lt b a.
Proof.
  intros H. apply String_as_OT.cmp_lt. unfold String_as_OT.cmp.
  rewrite String.compare_antisym, H. reflexivity.
Qed.

Lemma lt_neq (a b : string) : String_as_OT.lt a b -> a <> b.
Proof. intros H E. eapply String_as_OT.lt_not_eq; eassumption. Qed.

Lemma lt_lt (a b c : string) :
  String_as_OT.lt a b -> String_as_OT.lt b c -> String_as_OT.lt a c.
Proof. apply String_as_OT.lt_trans. Qed.

Lemma add_group_keys (k : string) (v : Z) (acc : list (string * Z))
      (k' : string) :
  In k' (map fst (Pandas.add_group k v acc)) <->
  k' = k \/ In k' (map fst acc).
Proof.
  induction acc as [|[k0 v0] acc IH]; simpl.
  - intuition congruence.
  - destruct (String.compare k k0) eqn:Hc; simpl.
    + apply String.compare_eq_iff in Hc. subst k0. intuition congruence.
    + intuition congruence.
    + rewrite IH. intuition congruence.
Qed.

Lemma add_group_sorted (k : string) (v : Z) (acc : list (string * Z)) :
  StronglySorted String_as_OT.lt (map fst acc) ->
  StronglySorted String_as_OT.lt (map fst (Pandas.add_group k v acc)).
Proof.
  induction acc as [|[k0 v0] acc IH]; simpl; intros Hs.
  - constructor; constructor.
  - inversion Hs as [|? ? Hs' Hall]; subst.
    destruct (String.compare k k0) eqn:Hc; simpl.
    + exact Hs.
    + apply String_as_OT.cmp_lt in Hc.
      constructor; [exact Hs|].
      constructor; [exact Hc|].
      eapply Forall_impl; [|exact Hall].
      intros x Hx. exact (lt_lt Hc Hx).
    + apply compare_gt_lt in Hc.
      constructor; [now apply IH|].
      apply Forall_forall. intros x Hx.
      apply add_group_keys in Hx. destruct Hx as [->|Hx]; [exact Hc|].
      rewrite Forall_forall in Hall. now apply Hall.
Qed.

(** Adding to a wrapped sum and wrapping is wrapping the sum. *)
Lemma int64_add (a b : Z) :
  Pandas.int64 (Pandas.int64 a + b) = Pandas.int64 (a + b).
Proof.
  unfold Pandas.int64. f_equal.
  replace ((a + 2 ^ 63) mod 2 ^ 64 - 2 ^ 63 + b + 2 ^ 63)
    with ((a + 2 ^ 63) mod 2 ^ 64 + b) by ring.
  rewrite Zplus_mod_idemp_l. f_equal. ring.
Qed.

(** A sum that fits the column is not changed. *)
Lemma int64_fits (z : Z) :
  - 2 ^ 63 <= z < 2 ^ 63 -> Pandas.int64 z = z.
Proof.
  intros H. unfold Pandas.int64.
  change (2 ^ 64) with (2 * 2 ^ 63).
  rewrite Z.mod_small; lia.
Qed.

Lemma int64_range (z : Z) : - 2 ^ 63 <= Pandas.int64 z < 2 ^ 63.
Proof.
  unfold Pandas.int64.
  pose proof (Z.mod_pos_bound (z + 2 ^ 63) (2 ^ 64) eq_refl) as H.
  change (2 ^ 64) with (2 * 2 ^ 63) in *. lia.
Qed.

(** If every group holds the wrapped [f key], and [f k] is zero when [k]
    has no group yet, then after adding [v] under [k] the group of [k]
    holds the wrapped [f k + v] and the others are unchanged. *)
Lemma add_group_values (f : string -> Z) (k : string) (v : Z)
      (acc : list (string * Z)) :
  StronglySorted String_as_OT.lt (map fst acc) ->
  Forall (fun kv => snd kv = Pandas.int64 (f (fst kv))) acc ->
  (~ In k (map fst acc) -> f k = 0) ->
  Forall (fun kv => snd kv
                    = Pandas.int64
                        (f (fst kv)
                         + (if String.eqb (fst kv) k then v else 0)))
         (Pandas.add_group k v acc).
Proof.
  induction acc as [|[k0 v0] acc IH]; simpl; intros Hs Hf Hnew.
  - constructor; [|constructor]. simpl.
    rewrite String.eqb_refl, Hnew; tauto.
  - inversion Hs as [|? ? Hs' Hall]; subst.
    inversion Hf as [|? ? Hf0 Hf']; subst. simpl in Hf0.
    assert (Hgt : Forall (fun kv => String_as_OT.lt k0 (fst kv)) acc).
    { apply Forall_forall. intros kv Hkv.
      rewrite Forall_forall in Hall. apply Hall. now apply in_map. }
    destruct (String.compare k k0) eqn:Hc.
    + apply String.compare_eq_iff in Hc. subst k0.
      constructor.
      * simpl. rewrite String.eqb_refl, Hf0. apply int64_add.
      * apply Forall_forall. intros kv Hkv.
        rewrite Forall_forall in Hf', Hgt.
        assert (Hne : fst kv <> k)
          by (intros E; apply (lt_neq (Hgt kv Hkv)); now rewrite E).
        apply String.eqb_neq in Hne.
        rewrite Hne, (Hf' kv Hkv), Z.add_0_r. reflexivity.
    + apply String_as_OT.cmp_lt in Hc.
      assert (Hk : f k = 0).
      { apply Hnew. intros [E|Hin].
        - apply (lt_neq Hc). now rewrite E.
        - apply in_map_iff in Hin. destruct Hin as [kv [E Hkv]].
          rewrite Forall_forall in Hgt. specialize (Hgt kv Hkv).
          rewrite E in Hgt.
          exact (lt_neq (lt_lt Hc Hgt) eq_refl). }
      constructor; [simpl; rewrite String.eqb_refl, Hk; reflexivity|].
      constructor.
      * simpl.
        assert (Hne : k0 <> k)
          by (intros E; apply (lt_neq Hc); now rewrite E).
        apply String.eqb_neq in Hne. rewrite Hne, Hf0, Z.add_0_r.
        reflexivity.
      * apply Forall_forall. intros kv Hkv.
        rewrite Forall_forall in Hf', Hgt.
        assert (Hne : fst kv <> k).
        { intros E. specialize (Hgt kv Hkv). rewrite E in Hgt.
          exact (lt_neq (lt_lt Hc Hgt) eq_refl). }
        apply String.eqb_neq in Hne.
        rewrite Hne, (Hf' kv Hkv), Z.add_0_r. reflexivity.
    + apply compare_gt_lt in Hc.
      constructor.
      * simpl. assert (Hne : k0 <> k) by (apply lt_neq; exact Hc).
        apply String.eqb_neq in Hne. rewrite Hne, Hf0, Z.add_0_r.
        reflexivity.
      * apply IH; [exact Hs' | exact Hf' |].
        intros Hn. apply Hnew. intros [E|Hin]; [|now apply Hn].
        apply (lt_neq Hc). exact E.
Qed.

Lemma groupby_sum_snoc (rows : list (string * Z)) (r : string * Z) :
  Pandas.groupby_sum (rows ++ [r])
  = Pandas.add_group (fst r) (snd r) (Pandas.groupby_sum rows).
Proof. unfold Pandas.groupby_sum. now rewrite fold_left_app. Qed.

Lemma groupby_sum_keys (rows : list (string * Z)) (k : string) :
  In k (map fst (Pandas.groupby_sum rows)) <-> In k (map fst rows).
Proof.
  induction rows as [|r rows IH] using rev_ind.
  - reflexivity.
  - rewrite groupby_sum_snoc, add_group_keys, IH, map_app, in_app_iff.
    simpl. intuition congruence.
Qed.

Lemma groupby_sum_sorted (rows : list (string * Z)) :
  StronglySorted String_as_OT.lt (map fst (Pandas.groupby_sum rows)).
Proof.
  induction rows as [|r rows IH] using rev_ind.
  - constructor.
  - rewrite groupby_sum_snoc. now apply add_group_sorted.
Qed.

Lemma sum_for_snoc (k : string) (rows : list (string * Z)) (r : string * Z) :
  PerArea.sum_for k (rows ++ [r])
  = PerArea.sum_for k rows + (if String.eqb k (fst r) then snd r else 0).
Proof.
  unfold PerArea.sum_for. rewrite filter_app, map_app. simpl.
  rewrite (String.eqb_sym k).
  generalize (map snd (filter (fun r0 => String.eqb (fst r0) k) rows)).
  intros l. destruct (String.eqb (fst r) k); simpl;
    induction l as [|x l IHl]; simpl; lia.
Qed.

Lemma sum_for_absent (k : string) (rows : list (string * Z)) :
  ~ In k (map fst rows) -> PerArea.sum_for k rows = 0.
Proof.
  unfold PerArea.sum_for. induction rows as [|r rows IH]; simpl; intros Hn.
  - reflexivity.
  - destruct (String.eqb (fst r) k) eqn:E.
    + apply String.eqb_eq in E. tauto.
    + apply IH. tauto.
Qed.

Lemma groupby_sum_values (rows : list (string * Z)) :
  Forall (fun kv => snd kv = Pandas.int64 (PerArea.sum_for (fst kv) rows))
         (Pandas.groupby_sum rows).
Proof.
  induction rows as [|r rows IH] using rev_ind.
  - constructor.
  - rewrite groupby_sum_snoc.
    eapply Forall_impl;
      [|apply (add_group_values (fun k => PerArea.sum_for k rows));
        [apply groupby_sum_sorted | exact IH |]].
    + intros kv H. simpl in H. now rewrite sum_for_snoc.
    + intros Hn. apply sum_for_absent.
      now rewrite <- groupby_sum_keys.
Qed.
End GroupBy.

(** ** Merging on a key column without duplicates *)

Lemma matching_none (k : string) (t : list (string * Z)) :
  Forall (fun y => fst y <> k) t -> Pandas.matching fst k t = [].
Proof.
  unfold Pandas.matching. induction t as [|y t IH]; simpl; intros H.
  - reflexivity.
  - inversion H as [|? ? Hy Ht]; subst.
    apply String.eqb_neq in Hy. rewrite Hy. now apply IH.
Qed.

Lemma matching_sorted_unique (t : list (string * Z)) (kv : string * Z) :
  StronglySorted String_as_OT.lt (map fst t) ->
  In kv t -> Pandas.matching fst (fst kv) t = [kv].
Proof.
  induction t as [|y t IH]; simpl; intros Hs Hin; [destruct Hin|].
  inversion Hs as [|? ? Hs' Hall]; subst.
  assert (Hgt : Forall (fun z => String_as_OT.lt (fst y) (fst z)) t).
  { apply Forall_forall. intros z Hz.
    rewrite Forall_forall in Hall. apply Hall. now apply in_map. }
  destruct Hin as [->|Hin].
  - unfold Pandas.matching. simpl. rewrite String.eqb_refl. f_equal.
    apply matching_none.
    eapply Forall_impl; [|exact Hgt].
    intros z Hz E. apply (lt_neq Hz). now rewrite E.
  - unfold Pandas.matching. simpl.
    rewrite Forall_forall in Hgt.
    assert (Hne : fst y <> fst kv) by (apply lt_neq; now apply Hgt).
    apply String.eqb_neq in Hne. rewrite Hne. now apply IH.
Qed.

Lemma flat_map_singleton (A B : Type) (f : A -> list B) (g : A -> B)
      (l : list A) :
  (forall x, In x l -> f x = [g x]) -> flat_map f l = map g l.
Proof.
  induction l as [|x l IH]; simpl; intros H; [reflexivity|].
  rewrite (H x (or_introl eq_refl)). simpl. f_equal.
  apply IH. intros y Hy. apply H. now right.
Qed.

(** ** The local-CSV ethnicity reader *)

Section CensusReader.
Local Open Scope Z_scope.

Lemma sum_for_geo (a : string) (l : list CensusCsv.row) :
  PerArea.sum_for a (map CensusCsv.geo_value l)
  = PerArea.sum_where (PerArea.in_area a) l.
Proof.
  unfold PerArea.sum_for, PerArea.sum_where, PerArea.in_area.
  induction l as [|r l IH]; simpl; [reflexivity|].
  destruct (String.eqb (CensusCsv.geo r) a); simpl; now rewrite IH.
Qed.

Lemma sum_where_filter (p q : CensusCsv.row -> bool)
      (l : list CensusCsv.row) :
  PerArea.sum_where p (filter q l)
  = PerArea.sum_where (fun r => p r && q r) l.
Proof.
  unfold PerArea.sum_where.
  induction l as [|r l IH]; simpl; [reflexivity|].
  destruct (q r), (p r) eqn:Hp; simpl; rewrite ?Hp; simpl;
    now rewrite IH.
Qed.

Lemma sum_where_ext (p q : CensusCsv.row -> bool) (l : list CensusCsv.row) :
  (forall r, In r l -> p r = q r) ->
  PerArea.sum_where p l = PerArea.sum_where q l.
Proof.
  unfold PerArea.sum_where.
  induction l as [|r l IH]; simpl; intros H; [reflexivity|].
  rewrite <- (H r (or_introl eq_refl)).
  destruct (p r); simpl; rewrite IH; auto.
Qed.

Lemma in_area_region (a : string) (r : CensusCsv.row) :
  Str.startswith CensusCsv.MSOA_PREFIX a = true ->
  PerArea.in_area a r && PerArea.in_region r = PerArea.in_area a r.
Proof.
  intros Ha. unfold PerArea.in_area, PerArea.in_region.
  destruct (String.eqb (CensusCsv.geo r) a) eqn:E; [|reflexivity].
  apply String.eqb_eq in E. now rewrite E, Ha.
Qed.

(** The areas of [black_sum] are areas of the region. *)
Lemma black_areas_in (df : list CensusCsv.row) (a : string) :
  In a (PerArea.black_areas df) <->
  exists r, In r df /\ CensusCsv.geo r = a
            /\ PerArea.in_region r = true /\ PerArea.is_black r = true.
Proof.
  unfold PerArea.black_areas.
  rewrite groupby_sum_keys, map_map, in_map_iff.
  split; intros [r H]; exists r.
  - destruct H as [Hg Hr]. apply filter_In in Hr. destruct Hr as [Hr Hb].
    apply filter_In in Hr. tauto.
  - destruct H as [Hr [Hg [Hreg Hb]]]. split; [exact Hg|].
    apply filter_In. split; [|exact Hb]. apply filter_In. now split.
Qed.

Lemma black_areas_region (df : list CensusCsv.row) (a : string) :
  In a (PerArea.black_areas df) ->
  Str.startswith CensusCsv.MSOA_PREFIX a = true.
Proof.
  intros H. apply black_areas_in in H.
  destruct H as [r [_ [<- [Hreg _]]]]. exact Hreg.
Qed.

Lemma black_areas_sorted (df : list CensusCsv.row) :
  StronglySorted String_as_OT.lt (PerArea.black_areas df).
Proof. apply groupby_sum_sorted. Qed.

(** The reader's table, row by row: one row per area of [black_sum],
    carrying the two sums of that area as int64 cells. *)
Lemma process_census_data_rows (df : list CensusCsv.row) :
  CensusCsv.process_census_data df
  = map (fun a => BlackPop.mk a (Pandas.int64 (PerArea.group_count df a))
                              (Pandas.int64 (PerArea.total_population df a)))
        (PerArea.black_areas df).
Proof.
  unfold CensusCsv.process_census_data, Pandas.merge_inner.
  fold PerArea.in_region. fold PerArea.is_black.
  set (msoa_data := filter PerArea.in_region df).
  set (total := Pandas.groupby_sum (map CensusCsv.geo_value msoa_data)).
  set (black := filter PerArea.is_black msoa_data).
  set (black_sum := Pandas.groupby_sum (map CensusCsv.geo_value black)).
  unfold PerArea.black_areas. fold msoa_data. fold black. fold black_sum.
  rewrite map_map.
  apply flat_map_singleton. intros [a b] Hab. simpl.
  assert (Ha : In a (PerArea.black_areas df)).
  { unfold PerArea.black_areas. fold msoa_data. fold black. fold black_sum.
    change a with (fst (a, b)). now apply in_map. }
  pose proof (black_areas_region _ _ Ha) as Hreg.
  (* the value of the group *)
  assert (Hb : b = Pandas.int64 (PerArea.group_count df a)).
  { pose proof (groupby_sum_values (map CensusCsv.geo_value black)) as Hv.
    rewrite Forall_forall in Hv. specialize (Hv _ Hab). simpl in Hv.
    rewrite Hv, sum_for_geo. unfold black, msoa_data. f_equal.
    rewrite !sum_where_filter. unfold PerArea.group_count.
    apply sum_where_ext. intros r _.
    rewrite <- (in_area_region a r Hreg) at 2.
    destruct (PerArea.in_area a r), (PerArea.is_black r),
      (PerArea.in_region r); reflexivity. }
  (* the row of [total] with the same key *)
  assert (Hkey : In a (map fst total)).
  { unfold total. rewrite groupby_sum_keys, map_map.
    apply black_areas_in in Ha. destruct Ha as [r [Hr [Hg [Hrg _]]]].
    apply in_map_iff. exists r. split; [exact Hg|].
    apply filter_In. now split. }
  apply in_map_iff in Hkey. destruct Hkey as [[a' p] [Ea Hp]].
  simpl in Ea. subst a'.
  rewrite (@matching_sorted_unique total (a, p) (groupby_sum_sorted _) Hp
           : Pandas.matching fst a total = [(a, p)]).
  simpl. f_equal. f_equal; [exact Hb|].
  pose proof (groupby_sum_values (map CensusCsv.geo_value msoa_data)) as Hv.
  rewrite Forall_forall in Hv. specialize (Hv _ Hp). simpl in Hv.
  rewrite Hv, sum_for_geo. unfold msoa_data. f_equal.
  rewrite sum_where_filter. unfold PerArea.total_population.
  apply sum_where_ext. intros r _. now apply in_area_region.
Qed.
End CensusReader.

(** C4.  On a census file whose observation column is int64, every row
    of the reader's table is an area with the region prefix, its
    population is the sum of the observation over all rows of that area
    and its black_count the sum over the rows of that area whose label
    starts with the tracked-group prefix, each reduced into the int64
    range, hence the sum itself when the sum is in that range; and an area
    with the region prefix that has such a row has its row, with these two
    cells, in the table.  On the two-row scenario the table is the single
    row (E02000001, 50, 500), and the share computed from it is 1/10. *)
Theorem census_reader_sums :
  (forall df : list CensusCsv.row,
      Forall CensusCsv.int64_cell df ->
      Forall (fun r =>
                Str.startswith "E02" (BlackPop.msoa r) = true
                /\ BlackPop.population r
                   = Pandas.int64
                       (PerArea.total_population df (BlackPop.msoa r))
                /\ BlackPop.black_count r
                   = Pandas.int64 (PerArea.group_count df (BlackPop.msoa r))
                /\ ((- 2 ^ 63 <= PerArea.total_population df (BlackPop.msoa r)
                     < 2 ^ 63)%Z ->
                    BlackPop.population r
                    = PerArea.total_population df (BlackPop.msoa r))
                /\ ((- 2 ^ 63 <= PerArea.group_count df (BlackPop.msoa r)
                     < 2 ^ 63)%Z ->
                    BlackPop.black_count r
                    = PerArea.group_count df (BlackPop.msoa r)))
             (CensusCsv.process_census_data df)
      /\ forall r0 : CensusCsv.row,
          In r0 df ->
          Str.startswith "E02" (CensusCsv.geo r0) = true ->
          Str.startswith
            "Black, Black British, Black Welsh, Caribbean or African:"
            (CensusCsv.ethnic r0) = true ->
          In (BlackPop.mk (CensusCsv.geo r0)
                (Pandas.int64 (PerArea.group_count df (CensusCsv.geo r0)))
                (Pandas.int64
                   (PerArea.total_population df (CensusCsv.geo r0))))
             (CensusCsv.process_census_data df))
  /\ CensusCsv.process_census_data Scenario.census
     = [BlackPop.mk "E02000001" 50 500]
  /\ MapData.load_black_population
       (CensusCsv.process_census_data Scenario.census)
     = [BlackShare.mk "E02000001" 50 500 (F64.Fin (1 # 10))].
Proof.
  split; [|split; reflexivity].
  intros df _. rewrite process_census_data_rows. split.
  - apply Forall_forall. intros r Hr.
    apply in_map_iff in Hr. destruct Hr as [a [<- Ha]]. simpl.
    split; [exact (black_areas_region _ _ Ha)|].
    split; [reflexivity|]. split; [reflexivity|].
    split; intros Hfit; now apply int64_fits.
  - intros r0 Hr0 Hreg Hblack.
    apply (in_map (fun a => BlackPop.mk a
                              (Pandas.int64 (PerArea.group_count df a))
                              (Pandas.int64 (PerArea.total_population df a)))).
    apply black_areas_in. exists r0. auto.
Qed.

(** C4, the sum that leaves the range: the two lines of one area hold
    2^63 - 1 and 1, both int64 cells; their sum is 2^63 and the population
    of the table is -2^63. *)
Lemma census_sum_wraps :
  Forall CensusCsv.int64_cell Overflow.two_lines
  /\ CensusCsv.process_census_data Overflow.two_lines
     = [BlackPop.mk "E02000001" 1 (- 9223372036854775808)]
  /\ PerArea.total_population Overflow.two_lines "E02000001"
     = 9223372036854775808%Z.
Proof.
  split; [|split; reflexivity].
  repeat constructor; discriminate.
Qed.

Lemma sorted_nodup (l : list string) :
  StronglySorted String_as_OT.lt l -> NoDup l.
Proof.
  induction 1 as [|a l Hs IH Hall]; constructor; [|exact IH].
  intros Hin. rewrite Forall_forall in Hall.
  exact (lt_neq (Hall a Hin) eq_refl).
Qed.

Lemma process_census_data_areas (df : list CensusCsv.row) :
  map BlackPop.msoa (CensusCsv.process_census_data df)
  = PerArea.black_areas df.
Proof.
  rewrite process_census_data_rows, map_map. simpl. apply map_id.
Qed.

(** C10.  The areas of the reader's table are exactly the areas with the
    region prefix that have at least one row whose label starts with the
    tracked-group prefix, each of them once; an area without such a row
    has no row in the table. *)
Theorem census_reader_areas (df : list CensusCsv.row) :
  NoDup (map BlackPop.msoa (CensusCsv.process_census_data df))
  /\ forall a : string,
      In a (map BlackPop.msoa (CensusCsv.process_census_data df))
      <-> Str.startswith "E02" a = true
          /\ exists r, In r df
                       /\ CensusCsv.geo r = a
                       /\ Str.startswith
                            "Black, Black British, Black Welsh, Caribbean or African:"
                            (CensusCsv.ethnic r) = true.
Proof.
  rewrite process_census_data_areas. split.
  - apply sorted_nodup, black_areas_sorted.
  - intros a. rewrite black_areas_in. split.
    + intros [r [Hr [Hg [Hreg Hb]]]]. split.
      * unfold PerArea.in_region in Hreg. now rewrite Hg in Hreg.
      * exists r. auto.
    + intros [Ha [r [Hr [Hg Hb]]]]. exists r.
      repeat split; try assumption.
      unfold PerArea.in_region. now rewrite Hg.
Qed.

(** ** Shares *)

Section Shares.
Local Open Scope Z_scope.

Lemma sum_where_bounds (p q : CensusCsv.row -> bool)
      (l : list CensusCsv.row) :
  Forall (fun r => 0 <= CensusCsv.observation r) l ->
  (forall r, p r = true -> q r = true) ->
  0 <= PerArea.sum_where p l <= PerArea.sum_where q l.
Proof.
  unfold PerArea.sum_where. intros Hpos Hpq.
  induction Hpos as [|r l Hr Hl IH]; simpl; [lia|].
  destruct (p r) eqn:Hp.
  - rewrite (Hpq r Hp). simpl. lia.
  - destruct (q r); simpl; lia.
Qed.

(** When the total of the area of every line is below 2^63, so is the
    total of every area of the table. *)
Lemma sums_fit (df : list CensusCsv.row) (a : string) :
  Forall (fun r => PerArea.total_population df (CensusCsv.geo r) < 2 ^ 63)
         df ->
  In a (PerArea.black_areas df) ->
  PerArea.total_population df a < 2 ^ 63.
Proof.
  intros Hfit Ha. apply black_areas_in in Ha.
  destruct Ha as [r [Hr [<- _]]].
  rewrite Forall_forall in Hfit. now apply Hfit.
Qed.

Lemma truediv_int_unit (b p : Z) :
  0 <= b <= p -> p <> 0 ->
  exists q, F64.truediv_int b p = F64.Fin q /\ (0 <= q <= 1)%Q.
Proof.
  intros Hb Hp. unfold F64.truediv_int.
  destruct (Z.eqb_spec p 0) as [E|_]; [contradiction|].
  eexists. split; [reflexivity|].
  rewrite Qred_correct.
  assert (Hp' : (0 < inject_Z p)%Q)
    by (change 0%Q with (inject_Z 0); rewrite <- Zlt_Qlt; lia).
  split.
  - apply Qle_shift_div_l; [exact Hp'|].
    rewrite Qmult_0_l. change 0%Q with (inject_Z 0).
    rewrite <- Zle_Qle. lia.
  - apply Qle_shift_div_r; [exact Hp'|].
    rewrite Qmult_1_l. rewrite <- Zle_Qle. lia.
Qed.
End Shares.

(** C5.  When no observation is negative and the observations of every
    area sum to less than 2^63, every row of the table has
    0 <= black_count <= population, and where the population is not zero
    its share is a finite value between 0 and 1. *)
Theorem group_share_in_unit_interval (df : list CensusCsv.row)
        (Hpos : Forall (fun r => (0 <= CensusCsv.observation r)%Z) df)
        (Hfit : Forall (fun r => (PerArea.total_population
                                    df (CensusCsv.geo r) < 2 ^ 63)%Z) df) :
  Forall (fun r =>
            (0 <= BlackShare.black_count r <= BlackShare.population r)%Z
            /\ (BlackShare.population r <> 0%Z ->
                exists q, BlackShare.black_share r = F64.Fin q
                          /\ (0 <= q <= 1)%Q))
         (MapData.load_black_population (CensusCsv.process_census_data df)).
Proof.
  rewrite process_census_data_rows. unfold MapData.load_black_population.
  rewrite map_map. apply Forall_forall. intros r Hr.
  apply in_map_iff in Hr. destruct Hr as [a [<- Ha]]. simpl.
  assert (Hb : (0 <= PerArea.group_count df a
                <= PerArea.total_population df a)%Z).
  { apply sum_where_bounds; [exact Hpos|].
    intros r Hr. apply andb_true_iff in Hr. tauto. }
  pose proof (sums_fit a Hfit Ha) as Ht.
  rewrite !int64_fits by lia.
  split; [exact Hb|].
  intros Hp. now apply truediv_int_unit.
Qed.

Lemma group_share_in_unit_interval_witness :
  Forall (fun r => (0 <= CensusCsv.observation r)%Z) Scenario.census
  /\ Forall (fun r => (PerArea.total_population
                         Scenario.census (CensusCsv.geo r) < 2 ^ 63)%Z)
            Scenario.census
  /\ Forall (fun r =>
               (0 <= BlackShare.black_count r <= BlackShare.population r)%Z
               /\ (BlackShare.population r <> 0%Z ->
                   exists q, BlackShare.black_share r = F64.Fin q
                             /\ (0 <= q <= 1)%Q))
            (MapData.load_black_population
               (CensusCsv.process_census_data Scenario.census)).
Proof.
  assert (H : Forall (fun r => (0 <= CensusCsv.observation r)%Z)
                     Scenario.census)
    by (repeat constructor; simpl; lia).
  assert (F : Forall (fun r => (PerArea.total_population
                                  Scenario.census (CensusCsv.geo r)
                                < 2 ^ 63)%Z) Scenario.census)
    by (repeat constructor; reflexivity).
  split; [exact H | split; [exact F|]].
  exact (group_share_in_unit_interval H F).
Defined.

(** C5, non-negative observations with a share below zero: three lines
    of 2^62 in one area, one of them of the tracked group, give the
    population -2^62, the count 2^62 and the share -1. *)
Lemma share_below_zero :
  Forall (fun r => (0 <= CensusCsv.observation r)%Z) Overflow.three_lines
  /\ Forall CensusCsv.int64_cell Overflow.three_lines
  /\ MapData.load_black_population
       (CensusCsv.process_census_data Overflow.three_lines)
     = [BlackShare.mk "E02000001" 4611686018427387904
          (- 4611686018427387904) (F64.Fin (- 1))].
Proof.
  split; [repeat constructor; discriminate|].
  split; [repeat constructor; discriminate|].
  reflexivity.
Qed.

(** ** Left merges *)

Section LeftMerge.
Variables A B : Type.
Variable keyA : A -> string.
Variable keyB : B -> string.

Lemma matching_in (k : string) (right : list B) (y : B) :
  In y (Pandas.matching keyB k right) <-> In y right /\ keyB y = k.
Proof.
  unfold Pandas.matching. rewrite filter_In, String.eqb_eq. tauto.
Qed.

Lemma matching_absent (k : string) (right : list B) :
  ~ In k (map keyB right) -> Pandas.matching keyB k right = [].
Proof.
  intros Hn. destruct (Pandas.matching keyB k right) as [|y ys] eqn:E;
    [reflexivity|].
  exfalso. apply Hn.
  assert (Hy : In y (Pandas.matching keyB k right))
    by (rewrite E; now left).
  apply matching_in in Hy. destruct Hy as [Hy <-]. now apply in_map.
Qed.

Lemma matching_nodup (k : string) (right : list B) :
  NoDup (map keyB right) ->
  (List.length (Pandas.matching keyB k right) <= 1)%nat.
Proof.
  induction right as [|y right IH]; simpl; intros Hnd; [lia|].
  inversion Hnd as [|? ? Hy Hnd']; subst.
  unfold Pandas.matching in *. simpl.
  destruct (String.eqb (keyB y) k) eqn:E.
  - apply String.eqb_eq in E. subst k.
    fold (Pandas.matching keyB (keyB y) right).
    rewrite (@matching_absent (keyB y) right Hy). simpl. lia.
  - now apply IH.
Qed.

Lemma merge_left_in (left : list A) (right : list B) (x : A) (o : option B) :
  In (x, o) (Pandas.merge_left keyA keyB pair left right) ->
  In x left
  /\ forall y, o = Some y -> In y right /\ keyB y = keyA x.
Proof.
  unfold Pandas.merge_left. rewrite in_flat_map.
  intros [x' [Hx' Hin]].
  destruct (Pandas.matching keyB (keyA x') right) as [|m ms] eqn:E.
  - destruct Hin as [Hin|[]]. inversion Hin; subst.
    split; [exact Hx'|]. intros y Hy. discriminate Hy.
  - apply in_map_iff in Hin. destruct Hin as [y [Hy Hin]].
    inversion Hy; subst. split; [exact Hx'|].
    intros y' Hy'. inversion Hy'; subst y'.
    apply matching_in. now rewrite E.
Qed.

(** With distinct keys on the right, a left merge keeps the left rows
    as they are, one output row each. *)
Lemma merge_left_fst (left : list A) (right : list B) :
  NoDup (map keyB right) ->
  map fst (Pandas.merge_left keyA keyB pair left right) = left.
Proof.
  intros Hnd. unfold Pandas.merge_left.
  induction left as [|x left IH]; [reflexivity|].
  cbn [flat_map]. rewrite map_app, IH.
  pose proof (@matching_nodup (keyA x) right Hnd) as Hlen.
  destruct (Pandas.matching keyB (keyA x) right) as [|m [|m' ms]];
    simpl in *; [reflexivity | reflexivity | lia].
Qed.
End LeftMerge.

Lemma nodup_map_filter (A K : Type) (f : A -> K) (p : A -> bool)
      (l : list A) :
  NoDup (map f l) -> NoDup (map f (filter p l)).
Proof.
  induction l as [|x l IH]; simpl; intros Hnd; [constructor|].
  inversion Hnd as [|? ? Hx Hnd']; subst.
  destruct (p x); simpl; [|now apply IH].
  constructor; [|now apply IH].
  intros Hin. apply Hx.
  apply in_map_iff in Hin. destruct Hin as [y [E Hy]].
  apply filter_In in Hy. rewrite <- E. apply in_map. tauto.
Qed.

(** ** The joiner *)

Section JoinerFacts.
Variable G : Type.
Variable gdf : list (Shapes.row G).
Variable income_df : list Income.row.
Variable black_df : list BlackShare.row.
Variable housing_df : list Housing.row.

Lemma load_all_data_complete :
  Forall (fun r => F64.isna (App.black_share r) = false
                   /\ F64.isna (App.income r) = false
                   /\ F64.isna (App.median_house_price r) = false)
         (App.load_all_data gdf income_df black_df housing_df).
Proof.
  unfold App.load_all_data. apply Forall_forall. intros r Hr.
  apply filter_In in Hr. destruct Hr as [_ Hc].
  unfold App.complete in Hc.
  rewrite !andb_true_iff, !negb_true_iff in Hc. tauto.
Qed.

(** Where a row of the joined table comes from. *)
Lemma load_all_data_sources (r : App.gdf_row G) :
  In r (App.load_all_data gdf income_df black_df housing_df) ->
  (F64.isna (App.income r) = false ->
   In (App.msoa r) (map Income.msoa income_df))
  /\ (F64.isna (App.black_share r) = false ->
      In (App.msoa r) (map BlackShare.msoa black_df))
  /\ (F64.isna (App.median_house_price r) = false ->
      In (App.msoa r) (map Housing.msoa housing_df)).
Proof.
  unfold App.load_all_data. intros Hr.
  apply filter_In in Hr. destruct Hr as [Hr _].
  destruct r as [[[s oi] ob] oh].
  apply merge_left_in in Hr. destruct Hr as [Hr2 Hh].
  pose proof Hr2 as Hr1.
  apply merge_left_in in Hr1. destruct Hr1 as [Hr1 Hb].
  apply merge_left_in in Hr1. destruct Hr1 as [_ Hi].
  unfold App.income, App.black_share, App.median_house_price, App.msoa,
    App.shape. simpl in *.
  repeat split; intros Hna.
  - destruct oi as [i|]; [|discriminate Hna].
    destruct (Hi i eq_refl) as [Hin <-]. now apply in_map.
  - destruct ob as [b|]; [|discriminate Hna].
    destruct (Hb b eq_refl) as [Hin <-]. now apply in_map.
  - destruct oh as [h|]; [|discriminate Hna].
    destruct (Hh h eq_refl) as [Hin <-]. now apply in_map.
Qed.

Hypothesis income_keys : NoDup (map Income.msoa income_df).
Hypothesis black_keys : NoDup (map BlackShare.msoa black_df).
Hypothesis housing_keys : NoDup (map Housing.msoa housing_df).

(** With distinct codes in the three right-hand tables, the code
    column of the merged frame is that of the geometry table. *)
Lemma merged_codes :
  map (@App.msoa G)
      (Pandas.merge_left (fun r => Shapes.msoa (fst (fst r))) Housing.msoa
         pair
         (Pandas.merge_left (fun r => Shapes.msoa (fst r)) BlackShare.msoa
            pair
            (Pandas.merge_left (@Shapes.msoa G) Income.msoa pair
               gdf income_df)
            black_df)
         housing_df)
  = map (@Shapes.msoa G) gdf.
Proof.
  rewrite <- (@merge_left_fst _ _ (@Shapes.msoa G) Income.msoa
                gdf income_df income_keys) at 2.
  rewrite <- (@merge_left_fst _ _ (fun r => Shapes.msoa (fst r))
                BlackShare.msoa
                (Pandas.merge_left (@Shapes.msoa G) Income.msoa pair
                   gdf income_df) black_df black_keys) at 2.
  rewrite <- (@merge_left_fst _ _ (fun r => Shapes.msoa (fst (fst r)))
                Housing.msoa
                (Pandas.merge_left (fun r => Shapes.msoa (fst r))
                   BlackShare.msoa pair
                   (Pandas.merge_left (@Shapes.msoa G) Income.msoa pair
                      gdf income_df) black_df)
                housing_df housing_keys) at 2.
  rewrite !map_map. reflexivity.
Qed.

Lemma load_all_data_length :
  List.length (App.load_all_data gdf income_df black_df housing_df)
  <= List.length gdf.
Proof.
  unfold App.load_all_data.
  etransitivity; [apply filter_length_le|].
  rewrite <- (length_map (@App.msoa G)), merged_codes, length_map.
  apply le_n.
Qed.

Hypothesis geometry_keys : NoDup (map (@Shapes.msoa G) gdf).

Lemma load_all_data_codes_nodup :
  NoDup (map (@App.msoa G)
             (App.load_all_data gdf income_df black_df housing_df)).
Proof.
  unfold App.load_all_data. apply nodup_map_filter.
  rewrite merged_codes. exact geometry_keys.
Qed.
End JoinerFacts.

(** C2 (as amended).  Every row of the joined table has non-missing
    black_share, income and median_house_price; and when no area code
    occurs twice within any of the four input tables, the joined table has
    at most as many rows as each of them. *)
Theorem joiner_rows_bounded (G : Type)
        (gdf : list (Shapes.row G)) (income_df : list Income.row)
        (black_df : list BlackShare.row) (housing_df : list Housing.row) :
  Forall (fun r => F64.isna (App.black_share r) = false
                   /\ F64.isna (App.income r) = false
                   /\ F64.isna (App.median_house_price r) = false)
         (App.load_all_data gdf income_df black_df housing_df)
  /\ (NoDup (map (@Shapes.msoa G) gdf) ->
      NoDup (map Income.msoa income_df) ->
      NoDup (map BlackShare.msoa black_df) ->
      NoDup (map Housing.msoa housing_df) ->
      List.length (App.load_all_data gdf income_df black_df housing_df)
      <= List.length gdf
      /\ List.length (App.load_all_data gdf income_df black_df housing_df)
         <= List.length income_df
      /\ List.length (App.load_all_data gdf income_df black_df housing_df)
         <= List.length black_df
      /\ List.length (App.load_all_data gdf income_df black_df housing_df)
         <= List.length housing_df).
Proof.
  split; [apply load_all_data_complete|].
  intros geometry_keys income_keys black_keys housing_keys.
  pose proof (@load_all_data_codes_nodup G gdf income_df black_df housing_df
                income_keys black_keys housing_keys geometry_keys) as Hnd.
  pose proof (load_all_data_complete gdf income_df black_df housing_df)
    as Hc.
  rewrite Forall_forall in Hc.
  assert (Hsrc : forall r,
             In r (App.load_all_data gdf income_df black_df housing_df) ->
             In (App.msoa r) (map Income.msoa income_df)
             /\ In (App.msoa r) (map BlackShare.msoa black_df)
             /\ In (App.msoa r) (map Housing.msoa housing_df)).
  { intros r Hr. destruct (Hc r Hr) as [H1 [H2 H3]].
    destruct (@load_all_data_sources G gdf income_df black_df housing_df
                r Hr) as [S1 [S2 S3]].
    auto. }
  split; [now apply load_all_data_length|].
  repeat split.
  - rewrite <- (length_map (@App.msoa G)), <- (length_map Income.msoa).
    apply NoDup_incl_length; [exact Hnd|].
    intros k Hk. apply in_map_iff in Hk. destruct Hk as [r [<- Hr]].
    apply (Hsrc r Hr).
  - rewrite <- (length_map (@App.msoa G)), <- (length_map BlackShare.msoa).
    apply NoDup_incl_length; [exact Hnd|].
    intros k Hk. apply in_map_iff in Hk. destruct Hk as [r [<- Hr]].
    apply (Hsrc r Hr).
  - rewrite <- (length_map (@App.msoa G)), <- (length_map Housing.msoa).
    apply NoDup_incl_length; [exact Hnd|].
    intros k Hk. apply in_map_iff in Hk. destruct Hk as [r [<- Hr]].
    apply (Hsrc r Hr).
Qed.

(** C2, as stated: the income table lists the single area twice, and the
    joined table has two rows although three of the input tables, the
    geometry table among them, have one. *)
Lemma joiner_repeated_code :
  List.length Repeated.gdf = 1
  /\ List.length Repeated.income_df = 2
  /\ List.length Repeated.black_df = 1
  /\ List.length Repeated.housing_df = 1
  /\ List.length
       (App.load_all_data Repeated.gdf Repeated.income_df Repeated.black_df
          Repeated.housing_df) = 2.
Proof. repeat split. Qed.

(** Concrete code columns are distinct by comparison of the literals. *)
Ltac distinct_codes :=
  repeat constructor; simpl; intros H;
  repeat (destruct H as [H|H]; [discriminate H|]); exact H.

Lemma joiner_rows_bounded_witness :
  (NoDup (map (@Shapes.msoa unit) Distinct.gdf)
   /\ NoDup (map Income.msoa Distinct.income_df)
   /\ NoDup (map BlackShare.msoa Distinct.black_df)
   /\ NoDup (map Housing.msoa Distinct.housing_df))
  /\ List.length
       (App.load_all_data Distinct.gdf Distinct.income_df Distinct.black_df
          Distinct.housing_df) <= List.length Distinct.gdf
  /\ List.length
       (App.load_all_data Distinct.gdf Distinct.income_df Distinct.black_df
          Distinct.housing_df) <= List.length Distinct.income_df
  /\ List.length
       (App.load_all_data Distinct.gdf Distinct.income_df Distinct.black_df
          Distinct.housing_df) <= List.length Distinct.black_df
  /\ List.length
       (App.load_all_data Distinct.gdf Distinct.income_df Distinct.black_df
          Distinct.housing_df) <= List.length Distinct.housing_df.
Proof.
  assert (Hg : NoDup (map (@Shapes.msoa unit) Distinct.gdf))
    by distinct_codes.
  assert (Hi : NoDup (map Income.msoa Distinct.income_df))
    by distinct_codes.
  assert (Hb : NoDup (map BlackShare.msoa Distinct.black_df))
    by distinct_codes.
  assert (Hh : NoDup (map Housing.msoa Distinct.housing_df))
    by distinct_codes.
  split; [repeat split; assumption|].
  exact (proj2 (@joiner_rows_bounded unit Distinct.gdf Distinct.income_df
                  Distinct.black_df Distinct.housing_df) Hg Hi Hb Hh).
Defined.

(** ** Looking up a key in a table without repeated keys *)

Section Lookup.
Variables A B : Type.
Variable keyA : A -> string.
Variable keyB : B -> string.

Lemma matching_find (k : string) (right : list B) :
  NoDup (map keyB right) ->
  Pandas.matching keyB k right
  = match find (fun y => String.eqb (keyB y) k) right with
    | Some y => [y]
    | None => []
    end.
Proof.
  induction right as [|y right IH]; simpl; intros Hnd; [reflexivity|].
  inversion Hnd as [|? ? Hy Hnd']; subst.
  unfold Pandas.matching in *. simpl.
  destruct (String.eqb (keyB y) k) eqn:E.
  - apply String.eqb_eq in E. subst k. f_equal.
    exact (@matching_absent B keyB (keyB y) right Hy).
  - now apply IH.
Qed.

Lemma merge_left_find (left : list A) (right : list B) :
  NoDup (map keyB right) ->
  Pandas.merge_left keyA keyB pair left right
  = map (fun x => (x, find (fun y => String.eqb (keyB y) (keyA x)) right))
        left.
Proof.
  intros Hnd. unfold Pandas.merge_left.
  induction left as [|x left IH]; [reflexivity|].
  cbn [flat_map]. rewrite map_cons, IH, (@matching_find (keyA x) right Hnd).
  destruct (find (fun y => String.eqb (keyB y) (keyA x)) right); reflexivity.
Qed.

(** With distinct keys, the row found for a key decides whether some row
    with that key has a non-missing value. *)
Lemma find_existsb (value : B -> F64.t) (k : string) (right : list B) :
  NoDup (map keyB right) ->
  negb (F64.isna match find (fun y => String.eqb (keyB y) k) right with
                 | Some y => value y
                 | None => F64.NaN
                 end)
  = existsb (fun r => String.eqb (keyB r) k && negb (F64.isna (value r)))
            right.
Proof.
  induction right as [|y right IH]; simpl; intros Hnd; [reflexivity|].
  inversion Hnd as [|? ? Hy Hnd']; subst.
  destruct (String.eqb (keyB y) k) eqn:E; simpl.
  - apply String.eqb_eq in E. subst k.
    assert (Hnone : existsb (fun r => String.eqb (keyB r) (keyB y)
                                      && negb (F64.isna (value r))) right
                    = false).
    { apply not_true_is_false. intros H. apply existsb_exists in H.
      destruct H as [r [Hr Hk]]. apply andb_true_iff in Hk.
      destruct Hk as [Hk _]. apply String.eqb_eq in Hk.
      apply Hy. rewrite <- Hk. now apply in_map. }
    rewrite Hnone. now rewrite orb_false_r.
  - now apply IH.
Qed.

Lemma find_nodup (k : string) (right : list B) (y : B) :
  NoDup (map keyB right) -> In y right -> keyB y = k ->
  find (fun z => String.eqb (keyB z) k) right = Some y.
Proof.
  induction right as [|z right IH]; simpl; intros Hnd Hin Hk; [destruct Hin|].
  inversion Hnd as [|? ? Hz Hnd']; subst.
  destruct Hin as [->|Hin].
  - now rewrite String.eqb_refl.
  - destruct (String.eqb (keyB z) (keyB y)) eqn:E; [|now apply IH].
    apply String.eqb_eq in E. exfalso. apply Hz. rewrite E.
    now apply in_map.
Qed.
End Lookup.

(** With distinct codes in the three right-hand tables, the joined table
    is the geometry table, each row with the row found for its code in
    each of the three tables, without the incomplete rows. *)
Lemma load_all_data_lookup (G : Type)
      (gdf : list (Shapes.row G)) (income_df : list Income.row)
      (black_df : list BlackShare.row) (housing_df : list Housing.row) :
  NoDup (map Income.msoa income_df) ->
  NoDup (map BlackShare.msoa black_df) ->
  NoDup (map Housing.msoa housing_df) ->
  App.load_all_data gdf income_df black_df housing_df
  = filter (@App.complete G)
      (map (fun s =>
              (s,
               find (fun y => String.eqb (Income.msoa y) (Shapes.msoa s))
                    income_df,
               find (fun y => String.eqb (BlackShare.msoa y) (Shapes.msoa s))
                    black_df,
               find (fun y => String.eqb (Housing.msoa y) (Shapes.msoa s))
                    housing_df))
           gdf).
Proof.
  intros income_keys black_keys housing_keys.
  unfold App.load_all_data.
  rewrite (@merge_left_find _ _ (@Shapes.msoa G) Income.msoa gdf income_df
             income_keys).
  rewrite (@merge_left_find _ _ (fun r => Shapes.msoa (fst r))
             BlackShare.msoa _ black_df black_keys).
  rewrite (@merge_left_find _ _ (fun r => Shapes.msoa (fst (fst r)))
             Housing.msoa _ housing_df housing_keys).
  rewrite !map_map. reflexivity.
Qed.

(** ** Division by zero and empty tables *)

(** C3 (as amended).  The share column is computed for every row and no
    error is raised: where the population is zero the share is NaN for a
    zero count and infinite, with the sign of the count, otherwise; where
    it is not zero the share is finite.  No row of the joined table has a
    NaN share.  An infinite share is not taken for a missing one: when no
    code occurs twice within the income, ethnicity-derived and housing
    tables, a row of the geometry table whose row of the
    ethnicity-derived table has an infinite share, and whose code has a
    non-missing income and a non-missing house price, is in the joined
    table with that share.  On a table without rows the two table-wide
    statistics are both NaN, whatever the mean of the library is on a
    column with values. *)
Theorem calculator_special_values :
  (forall df : list BlackPop.row,
      map BlackShare.msoa (MapData.load_black_population df)
      = map BlackPop.msoa df
      /\ Forall (fun s =>
                   BlackShare.black_share s
                   = if (BlackShare.population s =? 0)%Z
                     then if (BlackShare.black_count s =? 0)%Z then F64.NaN
                          else if (0 <? BlackShare.black_count s)%Z
                               then F64.PosInf else F64.NegInf
                     else F64.Fin
                            (Qred (inject_Z (BlackShare.black_count s)
                                   / inject_Z (BlackShare.population s))))
                (MapData.load_black_population df))
  /\ (forall (G : Type) (gdf : list (Shapes.row G))
             (income_df : list Income.row) (black_df : list BlackShare.row)
             (housing_df : list Housing.row),
         Forall (fun r => App.black_share r <> F64.NaN)
                (App.load_all_data gdf income_df black_df housing_df)
         /\ (NoDup (map Income.msoa income_df) ->
             NoDup (map BlackShare.msoa black_df) ->
             NoDup (map Housing.msoa housing_df) ->
             forall (s : Shapes.row G) (b : BlackShare.row),
               In s gdf -> In b black_df ->
               BlackShare.msoa b = Shapes.msoa s ->
               BlackShare.black_share b = F64.PosInf
               \/ BlackShare.black_share b = F64.NegInf ->
               JoinSpec.has_income income_df (Shapes.msoa s) = true ->
               JoinSpec.has_price housing_df (Shapes.msoa s) = true ->
               exists r : App.gdf_row G,
                 In r (App.load_all_data gdf income_df black_df housing_df)
                 /\ App.shape r = s
                 /\ App.black_share r = BlackShare.black_share b))
  /\ (forall (float_mean : list F64.t -> F64.t) (G : Type),
         App.global_stats float_mean (@nil (App.gdf_row G))
         = (F64.NaN, F64.NaN)).
Proof.
  split; [|split; [|reflexivity]].
  - intros df. unfold MapData.load_black_population. split.
    + rewrite map_map. reflexivity.
    + apply Forall_forall. intros s Hs.
      apply in_map_iff in Hs. destruct Hs as [r [<- _]]. simpl.
      unfold F64.truediv_int.
      destruct (BlackPop.population r =? 0)%Z; [|reflexivity].
      destruct (Z.compare_spec (BlackPop.black_count r) 0) as [E|E|E]; simpl.
      * rewrite E. reflexivity.
      * destruct (Z.eqb_spec (BlackPop.black_count r) 0); [lia|].
        destruct (Z.ltb_spec 0 (BlackPop.black_count r)); [lia|reflexivity].
      * destruct (Z.eqb_spec (BlackPop.black_count r) 0); [lia|].
        destruct (Z.ltb_spec 0 (BlackPop.black_count r)); [reflexivity|lia].
  - intros G gdf income_df black_df housing_df. split.
    + pose proof (load_all_data_complete gdf income_df black_df housing_df)
        as Hc.
      eapply Forall_impl; [|exact Hc].
      intros r [Hna _] E. rewrite E in Hna. discriminate Hna.
    + intros income_keys black_keys housing_keys s b Hs Hb Hk Hinf Hi Hp.
      rewrite (@load_all_data_lookup G gdf income_df black_df housing_df
                 income_keys black_keys housing_keys).
      pose proof (@find_nodup _ BlackShare.msoa (Shapes.msoa s) black_df b
                    black_keys Hb Hk) as Hfind.
      eexists. split; [|split].
      * apply filter_In. split.
        -- apply in_map_iff. exists s. split; [reflexivity|exact Hs].
        -- unfold App.complete, App.black_share, App.income,
             App.median_house_price. cbn [fst snd].
           rewrite (@find_existsb _ Income.msoa Income.income
                      (Shapes.msoa s) income_df income_keys).
           rewrite (@find_existsb _ Housing.msoa Housing.median_house_price
                      (Shapes.msoa s) housing_df housing_keys).
           fold (JoinSpec.has_income income_df (Shapes.msoa s)).
           fold (JoinSpec.has_price housing_df (Shapes.msoa s)).
           rewrite Hi, Hp, Hfind.
           destruct Hinf as [E|E]; rewrite E; reflexivity.
      * reflexivity.
      * unfold App.black_share. cbn [fst snd]. now rewrite Hfind.
Qed.

(** C3, as stated: a row with population zero gets an infinite share and
    stays in the joined table, and the statistics of a table without rows
    are NaN; no error is raised in either case. *)
Lemma zero_population_and_empty_table :
  MapData.load_black_population [BlackPop.mk "E02000001" 5 0]
  = [BlackShare.mk "E02000001" 5 0 F64.PosInf]
  /\ map (@App.black_share unit)
         (App.load_all_data Distinct.gdf Distinct.income_df
            (MapData.load_black_population [BlackPop.mk "E02000001" 5 0])
            Distinct.housing_df)
     = [F64.PosInf]
  /\ (forall float_mean : list F64.t -> F64.t,
         App.calculate_global_stats float_mean [] [] = (F64.NaN, F64.NaN)).
Proof. repeat split. Qed.

(** ** Sorting and the quantile *)

Section Quantile.

Lemma fle_refl (x : F64.t) : finite x -> fle x x.
Proof.
  destruct x; try discriminate. intros _.
  apply Qle_bool_iff, Qle_refl.
Qed.

Lemma fle_trans (x y z : F64.t) : fle x y -> fle y z -> fle x z.
Proof.
  unfold fle. destruct x, y, z; simpl; try congruence.
  rewrite !Qle_bool_iff. apply Qle_trans.
Qed.

Lemma fle_total (x y : F64.t) :
  finite x -> finite y -> F64.leb x y = false -> fle y x.
Proof.
  unfold fle. destruct x, y; try discriminate. intros _ _ H. simpl in *.
  apply Qle_bool_iff. apply Qlt_le_weak, Qnot_le_lt.
  intros Hle. apply Qle_bool_iff in Hle. congruence.
Qed.

Lemma insert_sorted_perm (x : F64.t) (l : list F64.t) :
  Permutation (Pandas.insert_sorted x l) (x :: l).
Proof.
  induction l as [|y l IH]; simpl; [reflexivity|].
  destruct (F64.leb x y); [reflexivity|].
  rewrite IH. apply perm_swap.
Qed.

Lemma sort_values_perm (l : list F64.t) :
  Permutation (Pandas.sort_values l) l.
Proof.
  induction l as [|x l IH]; simpl; [reflexivity|].
  rewrite insert_sorted_perm. now constructor.
Qed.

Lemma insert_sorted_sorted (x : F64.t) (l : list F64.t) :
  finite x -> Forall finite l ->
  StronglySorted fle l -> StronglySorted fle (Pandas.insert_sorted x l).
Proof.
  intros Hx Hfin Hs.
  induction Hs as [|y l Hs IH Hall]; simpl.
  - constructor; constructor.
  - inversion Hfin as [|? ? Hy Hfin']; subst.
    destruct (F64.leb x y) eqn:E.
    + constructor; [now constructor|].
      constructor; [exact E|].
      eapply Forall_impl; [|exact Hall].
      intros z Hz. exact (fle_trans E Hz).
    + constructor; [now apply IH|].
      eapply Permutation_Forall;
        [symmetry; apply insert_sorted_perm|].
      constructor; [now apply fle_total | exact Hall].
Qed.

Lemma sort_values_finite (l : list F64.t) :
  Forall finite l -> Forall finite (Pandas.sort_values l).
Proof.
  intros H. eapply Permutation_Forall; [|exact H].
  symmetry. apply sort_values_perm.
Qed.

Lemma sort_values_sorted (l : list F64.t) :
  Forall finite l -> StronglySorted fle (Pandas.sort_values l).
Proof.
  induction 1 as [|x l Hx Hl IH]; simpl; [constructor|].
  apply insert_sorted_sorted;
    [exact Hx | now apply sort_values_finite | exact IH].
Qed.

Lemma sorted_nth (v : list F64.t) (a b : nat) :
  StronglySorted fle v -> Forall finite v ->
  a <= b -> b < List.length v ->
  fle (nth a v F64.NaN) (nth b v F64.NaN).
Proof.
  intros Hs. revert a b.
  induction Hs as [|y l Hs IH Hall]; intros a b Hfin Hab Hb; simpl in Hb.
  - lia.
  - inversion Hfin as [|? ? Hy Hfin']; subst.
    destruct a as [|a], b as [|b]; simpl; try lia.
    + now apply fle_refl.
    + rewrite Forall_forall in Hall. apply Hall, nth_In. lia.
    + apply IH; [exact Hfin' | lia | lia].
Qed.

Lemma filter_length_perm (A : Type) (p : A -> bool) (l l' : list A) :
  Permutation l l' ->
  List.length (filter p l) = List.length (filter p l').
Proof.
  induction 1 as [|x l l' _ IH|x y l|l l' l'' _ IH1 _ IH2]; simpl.
  - reflexivity.
  - destruct (p x); simpl; now rewrite IH.
  - destruct (p x), (p y); reflexivity.
  - now rewrite IH1.
Qed.

Lemma filter_length_prefix (p : F64.t -> bool) (v : list F64.t) (k : nat) :
  k <= List.length v ->
  (forall t, t < k -> p (nth t v F64.NaN) = true) ->
  k <= List.length (filter p v).
Proof.
  revert k. induction v as [|x v IH]; intros k Hk Hp; simpl in *.
  - lia.
  - destruct k as [|k]; [lia|].
    rewrite (Hp 0%nat) by lia. simpl.
    apply le_n_S, IH; [lia|].
    intros t Ht. apply (Hp (S t)). lia.
Qed.

Lemma dropna_finite (s : list F64.t) :
  Forall finite s -> Pandas.dropna s = s.
Proof.
  unfold Pandas.dropna.
  induction 1 as [|x s Hx Hs IH]; simpl; [reflexivity|].
  destruct x; try discriminate Hx. simpl. now rewrite IH.
Qed.

End Quantile.

(** ** Interpolation below the overflow threshold *)

Section Overflowing.

Lemma HUGE_pos : (0 < F64.HUGE)%Q.
Proof. reflexivity. Qed.

Lemma fin_exact (q : Q) :
  (- F64.HUGE < q)%Q -> (q < F64.HUGE)%Q -> F64.fin q = F64.Fin (Qred q).
Proof.
  intros Hlo Hhi. unfold F64.fin.
  destruct (Qle_bool F64.HUGE q) eqn:E1.
  - apply Qle_bool_iff in E1. lra.
  - destruct (Qle_bool q (- F64.HUGE)) eqn:E2; [|reflexivity].
    apply Qle_bool_iff in E2. lra.
Qed.

Lemma product_bounds (d t : Q) :
  (0 <= d)%Q -> (0 <= t <= 1)%Q -> (0 <= d * t <= d)%Q.
Proof.
  intros Hd [Ht0 Ht1]. split.
  - now apply Qmult_le_0_compat.
  - rewrite <- (Qmult_1_r d) at 2. rewrite !(Qmult_comm d).
    now apply Qmult_le_compat_r.
Qed.

(** Between two non-negative values below the overflow threshold the
    interpolation is exact on either branch. *)
Lemma lerp_exact (a b t : Q) :
  (0 <= a)%Q -> (a <= b)%Q -> (b < F64.HUGE)%Q -> (0 <= t <= 1)%Q ->
  exists r, Pandas.lerp (F64.Fin a) (F64.Fin b) t = F64.Fin r
            /\ (r == a + (b - a) * t)%Q.
Proof.
  intros Ha Hab Hb Ht. pose proof HUGE_pos as Hh.
  unfold Pandas.lerp, F64.sub. cbv zeta. cbn [F64.neg F64.add].
  rewrite (@fin_exact (b + Qred (- a))) by (rewrite Qred_correct; lra).
  set (d := Qred (b + Qred (- a))).
  assert (Hd : (d == b - a)%Q) by (unfold d; rewrite !Qred_correct; ring).
  assert (Hd0 : (0 <= d)%Q) by lra.
  destruct (Qle_bool (1 # 2) t) eqn:Eh.
  - apply Qle_bool_iff in Eh.
    assert (Hu : (0 <= 1 - t <= 1)%Q) by lra.
    pose proof (product_bounds Hd0 Hu) as Hp.
    cbn [F64.mul].
    rewrite (@fin_exact (d * (1 - t))) by lra.
    cbn [F64.neg F64.add].
    rewrite fin_exact by (rewrite !Qred_correct; lra).
    eexists. split; [reflexivity|].
    rewrite !Qred_correct, Hd. ring.
  - pose proof (product_bounds Hd0 Ht) as Hp.
    cbn [F64.mul].
    rewrite (@fin_exact (d * t)) by lra.
    cbn [F64.add].
    rewrite fin_exact by (rewrite !Qred_correct; lra).
    eexists. split; [reflexivity|].
    rewrite !Qred_correct, Hd. ring.
Qed.

Lemma nonneg_inv (x : F64.t) :
  nonneg x ->
  exists q, x = F64.Fin q /\ (0 <= q)%Q /\ (q < F64.HUGE)%Q.
Proof.
  unfold nonneg. destruct x as [| |q|]; try discriminate.
  cbn [F64.is_nonneg]. intros H. apply andb_true_iff in H.
  destruct H as [H0 H1]. apply Qle_bool_iff in H0.
  apply negb_true_iff in H1. exists q.
  split; [reflexivity|]. split; [exact H0|].
  apply Qnot_le_lt. intros Hle. apply Qle_bool_iff in Hle. congruence.
Qed.

Lemma nonneg_finite (x : F64.t) : nonneg x -> finite x.
Proof. intros H. destruct (nonneg_inv H) as [q [-> _]]. reflexivity. Qed.

Lemma nonneg_all_finite (s : list F64.t) :
  Forall nonneg s -> Forall finite s.
Proof. apply Forall_impl. exact nonneg_finite. Qed.

(** The interpolated value is not below the lower order statistic. *)
Lemma interpolation_ge (x i j : Q) (frac : Q) :
  (x <= i)%Q -> (0 <= i)%Q -> (i <= j)%Q -> (j < F64.HUGE)%Q ->
  (0 <= frac <= 1)%Q ->
  fle (F64.Fin x) (Pandas.lerp (F64.Fin i) (F64.Fin j) frac).
Proof.
  intros Hx Hi Hij Hj Hf.
  destruct (lerp_exact Hi Hij Hj Hf) as [r [-> Hr]].
  unfold fle. cbn [F64.leb]. apply Qle_bool_iff.
  assert (Hd : (0 <= j - i)%Q) by lra.
  pose proof (product_bounds Hd Hf). lra.
Qed.

(** The interpolated value is not above the upper order statistic. *)
Lemma interpolation_le (y i j : Q) (frac : Q) :
  (j <= y)%Q -> (0 <= i)%Q -> (i <= j)%Q -> (j < F64.HUGE)%Q ->
  (0 <= frac <= 1)%Q ->
  fle (Pandas.lerp (F64.Fin i) (F64.Fin j) frac) (F64.Fin y).
Proof.
  intros Hy Hi Hij Hj Hf.
  destruct (lerp_exact Hi Hij Hj Hf) as [r [-> Hr]].
  unfold fle. cbn [F64.leb]. apply Qle_bool_iff.
  assert (Hd : (0 <= j - i)%Q) by lra.
  pose proof (product_bounds Hd Hf). lra.
Qed.

(** The interpolated value does not decrease with the fraction. *)
Lemma interpolation_mono (i j : Q) (frac frac' : Q) :
  (0 <= i)%Q -> (i <= j)%Q -> (j < F64.HUGE)%Q ->
  (0 <= frac)%Q -> (frac <= frac')%Q -> (frac' <= 1)%Q ->
  fle (Pandas.lerp (F64.Fin i) (F64.Fin j) frac)
      (Pandas.lerp (F64.Fin i) (F64.Fin j) frac').
Proof.
  intros Hi Hij Hj Hf0 Hff Hf1.
  assert (Hf : (0 <= frac <= 1)%Q) by lra.
  assert (Hf' : (0 <= frac' <= 1)%Q) by lra.
  destruct (lerp_exact Hi Hij Hj Hf) as [r [-> Hr]].
  destruct (lerp_exact Hi Hij Hj Hf') as [r' [-> Hr']].
  unfold fle. cbn [F64.leb]. apply Qle_bool_iff.
  assert (H : ((j - i) * frac <= (j - i) * frac')%Q).
  { rewrite !(Qmult_comm (j - i)).
    apply Qmult_le_compat_r; [exact Hff | lra]. }
  lra.
Qed.
End Overflowing.

Section QuantileRank.

Lemma nth_finite (v : list F64.t) (t : nat) :
  Forall finite v -> t < List.length v ->
  exists x, nth t v F64.NaN = F64.Fin x.
Proof.
  intros Hfin Ht. rewrite Forall_forall in Hfin.
  pose proof (Hfin _ (nth_In v F64.NaN Ht)) as H.
  destruct (nth t v F64.NaN) as [| |x|]; try discriminate H.
  now exists x.
Qed.

Lemma nth_nonneg (v : list F64.t) (t : nat) :
  Forall nonneg v -> t < List.length v ->
  exists x, nth t v F64.NaN = F64.Fin x
            /\ (0 <= x)%Q /\ (x < F64.HUGE)%Q.
Proof.
  intros Hpos Ht. rewrite Forall_forall in Hpos.
  exact (nonneg_inv (Hpos _ (nth_In v F64.NaN Ht))).
Qed.

Lemma floor_index (m : nat) (q : Q) :
  (0 <= q <= 1)%Q ->
  Z.to_nat (Qfloor (inject_Z (Z.of_nat m) * q)) <= m.
Proof.
  intros [Hq0 Hq1].
  assert (Hm : (0 <= inject_Z (Z.of_nat m))%Q)
    by (change 0%Q with (inject_Z 0); rewrite <- Zle_Qle; lia).
  assert (Hh : (inject_Z (Z.of_nat m) * q <= inject_Z (Z.of_nat m))%Q).
  { rewrite <- (Qmult_1_r (inject_Z (Z.of_nat m))) at 2.
    rewrite !(Qmult_comm (inject_Z (Z.of_nat m))).
    apply Qmult_le_compat_r; assumption. }
  apply Qfloor_resp_le in Hh. rewrite Qfloor_Z in Hh. lia.
Qed.

(** The parts of a quantile of a non-empty column of non-negative values
    below the overflow threshold: the two order statistics and the
    fraction between them. *)
Lemma quantile_parts (q : Q) (s : list F64.t) :
  s <> [] -> Forall nonneg s -> (0 <= q <= 1)%Q ->
  let v := Pandas.sort_values s in
  let h := (inject_Z (Z.of_nat (List.length s - 1)) * q)%Q in
  let lo := Z.to_nat (Qfloor h) in
  let hi := Nat.min (lo + 1) (List.length s - 1) in
  exists qi qj,
    nth lo v F64.NaN = F64.Fin qi
    /\ nth hi v F64.NaN = F64.Fin qj
    /\ ((0 <= qi)%Q /\ (qi <= qj)%Q /\ (qj < F64.HUGE)%Q)
    /\ lo <= hi /\ hi < List.length v
    /\ (0 <= h - inject_Z (Qfloor h) <= 1)%Q
    /\ Pandas.quantile q s
       = Pandas.lerp (F64.Fin qi) (F64.Fin qj) (h - inject_Z (Qfloor h)).
Proof.
  intros Hne Hpos Hq v h lo hi. unfold Pandas.quantile.
  pose proof (nonneg_all_finite Hpos) as Hfin.
  rewrite (dropna_finite Hfin). fold v.
  pose proof (sort_values_perm s) as Hperm. fold v in Hperm.
  pose proof (sort_values_sorted Hfin) as Hsorted. fold v in Hsorted.
  pose proof (sort_values_finite Hfin) as Hvfin. fold v in Hvfin.
  assert (Hvpos : Forall nonneg v).
  { eapply Permutation_Forall; [symmetry; exact Hperm | exact Hpos]. }
  pose proof (Permutation_length Hperm) as Hlen.
  assert (Hn : 0 < List.length s) by (destruct s; [congruence|simpl; lia]).
  assert (Hlo : lo <= List.length s - 1) by (apply floor_index; exact Hq).
  assert (Hhi : lo <= hi /\ hi < List.length v) by (unfold hi; lia).
  assert (Hlo' : lo < List.length v) by lia.
  destruct (@nth_nonneg v lo Hvpos Hlo') as [qi [Hi [Hi0 _]]].
  destruct (@nth_nonneg v hi Hvpos (proj2 Hhi)) as [qj [Hj [_ Hj1]]].
  exists qi, qj.
  assert (Hij : (qi <= qj)%Q).
  { pose proof (@sorted_nth v lo hi Hsorted Hvfin (proj1 Hhi) (proj2 Hhi))
      as H.
    rewrite Hi, Hj in H. now apply Qle_bool_iff in H. }
  assert (Hfrac : (0 <= h - inject_Z (Qfloor h) <= 1)%Q).
  { pose proof (Qfloor_le h). pose proof (Qlt_floor h) as Hlt.
    rewrite inject_Z_plus in Hlt. change (inject_Z 1) with 1%Q in Hlt.
    lra. }
  repeat split; try tauto.
  destruct v as [|v0 v'] eqn:Ev; [simpl in Hlen; lia|].
  rewrite <- Ev in *. rewrite Hlen. fold h lo hi. now rewrite Hi, Hj.
Qed.

(** At least [floor ((n - 1) * q) + 1] of the values are at or below
    the quantile. *)
Lemma quantile_rank (q : Q) (s : list F64.t) :
  s <> [] -> Forall nonneg s -> (0 <= q <= 1)%Q ->
  Z.to_nat (Qfloor (inject_Z (Z.of_nat (List.length s - 1)) * q)) + 1
  <= List.length (filter (fun x => F64.leb x (Pandas.quantile q s)) s).
Proof.
  intros Hne Hpos Hq.
  destruct (quantile_parts Hne Hpos Hq)
    as [qi [qj [Hi [Hj [[Hi0 [Hij Hj1]] [Hlohi [Hhi [Hfrac Hval]]]]]]]].
  rewrite Hval.
  pose proof (nonneg_all_finite Hpos) as Hfin.
  pose proof (sort_values_perm s) as Hperm.
  pose proof (sort_values_sorted Hfin) as Hsorted.
  pose proof (sort_values_finite Hfin) as Hvfin.
  pose proof (Permutation_length Hperm) as Hlen.
  set (v := Pandas.sort_values s) in *.
  set (lo := Z.to_nat (Qfloor (inject_Z (Z.of_nat (List.length s - 1)) * q)))
    in *.
  rewrite <- (filter_length_perm _ Hperm).
  apply filter_length_prefix; [lia|].
  intros t Ht.
  assert (Ht' : t < List.length v) by lia.
  assert (Htlo : t <= lo) by lia.
  assert (Hlo' : lo < List.length v) by lia.
  destruct (@nth_finite v t Hvfin Ht') as [x Hx].
  pose proof (@sorted_nth v t lo Hsorted Hvfin Htlo Hlo') as H.
  rewrite Hx, Hi in H. apply Qle_bool_iff in H.
  rewrite Hx. now apply interpolation_ge.
Qed.

Lemma filter_map_length (A B : Type) (f : A -> B) (p : B -> bool)
      (l : list A) :
  List.length (filter p (map f l))
  = List.length (filter (fun x => p (f x)) l).
Proof.
  induction l as [|x l IH]; simpl; [reflexivity|].
  destruct (p (f x)); simpl; now rewrite IH.
Qed.

Lemma floor_65 (m : nat) :
  65 * m
  < 100 * (Z.to_nat (Qfloor (inject_Z (Z.of_nat m) * (65 # 100))) + 1).
Proof.
  set (h := (inject_Z (Z.of_nat m) * (65 # 100))%Q).
  pose proof (Qlt_floor h) as Hlt.
  assert (H0 : (0 <= Qfloor h)%Z).
  { change 0%Z with (Qfloor (inject_Z 0)). rewrite Qfloor_Z.
    rewrite <- (Qfloor_Z 0). apply Qfloor_resp_le.
    unfold h, Qle. simpl. lia. }
  remember (Qfloor h) as f eqn:Ef. clear Ef.
  unfold Qlt, h in Hlt. simpl in Hlt. lia.
Qed.

(** A quantile lies between two values of the column. *)
Lemma quantile_between (q : Q) (s : list F64.t) :
  s <> [] -> Forall nonneg s -> (0 <= q <= 1)%Q ->
  exists x y, In x s /\ In y s
              /\ fle x (Pandas.quantile q s) /\ fle (Pandas.quantile q s) y.
Proof.
  intros Hne Hpos Hq.
  destruct (quantile_parts Hne Hpos Hq)
    as [qi [qj [Hi [Hj [[Hi0 [Hij Hj1]] [Hlohi [Hhi [Hfrac Hval]]]]]]]].
  pose proof (sort_values_perm s) as Hperm.
  exists (F64.Fin qi), (F64.Fin qj). rewrite Hval. repeat split.
  - apply (Permutation_in _ Hperm). rewrite <- Hi. apply nth_In. lia.
  - apply (Permutation_in _ Hperm). rewrite <- Hj. apply nth_In. lia.
  - apply interpolation_ge; try assumption. apply Qle_refl.
  - apply interpolation_le; try assumption. apply Qle_refl.
Qed.

(** The column of a joined table inherits what holds of its rows. *)
Lemma column_forall (A : Type) (P : F64.t -> Prop) (f : A -> F64.t)
      (l : list A) :
  Forall (fun r => P (f r)) l -> Forall P (map f l).
Proof.
  intros H. apply Forall_forall. intros x Hx.
  apply in_map_iff in Hx. destruct Hx as [r [<- Hr]].
  rewrite Forall_forall in H. now apply H.
Qed.
End QuantileRank.

(** C6 (as amended).  On a joined table with at least one row whose house
    prices are non-negative numbers below the overflow threshold of
    float64, with n its number of rows, at least floor(0.65 * (n - 1)) + 1
    rows have a house price at or below the 65th percentile computed by
    linear interpolation: strictly more than 65% of n - 1 rows. *)
Theorem house_price_p65_rank (float_mean : list F64.t -> F64.t)
        (G : Type) (gdf : list (App.gdf_row G))
        (Hrows : gdf <> [])
        (Hpos : Forall (fun r => nonneg (App.median_house_price r)) gdf) :
  65 * (List.length gdf - 1)
  < 100 * List.length
            (filter (fun r => F64.leb (App.median_house_price r)
                                      (snd (App.global_stats float_mean gdf)))
                    gdf).
Proof.
  unfold App.global_stats, App.calculate_global_stats, App.stats_columns.
  cbn [fst snd].
  set (prices := map (@App.median_house_price G) gdf).
  set (p := Pandas.quantile (65 # 100) prices).
  assert (Hp : Forall nonneg prices) by (now apply column_forall).
  assert (Hne : prices <> [])
    by (unfold prices; destruct gdf; [congruence|discriminate]).
  assert (Hq : (0 <= 65 # 100 <= 1)%Q) by (split; unfold Qle; simpl; lia).
  pose proof (@quantile_rank (65 # 100) prices Hne Hp Hq) as Hrank.
  fold p in Hrank.
  assert (Hcount : List.length (filter (fun x => F64.leb x p) prices)
                   = List.length
                       (filter (fun r => F64.leb (App.median_house_price r) p)
                               gdf)).
  { unfold prices. apply filter_map_length. }
  rewrite <- Hcount.
  assert (Hl : List.length prices = List.length gdf)
    by (unfold prices; apply length_map).
  rewrite Hl in Hrank.
  pose proof (floor_65 (List.length gdf - 1)). lia.
Qed.

Lemma house_price_p65_rank_witness :
  Scenario.gdf <> []
  /\ Forall (fun r => nonneg (App.median_house_price r)) Scenario.gdf
  /\ forall float_mean : list F64.t -> F64.t,
      65 * (List.length Scenario.gdf - 1)
      < 100 * List.length
                (filter (fun r =>
                           F64.leb (App.median_house_price r)
                                   (snd (App.global_stats float_mean
                                           Scenario.gdf)))
                        Scenario.gdf).
Proof.
  assert (H1 : Scenario.gdf <> []) by discriminate.
  assert (H2 : Forall (fun r => nonneg (App.median_house_price r))
                      Scenario.gdf)
    by (repeat constructor).
  split; [exact H1|]. split; [exact H2|].
  intros float_mean.
  exact (@house_price_p65_rank float_mean unit Scenario.gdf H1 H2).
Defined.

(** C6, as stated: of two rows with house prices 100 and 200 the
    percentile is 165 and one row, half of the table, is at or below it. *)
Lemma house_price_p65_half :
  (forall float_mean : list F64.t -> F64.t,
      snd (App.global_stats float_mean Scenario.two_prices) = F64.Fin 165
      /\ List.length
           (filter (fun r =>
                      F64.leb (App.median_house_price r)
                              (snd (App.global_stats float_mean
                                      Scenario.two_prices)))
                   Scenario.two_prices) = 1)
  /\ Forall (fun r => nonneg (App.median_house_price r)) Scenario.two_prices
  /\ List.length Scenario.two_prices = 2
  /\ 100 * 1 < 65 * 2.
Proof.
  split; [intros float_mean; split; vm_compute; reflexivity|].
  split; [repeat constructor|].
  split; [reflexivity|]. simpl. lia.
Qed.

(** ** The two ethnicity paths *)

Section TwoPathsFacts.

Lemma sorted_head_least (a : string) (l : list string) (x : string) :
  StronglySorted String_as_OT.lt (a :: l) -> In x (a :: l) ->
  x = a \/ String_as_OT.lt a x.
Proof.
  intros Hs [->|Hx]; [now left|]. right.
  inversion Hs as [|? ? _ Hall]; subst.
  rewrite Forall_forall in Hall. now apply Hall.
Qed.

(** Two ascending lists with the same elements are equal. *)
Lemma sorted_same_elements (l1 l2 : list string) :
  StronglySorted String_as_OT.lt l1 ->
  StronglySorted String_as_OT.lt l2 ->
  (forall a, In a l1 <-> In a l2) -> l1 = l2.
Proof.
  intros H1. revert l2.
  induction H1 as [|a l1 Hs1 IH Hall1]; intros l2 H2 Hiff.
  - destruct l2 as [|b l2]; [reflexivity|].
    destruct (proj2 (Hiff b) (or_introl eq_refl)).
  - destruct l2 as [|b l2].
    + destruct (proj1 (Hiff a) (or_introl eq_refl)).
    + assert (Hsa : StronglySorted String_as_OT.lt (a :: l1))
        by (now constructor).
      assert (Eab : a = b).
      { destruct (sorted_head_least H2 (proj1 (Hiff a) (or_introl eq_refl)))
          as [E|Hlt]; [exact E|].
        destruct (sorted_head_least Hsa (proj2 (Hiff b) (or_introl eq_refl)))
          as [E|Hlt']; [now symmetry|].
        exfalso. exact (lt_neq (lt_lt Hlt Hlt') eq_refl). }
      subst b. f_equal.
      inversion H2 as [|? ? Hs2 Hall2]; subst.
      apply IH; [exact Hs2|].
      intros x. split; intros Hx.
      * destruct (proj1 (Hiff x) (or_intror Hx)) as [E|Hin]; [|exact Hin].
        subst x. rewrite Forall_forall in Hall1.
        exfalso. exact (lt_neq (Hall1 a Hx) eq_refl).
      * destruct (proj2 (Hiff x) (or_intror Hx)) as [E|Hin]; [|exact Hin].
        subst x. rewrite Forall_forall in Hall2.
        exfalso. exact (lt_neq (Hall2 a Hx) eq_refl).
Qed.

Lemma process_observations_frames (observations : list CensusApi.obs) :
  CensusApi.collect observations <> [] ->
  CensusApi.process_observations observations
  = Ok (Pandas.merge_inner CensusApi.msoa CensusApi.msoa
          (fun b t => BlackPop.mk (CensusApi.msoa b) (CensusApi.count b)
                                  (CensusApi.count t))
          (TwoPaths.black_frame observations)
          (TwoPaths.total_frame observations)).
Proof.
  unfold CensusApi.process_observations, TwoPaths.black_frame,
    TwoPaths.total_frame.
  destruct (CensusApi.collect observations); [congruence|reflexivity].
Qed.

(** A key present once on the right matches exactly one row. *)
Lemma matching_nodup_one (B : Type) (keyB : B -> string) (k : string)
      (right : list B) :
  NoDup (map keyB right) -> In k (map keyB right) ->
  exists y, Pandas.matching keyB k right = [y]
            /\ In y right /\ keyB y = k.
Proof.
  intros Hnd Hin.
  pose proof (@matching_nodup B keyB k right Hnd) as Hlen.
  apply in_map_iff in Hin. destruct Hin as [y [Hk Hy]].
  assert (Hm : In y (Pandas.matching keyB k right))
    by (apply matching_in; now split).
  destruct (Pandas.matching keyB k right) as [|m [|m' ms]] eqn:E;
    simpl in *; [contradiction| |lia].
  destruct Hm as [->|[]]. exists y. auto.
Qed.
End TwoPathsFacts.

Lemma black_areas_spec (df : list CensusCsv.row) (a : string) :
  In a (PerArea.black_areas df) <->
  Str.startswith "E02" a = true
  /\ exists r, In r df
               /\ CensusCsv.geo r = a
               /\ Str.startswith
                    "Black, Black British, Black Welsh, Caribbean or African:"
                    (CensusCsv.ethnic r) = true.
Proof.
  rewrite black_areas_in. split.
  - intros [r [Hr [Hg [Hreg Hb]]]]. split.
    + unfold PerArea.in_region in Hreg. now rewrite Hg in Hreg.
    + exists r. auto.
  - intros [Ha [r [Hr [Hg Hb]]]]. exists r.
    repeat split; try assumption.
    unfold PerArea.in_region. now rewrite Hg.
Qed.

Lemma collect_in (observations : list CensusApi.obs) (d : CensusApi.drow) :
  In d (CensusApi.collect observations) <->
  exists o, In o observations
            /\ CensusApi.sex_label o = "All persons"%string
            /\ d = CensusApi.mkd (CensusApi.geography_id o)
                     (CensusApi.ethnic_group_label o)
                     (CensusApi.observation o).
Proof.
  unfold CensusApi.collect. rewrite in_flat_map.
  split; intros [o [Ho H]]; exists o; (split; [exact Ho|]).
  - unfold CensusApi.ALL_PERSONS in H.
    destruct (String.eqb (CensusApi.sex_label o) "All persons") eqn:E.
    + apply String.eqb_eq in E. destruct H as [H|[]]. now split.
    + destruct H.
  - destruct H as [Hs ->]. unfold CensusApi.ALL_PERSONS.
    rewrite Hs. simpl. now left.
Qed.

(** When every key of a list matches at most one of its rows, no key is
    repeated. *)
Lemma nodup_single_match (B : Type) (keyB : B -> string) (l : list B) :
  (forall y, In y l ->
             List.length (Pandas.matching keyB (keyB y) l) <= 1) ->
  NoDup (map keyB l).
Proof.
  induction l as [|y l IH]; intros H; [constructor|].
  cbn [map]. constructor.
  - intros Hin. apply in_map_iff in Hin. destruct Hin as [z [Ez Hz]].
    specialize (H y (or_introl eq_refl)).
    unfold Pandas.matching in H. cbn [filter] in H.
    rewrite String.eqb_refl in H. cbn [List.length] in H.
    assert (Hm : In z (filter (fun y0 => String.eqb (keyB y0) (keyB y)) l)).
    { apply filter_In. split; [exact Hz|]. now apply String.eqb_eq. }
    destruct (filter (fun y0 => String.eqb (keyB y0) (keyB y)) l);
      [destruct Hm | cbn [List.length] in H; lia].
  - apply IH. intros z Hz.
    specialize (H z (or_intror Hz)).
    unfold Pandas.matching in *. cbn [filter] in H.
    destruct (String.eqb (keyB y) (keyB z)); cbn [List.length] in H; lia.
Qed.

(** ** A file and a list of observations that describe the same counts *)

Section SameCounts.
Variable df : list CensusCsv.row.
Variable observations : list CensusApi.obs.

(** The counts of the rows of one label and one area in the frame of the
    download path are the values [TwoPaths.kept] lists. *)
Lemma frame_kept (label a : string) :
  map CensusApi.count
      (filter (fun r => String.eqb (CensusApi.msoa r) a)
         (filter (fun r => String.eqb (CensusApi.ethnic_group r) label)
            (CensusApi.collect observations)))
  = TwoPaths.kept label a observations.
Proof.
  unfold TwoPaths.kept, CensusApi.collect.
  induction observations as [|o l IH]; [reflexivity|].
  cbn [flat_map filter].
  destruct (String.eqb (CensusApi.sex_label o) CensusApi.ALL_PERSONS);
    cbn [negb andb app]; [|exact IH].
  cbn [filter CensusApi.ethnic_group].
  destruct (String.eqb (CensusApi.ethnic_group_label o) label);
    cbn [andb]; [|exact IH].
  cbn [filter CensusApi.msoa].
  destruct (String.eqb (CensusApi.geography_id o) a); [|exact IH].
  cbn [map CensusApi.count]. now rewrite IH.
Qed.

(** A row of a frame whose area and label have a single kept value
    carries that value. *)
Lemma frame_value (label : string) (d : CensusApi.drow) (v : Z) :
  In d (filter (fun r => String.eqb (CensusApi.ethnic_group r) label)
               (CensusApi.collect observations)) ->
  TwoPaths.kept label (CensusApi.msoa d) observations = [v] ->
  CensusApi.count d = v.
Proof.
  intros Hd Hk. rewrite <- frame_kept in Hk.
  assert (Hin : In (CensusApi.count d)
                   (map CensusApi.count
                      (filter (fun r => String.eqb (CensusApi.msoa r)
                                                   (CensusApi.msoa d))
                         (filter (fun r => String.eqb (CensusApi.ethnic_group r)
                                                      label)
                            (CensusApi.collect observations))))).
  { apply in_map, filter_In. split; [exact Hd | apply String.eqb_refl]. }
  rewrite Hk in Hin. destruct Hin as [E|[]]. now symmetry.
Qed.

(** An area with a kept value has a row in the frame. *)
Lemma frame_has_area (label a : string) (v : Z) :
  TwoPaths.kept label a observations = [v] ->
  In a (map CensusApi.msoa
            (filter (fun r => String.eqb (CensusApi.ethnic_group r) label)
                    (CensusApi.collect observations))).
Proof.
  intros Hk. rewrite <- frame_kept in Hk.
  destruct (filter (fun r => String.eqb (CensusApi.msoa r) a)
              (filter (fun r => String.eqb (CensusApi.ethnic_group r) label)
                 (CensusApi.collect observations))) as [|d ds] eqn:E;
    [discriminate Hk|].
  assert (Hd : In d (d :: ds)) by now left.
  rewrite <- E in Hd. apply filter_In in Hd. destruct Hd as [Hd Ha].
  apply String.eqb_eq in Ha. apply in_map_iff. exists d. now split.
Qed.

Hypothesis described : TwoPaths.same_counts df observations = true.

Lemma described_area (r : CensusCsv.row) :
  In r df ->
  TwoPaths.kept CensusApi.ALL_GROUPS (CensusCsv.geo r) observations
  = [PerArea.total_population df (CensusCsv.geo r)]
  /\ TwoPaths.kept CensusApi.BLACK_LABEL (CensusCsv.geo r) observations
     = [PerArea.group_count df (CensusCsv.geo r)].
Proof.
  intros Hr. unfold TwoPaths.same_counts in described.
  apply andb_true_iff in described. destruct described as [Hd _].
  rewrite forallb_forall in Hd. specialize (Hd r Hr).
  unfold TwoPaths.describes in Hd.
  destruct (TwoPaths.kept CensusApi.ALL_GROUPS (CensusCsv.geo r) observations)
    as [|t [|? ?]]; try discriminate Hd.
  destruct (TwoPaths.kept CensusApi.BLACK_LABEL (CensusCsv.geo r) observations)
    as [|b [|? ?]]; try discriminate Hd.
  apply andb_true_iff in Hd. destruct Hd as [Ht Hb].
  apply Z.eqb_eq in Ht, Hb. now subst.
Qed.

(** Every row of the frame is of an area of the file. *)
Lemma frame_area (label : string) (d : CensusApi.drow) :
  In d (filter (fun r => String.eqb (CensusApi.ethnic_group r) label)
               (CensusApi.collect observations)) ->
  exists r, In r df /\ CensusCsv.geo r = CensusApi.msoa d.
Proof.
  intros Hd. apply filter_In in Hd. destruct Hd as [Hd _].
  apply collect_in in Hd. destruct Hd as [o [Ho [Hs ->]]].
  unfold TwoPaths.same_counts in described.
  apply andb_true_iff in described. destruct described as [_ Ha].
  rewrite forallb_forall in Ha. specialize (Ha o Ho).
  unfold CensusApi.ALL_PERSONS in Ha. rewrite Hs in Ha.
  cbn [String.eqb Ascii.eqb Bool.eqb negb orb] in Ha.
  apply existsb_exists in Ha. destruct Ha as [r [Hr E]].
  apply String.eqb_eq in E. exists r. now split.
Qed.

Lemma black_frame_counts :
  Forall (fun d => CensusApi.count d
                   = PerArea.group_count df (CensusApi.msoa d))
         (TwoPaths.black_frame observations).
Proof.
  apply Forall_forall. intros d Hd. unfold TwoPaths.black_frame in Hd.
  destruct (frame_area _ _ Hd) as [r [Hr E]].
  apply (frame_value _ _ Hd). rewrite <- E.
  exact (proj2 (described_area r Hr)).
Qed.

Lemma total_frame_counts :
  Forall (fun d => CensusApi.count d
                   = PerArea.total_population df (CensusApi.msoa d))
         (TwoPaths.total_frame observations).
Proof.
  apply Forall_forall. intros d Hd. unfold TwoPaths.total_frame in Hd.
  destruct (frame_area _ _ Hd) as [r [Hr E]].
  apply (frame_value _ _ Hd). rewrite <- E.
  exact (proj1 (described_area r Hr)).
Qed.

Lemma total_frame_once :
  NoDup (map CensusApi.msoa (TwoPaths.total_frame observations)).
Proof.
  apply nodup_single_match. intros d Hd.
  unfold TwoPaths.total_frame in *.
  destruct (frame_area _ _ Hd) as [r [Hr E]].
  pose proof (proj1 (described_area r Hr)) as Hk.
  rewrite E, <- frame_kept in Hk.
  rewrite <- (length_map CensusApi.count). unfold Pandas.matching.
  rewrite Hk. apply le_n.
Qed.

Lemma black_frame_areas (a : string) :
  In a (map CensusApi.msoa (TwoPaths.black_frame observations)) <->
  In a (map CensusCsv.geo df).
Proof.
  unfold TwoPaths.black_frame. split; intros H.
  - apply in_map_iff in H. destruct H as [d [<- Hd]].
    destruct (frame_area _ _ Hd) as [r [Hr <-]]. now apply in_map.
  - apply in_map_iff in H. destruct H as [r [<- Hr]].
    exact (frame_has_area _ _ (proj2 (described_area r Hr))).
Qed.

Lemma total_frame_covers (a : string) :
  In a (map CensusApi.msoa (TwoPaths.black_frame observations)) ->
  In a (map CensusApi.msoa (TwoPaths.total_frame observations)).
Proof.
  intros H. apply black_frame_areas in H.
  apply in_map_iff in H. destruct H as [r [<- Hr]].
  exact (frame_has_area _ _ (proj1 (described_area r Hr))).
Qed.

Lemma collect_some : df <> [] -> CensusApi.collect observations <> [].
Proof.
  intros Hne.
  assert (Hex : exists r, In r df).
  { clear described. destruct df as [|r l]; [congruence|].
    exists r. now left. }
  destruct Hex as [r Hr].
  pose proof (frame_has_area _ _ (proj1 (described_area r Hr))) as H.
  intros Hc. rewrite Hc in H. destruct H.
Qed.
End SameCounts.

(** C8 (as amended).  The table of the download path on a list of
    observations equals the table of the local path on a census file when
    the two describe the same per-area counts (every area of the file has
    exactly one "All persons" observation labelled "All ethnic groups",
    carrying the sum of all its lines, and exactly one labelled with the
    tracked group, carrying the sum of its lines whose label starts with
    the prefix and colon, and no "All persons" observation is of another
    area) and moreover: the file has a line; its observation column is
    int64 and the two sums of every area are in the int64 range; every
    code starts with "E02"; every area has a line of the tracked group;
    and the observations of the tracked group come in ascending order of
    area code. *)
Theorem paths_agree (df : list CensusCsv.row)
        (observations : list CensusApi.obs)
        (Hsame : TwoPaths.same_counts df observations = true)
        (Hrows : df <> [])
        (Hcells : Forall CensusCsv.int64_cell df)
        (Hfit : Forall (fun r =>
                          (- 2 ^ 63
                           <= PerArea.total_population df (CensusCsv.geo r)
                           < 2 ^ 63)%Z
                          /\ (- 2 ^ 63
                              <= PerArea.group_count df (CensusCsv.geo r)
                              < 2 ^ 63)%Z) df)
        (Hregion : Forall (fun r =>
                             Str.startswith "E02" (CensusCsv.geo r) = true)
                          df)
        (Hgroup : Forall (fun r =>
                            existsb
                              (fun r' =>
                                 String.eqb (CensusCsv.geo r')
                                            (CensusCsv.geo r)
                                 && Str.startswith
                                      "Black, Black British, Black Welsh, Caribbean or African:"
                                      (CensusCsv.ethnic r'))
                              df = true) df)
        (Hasc : StronglySorted String_as_OT.lt
                  (map CensusApi.msoa (TwoPaths.black_frame observations))) :
  CensusApi.process_observations observations
  = Ok (CensusCsv.process_census_data df).
Proof.
  rewrite (@process_observations_frames observations
             (@collect_some df observations Hsame Hrows)).
  f_equal. rewrite process_census_data_rows.
  rewrite Forall_forall in Hfit, Hregion, Hgroup.
  assert (Hkeys : map CensusApi.msoa (TwoPaths.black_frame observations)
                  = PerArea.black_areas df).
  { apply sorted_same_elements;
      [exact Hasc | apply black_areas_sorted |].
    intros a. rewrite (@black_frame_areas df observations Hsame a).
    rewrite black_areas_spec. split.
    - intros Ha. apply in_map_iff in Ha. destruct Ha as [r [<- Hr]].
      split; [now apply Hregion|].
      pose proof (Hgroup r Hr) as Hg. apply existsb_exists in Hg.
      destruct Hg as [r' [Hr' Hg]]. apply andb_true_iff in Hg.
      destruct Hg as [Eg Hb]. apply String.eqb_eq in Eg.
      exists r'. auto.
    - intros [_ [r [Hr [<- _]]]]. now apply in_map. }
  rewrite <- Hkeys, map_map. unfold Pandas.merge_inner.
  apply flat_map_singleton. intros b Hb.
  destruct (@matching_nodup_one _ CensusApi.msoa (CensusApi.msoa b)
              (TwoPaths.total_frame observations)
              (@total_frame_once df observations Hsame)
              (@total_frame_covers df observations Hsame _
                 (in_map CensusApi.msoa _ _ Hb)))
    as [t [Hm [Ht Hk]]].
  rewrite Hm. cbn [map]. f_equal.
  pose proof (@black_frame_counts df observations Hsame) as Hcount.
  pose proof (@total_frame_counts df observations Hsame) as Hpop.
  rewrite Forall_forall in Hcount, Hpop.
  rewrite (Hcount b Hb), (Hpop t Ht), Hk.
  destruct (@frame_area df observations Hsame _ _ Hb) as [r [Hr E]].
  destruct (Hfit r Hr) as [Ft Fg]. rewrite E in Ft, Fg.
  now rewrite !int64_fits.
Qed.

Lemma paths_agree_witness :
  TwoPaths.same_counts Scenario.census TwoPaths.aggregates = true
  /\ Scenario.census <> []
  /\ CensusApi.process_observations TwoPaths.aggregates
     = Ok (CensusCsv.process_census_data Scenario.census).
Proof.
  assert (Hsame : TwoPaths.same_counts Scenario.census TwoPaths.aggregates
                  = true) by reflexivity.
  assert (Hrows : Scenario.census <> []) by discriminate.
  split; [exact Hsame|]. split; [exact Hrows|].
  apply (@paths_agree Scenario.census TwoPaths.aggregates Hsame Hrows).
  - repeat constructor; discriminate.
  - repeat constructor; discriminate.
  - repeat constructor.
  - repeat constructor.
  - repeat constructor.
Defined.

(** C8, as stated: a census file and a list of observations that
    describe the same per-area counts, on which the two paths differ.
    A Welsh area is dropped by the local path and kept by the download
    path; two areas listed in descending order by the API come out in
    that order from the download path and ascending from the local path;
    an area without a line of the tracked group has no row in the local
    table and a row with count 0 in the other; a population of 2^63 is
    -2^63 in the local table; and for no line and no observation the
    local path gives the empty table and the download path raises. *)
Lemma paths_differ :
  (TwoPaths.same_counts TwoPaths.welsh_file TwoPaths.welsh_observations
   = true
   /\ CensusCsv.process_census_data TwoPaths.welsh_file = []
   /\ CensusApi.process_observations TwoPaths.welsh_observations
      = Ok [BlackPop.mk "W02000001" 7 100])
  /\ (TwoPaths.same_counts TwoPaths.two_areas_file
        TwoPaths.descending_observations = true
      /\ CensusCsv.process_census_data TwoPaths.two_areas_file
         = [BlackPop.mk "E02000001" 50 500; BlackPop.mk "E02000002" 30 300]
      /\ CensusApi.process_observations TwoPaths.descending_observations
         = Ok [BlackPop.mk "E02000002" 30 300;
               BlackPop.mk "E02000001" 50 500])
  /\ (TwoPaths.same_counts TwoPaths.no_group_file
        TwoPaths.no_group_observations = true
      /\ CensusCsv.process_census_data TwoPaths.no_group_file = []
      /\ CensusApi.process_observations TwoPaths.no_group_observations
         = Ok [BlackPop.mk "E02000001" 0 450])
  /\ (TwoPaths.same_counts Overflow.two_lines TwoPaths.overflow_observations
      = true
      /\ CensusCsv.process_census_data Overflow.two_lines
         = [BlackPop.mk "E02000001" 1 (- 9223372036854775808)]
      /\ CensusApi.process_observations TwoPaths.overflow_observations
         = Ok [BlackPop.mk "E02000001" 1 9223372036854775808])
  /\ (TwoPaths.same_counts [] [] = true
      /\ CensusCsv.process_census_data [] = []
      /\ CensusApi.process_observations []
         = Raise (KeyError "ethnic_group")).
Proof. repeat split. Qed.

(* ------------------------------------------------------------------ *)
(** * Further properties of the scripts *)

(** ** process_census_data.py: order of the table, order of the input *)

(** X1.  The rows of the reader's table come in strictly ascending order
    of area code (code-point order, as Python compares strings). *)
Theorem census_rows_ascending (df : list CensusCsv.row) :
  StronglySorted (fun a b => String.compare a b = Lt)
                 (map BlackPop.msoa (CensusCsv.process_census_data df)).
Proof.
  rewrite process_census_data_areas.
  pose proof (black_areas_sorted df) as Hs.
  induction Hs as [|a l Hs IH Hall]; constructor; [exact IH|].
  eapply Forall_impl; [|exact Hall].
  intros b Hb. now apply String_as_OT.cmp_lt.
Qed.

Section InputOrder.
Local Open Scope Z_scope.



End InputOrder.



(** ** download_census_data.py: the table of the download path *)

(** X3.  [process_observations] raises [KeyError] exactly when no
    observation has the sex label "All persons" (the frame built from no
    row has no column), in particular on an empty list; otherwise it
    returns a table. *)
Theorem process_observations_empty_frame (observations : list CensusApi.obs) :
  match CensusApi.process_observations observations with
  | Ok _ =>
      exists o, In o observations /\ CensusApi.sex_label o = "All persons"%string
  | Raise e =>
      e = KeyError "ethnic_group"
      /\ Forall (fun o => String.eqb (CensusApi.sex_label o) "All persons"
                          = false) observations
  end.
Proof.
  unfold CensusApi.process_observations.
  destruct (CensusApi.collect observations) as [|d ds] eqn:Hc.
  - split; [reflexivity|].
    apply Forall_forall. intros o Ho.
    destruct (String.eqb (CensusApi.sex_label o) "All persons") eqn:E;
      [|reflexivity].
    assert (Hin : In (CensusApi.mkd (CensusApi.geography_id o)
                        (CensusApi.ethnic_group_label o)
                        (CensusApi.observation o))
                     (CensusApi.collect observations)).
    { unfold CensusApi.collect. apply in_flat_map. exists o.
      split; [exact Ho|]. unfold CensusApi.ALL_PERSONS. rewrite E.
      now left. }
    rewrite Hc in Hin. destruct Hin.
  - assert (Hin : In d (CensusApi.collect observations))
      by (rewrite Hc; now left).
    unfold CensusApi.collect in Hin. apply in_flat_map in Hin.
    destruct Hin as [o [Ho Hd]]. exists o. split; [exact Ho|].
    unfold CensusApi.ALL_PERSONS in Hd.
    destruct (String.eqb (CensusApi.sex_label o) "All persons") eqn:E.
    + now apply String.eqb_eq.
    + destruct Hd.
Qed.

(** X4.  When [process_observations] returns a table, its rows are exactly
    the triples (area, count of an observation labelled with the tracked
    group, count of an observation labelled "All ethnic groups") taken over
    the pairs of kept observations with the same geography id: no region
    filter and no summing. *)
Theorem process_observations_rows (observations : list CensusApi.obs)
        (table : list BlackPop.row)
        (Hok : CensusApi.process_observations observations = Ok table)
        (a : string) (b p : Z) :
  In (BlackPop.mk a b p) table <->
  exists ob ot,
    (In ob observations /\ CensusApi.sex_label ob = "All persons"%string
     /\ CensusApi.ethnic_group_label ob
        = "Black, Black British, Black Welsh, Caribbean or African"%string
     /\ CensusApi.geography_id ob = a /\ CensusApi.observation ob = b)
    /\ (In ot observations /\ CensusApi.sex_label ot = "All persons"%string
        /\ CensusApi.ethnic_group_label ot = "All ethnic groups"%string
        /\ CensusApi.geography_id ot = a /\ CensusApi.observation ot = p).
Proof.
  assert (Hne : CensusApi.collect observations <> []).
  { unfold CensusApi.process_observations in Hok.
    destruct (CensusApi.collect observations); [discriminate Hok|discriminate]. }
  rewrite (@process_observations_frames observations Hne) in Hok.
  inversion Hok as [Ht]. clear Hok Ht.
  unfold Pandas.merge_inner, TwoPaths.black_frame, TwoPaths.total_frame.
  rewrite in_flat_map. split.
  - intros [rb [Hrb Hin]]. apply in_map_iff in Hin.
    destruct Hin as [rt [Heq Hrt]].
    apply matching_in in Hrt. destruct Hrt as [Hrt Hkey].
    apply filter_In in Hrb. destruct Hrb as [Hrb Hlb].
    apply filter_In in Hrt. destruct Hrt as [Hrt Hlt].
    apply String.eqb_eq in Hlb, Hlt.
    apply collect_in in Hrb. destruct Hrb as [ob [Hob [Hsb ->]]].
    apply collect_in in Hrt. destruct Hrt as [ot [Hot [Hst ->]]].
    simpl in *. inversion Heq; subst.
    exists ob, ot. repeat split; auto.
  - intros [ob [ot [[Hob [Hsb [Hlb [Ha Hb]]]] [Hot [Hst [Hlt [Ha' Hp]]]]]]].
    exists (CensusApi.mkd (CensusApi.geography_id ob)
              (CensusApi.ethnic_group_label ob) (CensusApi.observation ob)).
    split.
    + apply filter_In. split.
      * apply collect_in. exists ob. auto.
      * simpl. now apply String.eqb_eq.
    + apply in_map_iff.
      exists (CensusApi.mkd (CensusApi.geography_id ot)
                (CensusApi.ethnic_group_label ot) (CensusApi.observation ot)).
      split.
      * simpl. now rewrite Ha, Hb, Hp.
      * apply matching_in. split.
        -- apply filter_In. split.
           ++ apply collect_in. exists ot. auto.
           ++ simpl. now apply String.eqb_eq.
        -- simpl. now rewrite Ha, Ha'.
Qed.

Lemma process_observations_rows_witness :
  In (BlackPop.mk "E02000001" 50 500) [BlackPop.mk "E02000001" 50 500]
  <-> exists ob ot,
    (In ob TwoPaths.aggregates
     /\ CensusApi.sex_label ob = "All persons"%string
     /\ CensusApi.ethnic_group_label ob
        = "Black, Black British, Black Welsh, Caribbean or African"%string
     /\ CensusApi.geography_id ob = "E02000001"%string
     /\ CensusApi.observation ob = 50%Z)
    /\ (In ot TwoPaths.aggregates
        /\ CensusApi.sex_label ot = "All persons"%string
        /\ CensusApi.ethnic_group_label ot = "All ethnic groups"%string
        /\ CensusApi.geography_id ot = "E02000001"%string
        /\ CensusApi.observation ot = 500%Z).
Proof.
  apply (@process_observations_rows TwoPaths.aggregates
           [BlackPop.mk "E02000001" 50 500]).
  reflexivity.
Defined.

(** ** download_census_data.py: retries and pagination *)

Section Requests.
Import Download.

Lemma get_dimensions_json (failed : list string) (data : json)
      (rest : list outcome) :
  List.length failed <= 2 ->
  get_dimensions (map RequestFailed failed ++ Json data :: rest)
  = Some (Ok (Some data), rest,
          retries DIMENSIONS_URL false (List.length failed)
          ++ [Get DIMENSIONS_URL false]).
Proof.
  intros Hfew.
  destruct failed as [|f1 [|f2 [|f3 failed]]]; simpl in Hfew; try lia;
    reflexivity.
Qed.

(** X5.  [get_dimensions] returns the first response that is not a failed
    request when it is among the first three: the JSON body, or the
    non-JSON error, which is not retried.  It has then slept 1 second
    after the first failure and 2 seconds after the second.  After three
    failed requests it raises with the text of the third failure; the
    responses that follow are not requested. *)
Theorem get_dimensions_retries (failed : list string) (rest : list outcome)
        (Hfew : List.length failed <= 2) :
  (forall data,
      get_dimensions (map RequestFailed failed ++ Json data :: rest)
      = Some (Ok (Some data), rest,
              retries DIMENSIONS_URL false (List.length failed)
              ++ [Get DIMENSIONS_URL false]))
  /\ get_dimensions (map RequestFailed failed ++ NotJson :: rest)
     = Some (Raise (RuntimeError "ONS API returned non-JSON"), rest,
             retries DIMENSIONS_URL false (List.length failed)
             ++ [Get DIMENSIONS_URL false])
  /\ (forall e1 e2 e3,
         get_dimensions
           (RequestFailed e1 :: RequestFailed e2 :: RequestFailed e3 :: rest)
         = Some (Raise (RuntimeError
                          ("Failed to fetch dimensions after 3 attempts: "
                           ++ e3)%string),
                 rest,
                 retries DIMENSIONS_URL false 2 ++ [Get DIMENSIONS_URL false])).
Proof.
  destruct failed as [|f1 [|f2 [|f3 failed]]]; simpl in Hfew; try lia;
    repeat split; intros; reflexivity.
Qed.

Lemma get_dimensions_retries_witness :
  get_dimensions
    (map RequestFailed ["timeout"%string] ++ NotJson :: [NotJson])
  = Some (Raise (RuntimeError "ONS API returned non-JSON"), [NotJson],
          retries DIMENSIONS_URL false 1 ++ [Get DIMENSIONS_URL false]).
Proof.
  assert (H : List.length ["timeout"%string] <= 2) by (simpl; lia).
  exact (proj1 (proj2 (@get_dimensions_retries ["timeout"%string]
                         [NotJson] H))).
Defined.

(** X6.  Whenever [get_dimensions] finishes, it has made at most three
    requests (one per response used), has slept at most 3 seconds, and has
    returned a JSON body or raised: the loop never ends without a
    result. *)
Theorem get_dimensions_bounded (net rest : list outcome)
        (r : result (option json)) (log : list event)
        (Hdone : get_dimensions net = Some (r, rest, log)) :
  List.length (requested log) <= 3
  /\ List.length net = List.length (requested log) + List.length rest
  /\ slept log <= 3
  /\ r <> Ok None.
Proof.
  unfold get_dimensions in Hdone.
  destruct net as [|o1 net]; [discriminate Hdone|].
  destruct o1; simpl in Hdone;
    try (inversion Hdone; subst; simpl; repeat split; try lia; discriminate).
  destruct net as [|o2 net]; [discriminate Hdone|].
  destruct o2; simpl in Hdone;
    try (inversion Hdone; subst; simpl; repeat split; try lia; discriminate).
  destruct net as [|o3 net]; [discriminate Hdone|].
  destruct o3; simpl in Hdone;
    inversion Hdone; subst; simpl; repeat split; try lia; discriminate.
Qed.

Lemma get_dimensions_bounded_witness :
  List.length
    (requested (retries DIMENSIONS_URL false 1 ++ [Get DIMENSIONS_URL false]))
  <= 3
  /\ List.length [RequestFailed "timeout"; NotJson; NotJson]
     = List.length
         (requested (retries DIMENSIONS_URL false 1
                     ++ [Get DIMENSIONS_URL false]))
       + List.length [NotJson]
  /\ slept (retries DIMENSIONS_URL false 1 ++ [Get DIMENSIONS_URL false]) <= 3
  /\ Raise (RuntimeError "ONS API returned non-JSON") <> Ok (@None json).
Proof.
  apply (@get_dimensions_bounded
           [RequestFailed "timeout"; NotJson; NotJson] [NotJson]).
  reflexivity.
Defined.
End Requests.

Section Pagination.
Import Download.

(** One page, served after at most two failed requests. *)
Lemma fetch_page_served (failed : list string) (url : string)
      (all_observations page : list CensusApi.obs) (next : option string)
      (tail : list outcome) (log : list event) :
  List.length failed <= 2 ->
  fetch_page_loop MAX_RETRIES 0 url all_observations
                  (serve failed page next ++ tail) log
  = Some (Fetched next (all_observations ++ page), tail,
          log ++ retries url (String.eqb url BASE_URL) (List.length failed)
          ++ [Get url (String.eqb url BASE_URL)]).
Proof.
  intros Hfew. unfold serve.
  destruct failed as [|f1 [|f2 [|f3 failed]]]; simpl in Hfew; try lia;
    simpl; rewrite <- ?app_assoc; reflexivity.
Qed.

(** Reading through a chain of pages. *)
Lemma while_url_pages (pages : list served) :
  forall (fuel : nat) (url : string) (acc : list CensusApi.obs)
         (tail : list outcome) (log : list event),
    readable pages -> url <> ""%string ->
    while_url (List.length pages + fuel) (Some url) acc
              (serve_all pages ++ tail) log
    = while_url fuel (Some (last_url url pages))
                (acc ++ List.concat (map page pages)) tail
                (log ++ pages_log url pages).
Proof.
  induction pages as [|s pages IH]; intros fuel url acc tail log Hr Hu.
  - simpl. now rewrite !app_nil_r.
  - inversion Hr as [|? ? [Hfew Hnext] Hr']; subst.
    cbn [List.length Nat.add serve_all flat_map while_url].
    apply String.eqb_neq in Hu. rewrite Hu.
    rewrite <- app_assoc.
    rewrite (@fetch_page_served (fails s) url acc (page s)
               (Some (next_url s)) _ log Hfew).
    fold (serve_all pages).
    rewrite (IH fuel (next_url s) _ tail _ Hr' Hnext).
    cbn [last_url pages_log map List.concat].
    rewrite <- !app_assoc. reflexivity.
Qed.

Lemma last_url_nonempty (pages : list served) (url : string) :
  readable pages -> url <> ""%string -> last_url url pages <> ""%string.
Proof.
  revert url. induction pages as [|s pages IH]; intros url Hr Hu; simpl.
  - exact Hu.
  - inversion Hr as [|? ? [_ Hnext] Hr']; subst. now apply IH.
Qed.

Lemma serve_all_length (pages : list served) :
  List.length pages <= List.length (serve_all pages).
Proof.
  induction pages as [|s pages IH]; simpl; [lia|].
  rewrite length_app. unfold serve. rewrite length_app. simpl. lia.
Qed.

(** The fuel of [fetch_census_data] as the pages of a chain and the
    turns left after them. *)
Lemma fetch_fuel (pages : list served) (tail : list outcome) :
  exists k, S (List.length (serve_all pages ++ tail))
            = List.length pages + S (k + List.length tail).
Proof.
  exists (List.length (serve_all pages) - List.length pages).
  pose proof (serve_all_length pages). rewrite length_app. lia.
Qed.

Lemma base_url_nonempty : BASE_URL <> ""%string.
Proof. discriminate. Qed.

(** Reading a chain of pages to its end, with turns to spare. *)
Lemma while_url_chain (pages : list served)
      (last_failed : list string) (last_page : list CensusApi.obs)
      (last_next : option string) (rest : list outcome) (k : nat) :
  readable pages ->
  List.length last_failed <= 2 ->
  last_next = None \/ last_next = Some ""%string ->
  while_url (List.length pages + S k) (Some BASE_URL) []
            (serve_all pages ++ serve last_failed last_page last_next ++ rest)
            []
  = Some (Ok (List.concat (map page pages) ++ last_page), rest,
          pages_log BASE_URL pages
          ++ retries (last_url BASE_URL pages)
               (String.eqb (last_url BASE_URL pages) BASE_URL)
               (List.length last_failed)
          ++ [Get (last_url BASE_URL pages)
                  (String.eqb (last_url BASE_URL pages) BASE_URL)]).
Proof.
  intros Hpages Hfew Hlast.
  rewrite (@while_url_pages pages _ BASE_URL [] _ [] Hpages base_url_nonempty).
  pose proof (last_url_nonempty Hpages base_url_nonempty) as Hu.
  apply String.eqb_neq in Hu.
  cbn [while_url]. rewrite Hu.
  rewrite (@fetch_page_served last_failed _ _ last_page last_next rest _ Hfew).
  simpl app.
  destruct Hlast as [-> | ->]; destruct k; reflexivity.
Qed.

(** X7.  When every page is served after fewer than three failed requests
    in a row and the last page has no [next] (or an empty one),
    [fetch_census_data] returns the observations of all pages, in page
    order; it requests the base URL first and then the [next] of each
    page, and leaves the responses after the last page unread. *)
Theorem fetch_census_data_pages (pages : list served)
        (last_failed : list string) (last_page : list CensusApi.obs)
        (last_next : option string) (rest : list outcome)
        (Hpages : readable pages)
        (Hfew : List.length last_failed <= 2)
        (Hlast : last_next = None \/ last_next = Some ""%string) :
  fetch_census_data
    (serve_all pages ++ serve last_failed last_page last_next ++ rest)
  = Some (Ok (List.concat (map page pages) ++ last_page), rest,
          pages_log BASE_URL pages
          ++ retries (last_url BASE_URL pages)
               (String.eqb (last_url BASE_URL pages) BASE_URL)
               (List.length last_failed)
          ++ [Get (last_url BASE_URL pages)
                  (String.eqb (last_url BASE_URL pages) BASE_URL)]).
Proof.
  unfold fetch_census_data.
  destruct (fetch_fuel pages (serve last_failed last_page last_next ++ rest))
    as [k Hk].
  rewrite Hk.
  apply while_url_chain; assumption.
Qed.

Ltac readable_pages :=
  repeat constructor; simpl; try lia; discriminate.

Lemma fetch_census_data_pages_witness :
  fetch_census_data
    (serve_all two_pages ++ serve [] second_page None ++ [NotJson])
  = Some (Ok (List.concat (map page two_pages) ++ second_page), [NotJson],
          pages_log BASE_URL two_pages
          ++ retries (last_url BASE_URL two_pages)
               (String.eqb (last_url BASE_URL two_pages) BASE_URL) 0
          ++ [Get (last_url BASE_URL two_pages)
                  (String.eqb (last_url BASE_URL two_pages) BASE_URL)]).
Proof.
  assert (H1 : readable two_pages) by readable_pages.
  assert (H2 : List.length (@nil string) <= 2) by (simpl; lia).
  exact (@fetch_census_data_pages two_pages [] second_page None [NotJson]
           H1 H2 (or_introl eq_refl)).
Defined.

(** X8.  After any chain of pages read, [fetch_census_data] raises, and
    returns none of the observations read so far, when a page fails three
    times in a row (the count starts again at every page), when a body is
    not JSON (at once, without a retry), or when a JSON body has no
    "observations" (KeyError, at once). *)
Theorem fetch_census_data_gives_up (pages : list served)
        (failed : list string) (rest : list outcome)
        (Hpages : readable pages)
        (Hfew : List.length failed <= 2) :
  (forall e1 e2 e3,
      fetch_census_data
        (serve_all pages
         ++ RequestFailed e1 :: RequestFailed e2 :: RequestFailed e3 :: rest)
      = Some (Raise (RuntimeError
                       ("Failed to fetch data after 3 attempts: " ++ e3)%string),
              rest,
              pages_log BASE_URL pages
              ++ retries (last_url BASE_URL pages)
                   (String.eqb (last_url BASE_URL pages) BASE_URL) 2
              ++ [Get (last_url BASE_URL pages)
                      (String.eqb (last_url BASE_URL pages) BASE_URL)]))
  /\ fetch_census_data
       (serve_all pages ++ map RequestFailed failed ++ NotJson :: rest)
     = Some (Raise (RuntimeError "ONS API returned non-JSON"), rest,
             pages_log BASE_URL pages
             ++ retries (last_url BASE_URL pages)
                  (String.eqb (last_url BASE_URL pages) BASE_URL)
                  (List.length failed)
             ++ [Get (last_url BASE_URL pages)
                     (String.eqb (last_url BASE_URL pages) BASE_URL)])
  /\ (forall next,
         fetch_census_data
           (serve_all pages ++ map RequestFailed failed
            ++ Json (mkjson None next) :: rest)
         = Some (Raise (KeyError "observations"), rest,
                 pages_log BASE_URL pages
                 ++ retries (last_url BASE_URL pages)
                      (String.eqb (last_url BASE_URL pages) BASE_URL)
                      (List.length failed)
                 ++ [Get (last_url BASE_URL pages)
                         (String.eqb (last_url BASE_URL pages) BASE_URL)])).
Proof.
  pose proof (last_url_nonempty Hpages base_url_nonempty) as Hu.
  apply String.eqb_neq in Hu.
  unfold fetch_census_data. repeat split; intros.
  - destruct (fetch_fuel pages
                (RequestFailed e1 :: RequestFailed e2 :: RequestFailed e3
                 :: rest)) as [k ->].
    rewrite (@while_url_pages pages _ BASE_URL [] _ [] Hpages
               base_url_nonempty).
    cbn [while_url]. rewrite Hu. simpl.
    rewrite <- !app_assoc. reflexivity.
  - destruct (fetch_fuel pages (map RequestFailed failed ++ NotJson :: rest))
      as [k ->].
    rewrite (@while_url_pages pages _ BASE_URL [] _ [] Hpages
               base_url_nonempty).
    cbn [while_url]. rewrite Hu.
    destruct failed as [|f1 [|f2 [|f3 failed]]]; simpl in Hfew; try lia;
      simpl; rewrite <- ?app_assoc; reflexivity.
  - destruct (fetch_fuel pages
                (map RequestFailed failed ++ Json (mkjson None next) :: rest))
      as [k ->].
    rewrite (@while_url_pages pages _ BASE_URL [] _ [] Hpages
               base_url_nonempty).
    cbn [while_url]. rewrite Hu.
    destruct failed as [|f1 [|f2 [|f3 failed]]]; simpl in Hfew; try lia;
      simpl; rewrite <- ?app_assoc; reflexivity.
Qed.

Lemma fetch_census_data_gives_up_witness :
  fetch_census_data
    (serve_all two_pages ++ map RequestFailed ["reset"%string]
     ++ NotJson :: [])
  = Some (Raise (RuntimeError "ONS API returned non-JSON"), [],
          pages_log BASE_URL two_pages
          ++ retries (last_url BASE_URL two_pages)
               (String.eqb (last_url BASE_URL two_pages) BASE_URL) 1
          ++ [Get (last_url BASE_URL two_pages)
                  (String.eqb (last_url BASE_URL two_pages) BASE_URL)]).
Proof.
  assert (H1 : readable two_pages) by readable_pages.
  assert (H2 : List.length ["reset"%string] <= 2) by (simpl; lia).
  exact (proj1 (proj2 (@fetch_census_data_gives_up two_pages
                         ["reset"%string] [] H1 H2))).
Defined.

(** X9.  When the dimensions request is answered with JSON within three
    requests and the pages are then read to the end, [main] writes the
    table that [process_observations] builds from the observations of all
    pages in page order, or raises its [KeyError]; the content of the
    dimensions response plays no part. *)
Theorem main_writes_table (dim_failed : list string) (dimensions : json)
        (pages : list served) (last_failed : list string)
        (last_page : list CensusApi.obs) (last_next : option string)
        (rest : list outcome)
        (Hdim : List.length dim_failed <= 2)
        (Hpages : readable pages)
        (Hfew : List.length last_failed <= 2)
        (Hlast : last_next = None \/ last_next = Some ""%string) :
  exists log,
    main (map RequestFailed dim_failed ++ Json dimensions
          :: serve_all pages ++ serve last_failed last_page last_next ++ rest)
    = Some (CensusApi.process_observations
              (List.concat (map page pages) ++ last_page),
            rest, log).
Proof.
  unfold main.
  rewrite (@get_dimensions_json dim_failed dimensions
             (serve_all pages ++ serve last_failed last_page last_next
              ++ rest) Hdim).
  unfold fetch_census_data.
  destruct (fetch_fuel pages (serve last_failed last_page last_next ++ rest))
    as [k Hk].
  rewrite Hk.
  rewrite (@while_url_chain pages last_failed last_page last_next rest _
             Hpages Hfew Hlast).
  eexists. reflexivity.
Qed.

Lemma main_writes_table_witness :
  exists log,
    main (map RequestFailed [] ++ Json (mkjson None None)
          :: serve_all two_pages ++ serve [] second_page None ++ [])
    = Some (CensusApi.process_observations
              (List.concat (map page two_pages) ++ second_page),
            [], log).
Proof.
  assert (H0 : List.length (@nil string) <= 2) by (simpl; lia).
  assert (H1 : readable two_pages) by readable_pages.
  exact (@main_writes_table [] (mkjson None None) two_pages [] second_page
           None [] H0 H1 H0 (or_introl eq_refl)).
Defined.
End Pagination.

(** ** london_black_income_map.py: the attribute columns *)

Section ColumnFacts.
Import Columns.

Lemma find_first (A : Type) (f : A -> bool) (l : list A) (x : A) :
  find f l = Some x ->
  exists before after,
    l = before ++ x :: after
    /\ Forall (fun y => f y = false) before /\ f x = true.
Proof.
  induction l as [|y l IH]; simpl; [discriminate|].
  destruct (f y) eqn:E.
  - intros H. inversion H; subst. exists [], l. auto.
  - intros H. destruct (IH H) as [before [after [-> [Hb Hx]]]].
    exists (y :: before), after. auto.
Qed.

Lemma find_nothing (A : Type) (f : A -> bool) (l : list A) :
  find f l = None -> Forall (fun y => f y = false) l.
Proof.
  intros H. apply Forall_forall. intros y Hy.
  exact (find_none f l H y Hy).
Qed.

Lemma code_col_nonempty (c : string) : is_code_col c = true -> c <> ""%string.
Proof. intros H E. subst c. discriminate H. Qed.

Lemma name_col_nonempty (c : string) : is_name_col c = true -> c <> ""%string.
Proof. intros H E. subst c. discriminate H. Qed.

Lemma suffix_cd_nm (a b : string) : (a ++ "cd" <> b ++ "nm")%string.
Proof.
  revert b. induction a as [|x a IH]; intros b H.
  - destruct b as [|y [|z [|w b]]]; simpl in H; discriminate H.
  - destruct b as [|y b]; simpl in H.
    + destruct a as [|z [|w a]]; simpl in H; discriminate H.
    + inversion H. eapply IH; eassumption.
Qed.

Lemma identify_columns_found (columns : list string) :
  match _identify_msoa_columns columns with
  | Ok (code_col, name_col) =>
      is_code_col code_col = true /\ is_name_col name_col = true
  | Raise _ => True
  end.
Proof.
  unfold _identify_msoa_columns.
  destruct (find is_code_col columns) as [c|] eqn:Hc; [|exact I].
  destruct (find is_name_col columns) as [n|] eqn:Hn;
    [|simpl; rewrite orb_true_r; exact I].
  apply find_some in Hc, Hn.
  destruct (falsy (Some c) || falsy (Some n)); [exact I|].
  split; tauto.
Qed.

(** X10.  [_identify_msoa_columns] returns, for the code, the first column
    whose lower-cased name starts with "msoa" and ends with "cd", and, for
    the name, the first column whose lower-cased name starts with "msoa"
    and ends with "nm" or contains "name"; it raises [KeyError] exactly
    when no column is a code column or no column is a name column. *)
Theorem identify_msoa_columns_first (columns : list string) :
  match _identify_msoa_columns columns with
  | Ok (code_col, name_col) =>
      (exists before after,
          columns = before ++ code_col :: after
          /\ Forall (fun c => is_code_col c = false) before
          /\ is_code_col code_col = true)
      /\ (exists before after,
             columns = before ++ name_col :: after
             /\ Forall (fun c => is_name_col c = false) before
             /\ is_name_col name_col = true)
  | Raise e =>
      e = KeyError "Could not find MSOA code/name columns in shapefile"
      /\ (Forall (fun c => is_code_col c = false) columns
          \/ Forall (fun c => is_name_col c = false) columns)
  end.
Proof.
  unfold _identify_msoa_columns.
  destruct (find is_code_col columns) as [c|] eqn:Hc.
  - destruct (find is_name_col columns) as [n|] eqn:Hn.
    + pose proof (find_first _ _ Hc) as Hc'.
      pose proof (find_first _ _ Hn) as Hn'.
      assert (Ec : String.eqb c "" = false).
      { apply String.eqb_neq, code_col_nonempty.
        destruct Hc' as [? [? [_ [_ H]]]]. exact H. }
      assert (En : String.eqb n "" = false).
      { apply String.eqb_neq, name_col_nonempty.
        destruct Hn' as [? [? [_ [_ H]]]]. exact H. }
      simpl. rewrite Ec, En. simpl. split; assumption.
    + simpl. rewrite orb_true_r. split; [reflexivity|].
      right. now apply find_nothing.
  - simpl. split; [reflexivity|]. left. now apply find_nothing.
Qed.

(** X11.  The two columns returned are the same column only when its
    lower-cased name contains "name": a name column found by its "nm"
    ending is never the code column. *)
Theorem identify_msoa_columns_same (columns : list string)
        (code_col name_col : string)
        (Hok : _identify_msoa_columns columns = Ok (code_col, name_col))
        (Hsame : code_col = name_col) :
  Str.contains "name" (Str.lower code_col) = true
  /\ Str.endswith "nm" (Str.lower code_col) = false.
Proof.
  pose proof (identify_columns_found columns) as H.
  rewrite Hok in H. destruct H as [Hc Hn]. subst name_col.
  unfold is_code_col in Hc. unfold is_name_col in Hn.
  apply andb_true_iff in Hc. destruct Hc as [_ Hcd].
  apply andb_true_iff in Hn. destruct Hn as [_ Hnm].
  assert (Hno : Str.endswith "nm" (Str.lower code_col) = false).
  { destruct (Str.endswith "nm" (Str.lower code_col)) eqn:E; [|reflexivity].
    apply endswith_iff in Hcd, E.
    destruct Hcd as [a Ha]. destruct E as [b Hb].
    exfalso. apply (@suffix_cd_nm a b). now rewrite <- Ha, <- Hb. }
  rewrite Hno in Hnm. simpl in Hnm. now split.
Qed.
End ColumnFacts.

Lemma identify_msoa_columns_same_witness :
  Str.contains "name" (Str.lower "MSOA_NAME_CD") = true
  /\ Str.endswith "nm" (Str.lower "MSOA_NAME_CD") = false.
Proof.
  apply (@identify_msoa_columns_same Columns.one_column
           "MSOA_NAME_CD" "MSOA_NAME_CD"); reflexivity.
Defined.

(** ** streamlit_app.py: which areas the joiner keeps *)

Lemma map_filter_map (A B C : Type) (f : A -> B) (g : B -> C)
      (p : B -> bool) (q : C -> bool) (l : list A) :
  (forall x, p (f x) = q (g (f x))) ->
  map g (filter p (map f l)) = filter q (map (fun x => g (f x)) l).
Proof.
  intros H. induction l as [|x l IH]; simpl; [reflexivity|].
  rewrite <- H. destruct (p (f x)); simpl; now rewrite IH.
Qed.

(** X12.  When no code occurs twice within the income, ethnicity-derived
    and housing tables, the codes of the joined table are the codes of the
    geometry table, in its order and with its repetitions, that have a
    row with non-missing black_share, a row with non-missing income and a
    row with non-missing median_house_price; and every row of the joined
    table carries a row of the geometry table unchanged. *)
Theorem joined_codes (G : Type)
        (gdf : list (Shapes.row G)) (income_df : list Income.row)
        (black_df : list BlackShare.row) (housing_df : list Housing.row)
        (income_keys : NoDup (map Income.msoa income_df))
        (black_keys : NoDup (map BlackShare.msoa black_df))
        (housing_keys : NoDup (map Housing.msoa housing_df)) :
  map (@App.msoa G) (App.load_all_data gdf income_df black_df housing_df)
  = filter (fun k => JoinSpec.has_share black_df k
                     && JoinSpec.has_income income_df k
                     && JoinSpec.has_price housing_df k)
           (map (@Shapes.msoa G) gdf)
  /\ Forall (fun r => In (App.shape r) gdf)
            (App.load_all_data gdf income_df black_df housing_df).
Proof.
  unfold App.load_all_data.
  rewrite (@merge_left_find _ _ (@Shapes.msoa G) Income.msoa gdf income_df
             income_keys).
  rewrite (@merge_left_find _ _ (fun r => Shapes.msoa (fst r))
             BlackShare.msoa _ black_df black_keys).
  rewrite (@merge_left_find _ _ (fun r => Shapes.msoa (fst (fst r)))
             Housing.msoa _ housing_df housing_keys).
  rewrite !map_map. cbn [fst snd]. split.
  - apply map_filter_map. intros s.
    unfold App.complete, App.black_share, App.income,
      App.median_house_price, App.msoa, App.shape. cbn [fst snd].
    unfold JoinSpec.has_share, JoinSpec.has_income, JoinSpec.has_price.
    rewrite <- (@find_existsb _ BlackShare.msoa BlackShare.black_share
                  (Shapes.msoa s) black_df black_keys).
    rewrite <- (@find_existsb _ Income.msoa Income.income
                  (Shapes.msoa s) income_df income_keys).
    rewrite <- (@find_existsb _ Housing.msoa Housing.median_house_price
                  (Shapes.msoa s) housing_df housing_keys).
    reflexivity.
  - apply Forall_forall. intros r Hr. apply filter_In in Hr.
    destruct Hr as [Hr _]. apply in_map_iff in Hr.
    destruct Hr as [s [<- Hs]]. exact Hs.
Qed.

Lemma joined_codes_witness :
  map (@App.msoa unit)
      (App.load_all_data Distinct.gdf Distinct.income_df Distinct.black_df
         Distinct.housing_df)
  = filter (fun k => JoinSpec.has_share Distinct.black_df k
                     && JoinSpec.has_income Distinct.income_df k
                     && JoinSpec.has_price Distinct.housing_df k)
           (map (@Shapes.msoa unit) Distinct.gdf)
  /\ Forall (fun r => In (App.shape r) Distinct.gdf)
            (App.load_all_data Distinct.gdf Distinct.income_df
               Distinct.black_df Distinct.housing_df).
Proof.
  assert (Hi : NoDup (map Income.msoa Distinct.income_df))
    by distinct_codes.
  assert (Hb : NoDup (map BlackShare.msoa Distinct.black_df))
    by distinct_codes.
  assert (Hh : NoDup (map Housing.msoa Distinct.housing_df))
    by distinct_codes.
  exact (@joined_codes unit Distinct.gdf Distinct.income_df
           Distinct.black_df Distinct.housing_df Hi Hb Hh).
Defined.

(** ** The filter mask and the thresholds *)

Lemma count_true_mono (A : Type) (f g : A -> bool) (l : list A) :
  (forall x, f x = true -> g x = true) ->
  count_occ bool_dec (map f l) true <= count_occ bool_dec (map g l) true.
Proof.
  intros H. induction l as [|x l IH]; simpl; [lia|].
  destruct (f x) eqn:Ef.
  - rewrite (H x Ef). simpl. lia.
  - destruct (g x); simpl; lia.
Qed.

Lemma row_matches_tighter (G : Type) (a b c a' b' c' : F64.t)
      (r : App.gdf_row G) :
  fle a a' -> fle b b' -> fle c' c ->
  RowWise.row_matches a' b' c' r = true -> RowWise.row_matches a b c r = true.
Proof.
  unfold RowWise.row_matches, F64.geb. intros Ha Hb Hc H.
  apply andb_true_iff in H. destruct H as [H H3].
  apply andb_true_iff in H. destruct H as [H1 H2].
  rewrite (fle_trans Ha H1), (fle_trans Hb H2), (fle_trans H3 Hc).
  reflexivity.
Qed.

(** X13.  Tightening the thresholds never adds an area: if the minimum
    share and the minimum income are raised and the maximum price is
    lowered, every row of the new mask that is true was true in the old
    mask, and the count does not grow. *)
Theorem filter_mask_antitone (G : Type) (gdf : list (App.gdf_row G))
        (min_share min_income max_price : F64.t)
        (min_share' min_income' max_price' : F64.t)
        (Hshare : F64.leb min_share min_share' = true)
        (Hincome : F64.leb min_income min_income' = true)
        (Hprice : F64.leb max_price' max_price = true) :
  Forall2 (fun tight loose : bool => tight = true -> loose = true)
          (App.current_filter_mask gdf min_share' min_income' max_price')
          (App.current_filter_mask gdf min_share min_income max_price)
  /\ (App.match_count gdf min_share' min_income' max_price'
      <= App.match_count gdf min_share min_income max_price)%Z.
Proof.
  unfold App.match_count. rewrite !mask_rowwise, !bool_sum_count. split.
  - induction gdf as [|r gdf IH]; simpl; constructor; [|exact IH].
    now apply row_matches_tighter.
  - apply inj_le, count_true_mono. intros r.
    now apply row_matches_tighter.
Qed.

Lemma filter_mask_antitone_witness :
  Forall2 (fun tight loose : bool => tight = true -> loose = true)
          (App.current_filter_mask Scenario.gdf (F64.Fin (25 # 100))
             Scenario.min_income Scenario.max_house_price)
          (App.current_filter_mask Scenario.gdf Scenario.min_group_share
             Scenario.min_income Scenario.max_house_price)
  /\ (App.match_count Scenario.gdf (F64.Fin (25 # 100))
        Scenario.min_income Scenario.max_house_price
      <= App.match_count Scenario.gdf Scenario.min_group_share
           Scenario.min_income Scenario.max_house_price)%Z.
Proof.
  apply filter_mask_antitone; reflexivity.
Defined.

(** ** The table-wide statistics *)

(** X15.  On a joined table with at least one row whose house prices are
    non-negative numbers below the overflow threshold of float64, the
    65th percentile lies between the house prices of two rows: it is
    never below the lowest nor above the highest price of the table. *)
Theorem house_price_p65_within_range (float_mean : list F64.t -> F64.t)
        (G : Type) (gdf : list (App.gdf_row G))
        (Hrows : gdf <> [])
        (Hpos : Forall (fun r => nonneg (App.median_house_price r)) gdf) :
  exists r1 r2,
    In r1 gdf /\ In r2 gdf
    /\ F64.leb (App.median_house_price r1)
               (snd (App.global_stats float_mean gdf)) = true
    /\ F64.leb (snd (App.global_stats float_mean gdf))
               (App.median_house_price r2) = true.
Proof.
  unfold App.global_stats, App.calculate_global_stats, App.stats_columns.
  cbn [fst snd].
  set (prices := map (@App.median_house_price G) gdf).
  assert (Hp : Forall nonneg prices) by (now apply column_forall).
  assert (Hne : prices <> [])
    by (unfold prices; destruct gdf; [congruence|discriminate]).
  assert (Hq : (0 <= 65 # 100 <= 1)%Q) by (split; unfold Qle; simpl; lia).
  destruct (quantile_between Hne Hp Hq) as [x [y [Hx [Hy [Hlo Hhi]]]]].
  unfold prices in Hx, Hy.
  apply in_map_iff in Hx. destruct Hx as [r1 [<- Hr1]].
  apply in_map_iff in Hy. destruct Hy as [r2 [<- Hr2]].
  exists r1, r2. auto.
Qed.

Lemma house_price_p65_within_range_witness :
  Scenario.gdf <> []
  /\ Forall (fun r => nonneg (App.median_house_price r)) Scenario.gdf
  /\ forall float_mean : list F64.t -> F64.t,
      exists r1 r2,
        In r1 Scenario.gdf /\ In r2 Scenario.gdf
        /\ F64.leb (App.median_house_price r1)
                   (snd (App.global_stats float_mean Scenario.gdf)) = true
        /\ F64.leb (snd (App.global_stats float_mean Scenario.gdf))
                   (App.median_house_price r2) = true.
Proof.
  assert (H1 : Scenario.gdf <> []) by discriminate.
  assert (H2 : Forall (fun r => nonneg (App.median_house_price r))
                      Scenario.gdf)
    by (repeat constructor).
  split; [exact H1|]. split; [exact H2|].
  intros float_mean.
  exact (@house_price_p65_within_range float_mean unit Scenario.gdf H1 H2).
Defined.

Section QuantileOrder.

Lemma floor_nonneg (m : nat) (q : Q) :
  (0 <= q)%Q -> (0 <= Qfloor (inject_Z (Z.of_nat m) * q))%Z.
Proof.
  intros Hq. rewrite <- (Qfloor_Z 0). apply Qfloor_resp_le.
  change (inject_Z 0) with 0%Q. apply Qmult_le_0_compat; [|exact Hq].
  change 0%Q with (inject_Z 0). rewrite <- Zle_Qle. lia.
Qed.

(** A quantile does not decrease with the percentile. *)
Lemma quantile_mono (q1 q2 : Q) (s : list F64.t) :
  s <> [] -> Forall nonneg s ->
  (0 <= q1)%Q -> (q1 <= q2)%Q -> (q2 <= 1)%Q ->
  fle (Pandas.quantile q1 s) (Pandas.quantile q2 s).
Proof.
  intros Hne Hpos H0 H12 H1.
  assert (Hq1 : (0 <= q1 <= 1)%Q) by lra.
  assert (Hq2 : (0 <= q2 <= 1)%Q) by lra.
  destruct (quantile_parts Hne Hpos Hq1)
    as [i1 [j1 [Hi1 [Hj1 [[Hp1 [Hij1 Hu1]] [Hlh1 [Hhi1 [Hf1 Hv1]]]]]]]].
  destruct (quantile_parts Hne Hpos Hq2)
    as [i2 [j2 [Hi2 [Hj2 [[Hp2 [Hij2 Hu2]] [Hlh2 [Hhi2 [Hf2 Hv2]]]]]]]].
  rewrite Hv1, Hv2.
  set (m := inject_Z (Z.of_nat (List.length s - 1))) in *.
  assert (Hm : (0 <= m)%Q)
    by (unfold m; change 0%Q with (inject_Z 0); rewrite <- Zle_Qle; lia).
  assert (Hh : (m * q1 <= m * q2)%Q).
  { rewrite !(Qmult_comm m). apply Qmult_le_compat_r; assumption. }
  pose proof (Qfloor_resp_le _ _ Hh) as Hfl.
  pose proof (@floor_nonneg (List.length s - 1) q1 H0) as Hn1.
  fold m in Hn1.
  pose proof (nonneg_all_finite Hpos) as Hfin.
  pose proof (sort_values_sorted Hfin) as Hsorted.
  pose proof (sort_values_finite Hfin) as Hvfin.
  destruct (Z.eq_dec (Qfloor (m * q1)) (Qfloor (m * q2))) as [E|NE].
  - rewrite <- E in Hi2, Hj2, Hf2 |- *.
    rewrite Hi1 in Hi2. rewrite Hj1 in Hj2.
    inversion Hi2; inversion Hj2; subst i2 j2.
    apply interpolation_mono; try assumption; lra.
  - assert (Hlt : Z.to_nat (Qfloor (m * q1)) + 1
                  <= Z.to_nat (Qfloor (m * q2))) by lia.
    eapply fle_trans;
      [apply (@interpolation_le j1); try assumption; apply Qle_refl|].
    eapply fle_trans;
      [|apply (@interpolation_ge i2); try assumption; apply Qle_refl].
    rewrite <- Hj1, <- Hi2.
    apply sorted_nth; [exact Hsorted | exact Hvfin | lia | lia].
Qed.

Lemma percent_in_unit (p : Z) :
  (0 <= p <= 100)%Z -> (0 <= p # 100 <= 1)%Q.
Proof. intros H. unfold Qle. simpl. lia. Qed.

Lemma quantile_checked_percent (p : Z) (s : list F64.t) :
  (0 <= p <= 100)%Z ->
  MiddleClass.quantile_checked (p # 100) s
  = Some (Pandas.quantile (p # 100) s).
Proof.
  intros H. unfold MiddleClass.quantile_checked.
  destruct (percent_in_unit H) as [H0 H1].
  apply Qle_bool_iff in H0, H1. now rewrite H0, H1.
Qed.
End QuantileOrder.

(** X16.  [classify_middle_class] with a wider percentile band flags every
    area that a narrower band flags: for percentiles between 0 and 100,
    lowering [low] and raising [high] only adds areas (the quantile of a
    non-empty column of non-negative incomes below the overflow threshold
    of float64 does not decrease with the percentile). *)
Theorem middle_class_band_widens (income : list F64.t)
        (low high low' high' : Z)
        (Hrows : income <> [])
        (Hpos : Forall nonneg income)
        (Hlow : (0 <= low' <= low)%Z) (Hlow100 : (low <= 100)%Z)
        (Hhigh : (0 <= high <= high')%Z) (Hhigh100 : (high' <= 100)%Z) :
  exists narrow wide,
    MiddleClass.classify_middle_class income low high = Some narrow
    /\ MiddleClass.classify_middle_class income low' high' = Some wide
    /\ Forall2 (fun n w : bool => n = true -> w = true) narrow wide.
Proof.
  unfold MiddleClass.classify_middle_class.
  rewrite !quantile_checked_percent by lia.
  do 2 eexists. split; [reflexivity|]. split; [reflexivity|].
  unfold MiddleClass.between. rewrite !series_and_map.
  assert (Hlo : fle (Pandas.quantile (low' # 100) income)
                    (Pandas.quantile (low # 100) income)).
  { apply quantile_mono; try assumption; unfold Qle; simpl; lia. }
  assert (Hhi : fle (Pandas.quantile (high # 100) income)
                    (Pandas.quantile (high' # 100) income)).
  { apply quantile_mono; try assumption; unfold Qle; simpl; lia. }
  revert Hlo Hhi.
  generalize (Pandas.quantile (low # 100) income)
             (Pandas.quantile (low' # 100) income)
             (Pandas.quantile (high # 100) income)
             (Pandas.quantile (high' # 100) income).
  intros lo lo' hi hi' Hlo Hhi. clear Hrows Hpos.
  induction income as [|x income IH]; simpl; constructor; [|exact IH].
  unfold F64.geb. intros H. apply andb_true_iff in H. destruct H as [Ha Hb].
  now rewrite (fle_trans Hlo Ha), (fle_trans Hb Hhi).
Qed.

Lemma middle_class_band_widens_witness :
  map (@App.income unit) Scenario.gdf <> []
  /\ Forall nonneg (map (@App.income unit) Scenario.gdf)
  /\ exists narrow wide,
      MiddleClass.classify_middle_class
        (map (@App.income unit) Scenario.gdf) 40 60 = Some narrow
      /\ MiddleClass.classify_middle_class
           (map (@App.income unit) Scenario.gdf) 20 80 = Some wide
      /\ Forall2 (fun n w : bool => n = true -> w = true) narrow wide.
Proof.
  assert (H1 : map (@App.income unit) Scenario.gdf <> []) by discriminate.
  assert (H2 : Forall nonneg (map (@App.income unit) Scenario.gdf))
    by (repeat constructor).
  split; [exact H1|]. split; [exact H2|].
  apply (@middle_class_band_widens _ 40 60 20 80 H1 H2); simpl; lia.
Defined.

(** ** streamlit_app.py: the dynamic layer and the legends *)

(** X17.  In the "Live Filtered Areas" layer the feature of a row is drawn
    filled (#00CCFF, black outline of weight 1, opacity 0.7) exactly when
    the row passes the three thresholds, and fully transparent with no
    outline otherwise. *)
Theorem live_layer_highlights_matches (G : Type) (gdf : list (App.gdf_row G))
        (min_share min_income max_price : F64.t) :
  Forall2
    (fun r st =>
       (RowWise.row_matches min_share min_income max_price r = true
        /\ st = Layer.mkstyle "#00CCFF" "black" 1 (7 # 10))
       \/ (RowWise.row_matches min_share min_income max_price r = false
           /\ st = Layer.mkstyle "transparent" "transparent" 0 0))
    gdf (Layer.live_layer_styles gdf min_share min_income max_price).
Proof.
  unfold Layer.live_layer_styles. rewrite mask_rowwise, !map_map.
  induction gdf as [|r gdf IH]; simpl; constructor; [|exact IH].
  destruct (RowWise.row_matches min_share min_income max_price r);
    [left | right]; split; reflexivity.
Qed.

Section Legends.
Variable child : Type.

Lemma pop_first (key : string) (c : child)
      (before after : list (string * child)) :
  Forall (fun kv => fst kv <> key) before ->
  Layer.pop key (before ++ (key, c) :: after) = Ok (before ++ after).
Proof.
  induction 1 as [|[k c0] before Hk Hb IH]; simpl.
  - now rewrite String.eqb_refl.
  - simpl in Hk. apply String.eqb_neq in Hk. now rewrite Hk, IH.
Qed.

Lemma remove_legend_from (items before : list (string * child)) :
  Forall (fun kv => Str.startswith "color_map" (fst kv) = false) before ->
  fold_left (fun acc del_item =>
               match acc with
               | Ok cs => Layer.pop del_item cs
               | Raise e => Raise e
               end)
            (filter (fun k => Str.startswith "color_map" k)
                    (map fst items))
            (Ok (before ++ items))
  = Ok (before
        ++ filter (fun kv => negb (Str.startswith "color_map" (fst kv)))
                  items).
Proof.
  revert before. induction items as [|[k c] items IH]; intros before Hb.
  - reflexivity.
  - cbn [map fst filter].
    destruct (Str.startswith "color_map" k) eqn:E; cbn [negb fold_left].
    + rewrite pop_first.
      * now apply IH.
      * eapply Forall_impl; [|exact Hb].
        intros kv Hkv Ek. simpl in Hkv, Ek. rewrite Ek in Hkv. congruence.
    + replace (before ++ (k, c) :: items)
        with ((before ++ [(k, c)]) ++ items)
        by (now rewrite <- app_assoc).
      rewrite IH.
      * now rewrite <- app_assoc.
      * apply Forall_app. split; [exact Hb|]. now constructor.
Qed.

Lemma filter_twice (A : Type) (p : A -> bool) (l : list A) :
  filter p (filter p l) = filter p l.
Proof.
  induction l as [|x l IH]; simpl; [reflexivity|].
  destruct (p x) eqn:E; simpl; rewrite ?E, IH; reflexivity.
Qed.

(** X18.  [remove_folium_choropleth_legend] never raises: it leaves the
    children whose name does not start with "color_map", in their order,
    and removes all the others; running it again changes nothing. *)
Theorem remove_legend_keeps_others (children : list (string * child)) :
  Layer.remove_folium_choropleth_legend children
  = Ok (filter (fun kv => negb (Str.startswith "color_map" (fst kv)))
               children)
  /\ Layer.remove_folium_choropleth_legend
       (filter (fun kv => negb (Str.startswith "color_map" (fst kv)))
               children)
     = Ok (filter (fun kv => negb (Str.startswith "color_map" (fst kv)))
                  children).
Proof.
  assert (H : forall cs : list (string * child),
             Layer.remove_folium_choropleth_legend cs
             = Ok (filter (fun kv => negb (Str.startswith "color_map" (fst kv)))
                          cs)).
  { intros cs. unfold Layer.remove_folium_choropleth_legend.
    exact (@remove_legend_from cs [] (Forall_nil _)). }
  split; [apply H|]. rewrite H. now rewrite filter_twice.
Qed.
End Legends.

(** ** london_black_income_map.py: the housing sheet *)

Section HousingFacts.
Variable cell : Type.
Variable to_numeric : cell -> F64.t.

Lemma filter_split_length (A : Type) (p : A -> bool) (l : list A) :
  List.length (filter p l) + List.length (filter (fun x => negb (p x)) l)
  = List.length l.
Proof.
  induction l as [|x l IH]; simpl; [reflexivity|].
  destruct (p x); simpl; lia.
Qed.

(** X19.  [load_housing_affordability] returns the lines whose price reads
    as a number, in their order, with code and name unchanged, so no row
    returned has a missing price; the lines dropped are those whose price
    does not read as a number, and a warning with their number is logged
    exactly when there is one. *)
Theorem load_housing_drops_unreadable (df : list (HousingSheet.raw cell)) :
  let numeric := fun r : HousingSheet.raw cell =>
                   negb (F64.isna (to_numeric (HousingSheet.all_properties r))) in
  let dropped := List.length (filter (fun r => negb (numeric r)) df) in
  fst (HousingSheet.load_housing_affordability to_numeric df)
  = map (fun r => Housing.mk (HousingSheet.msoa_code r)
                             (HousingSheet.msoa_name r)
                             (to_numeric (HousingSheet.all_properties r)))
        (filter numeric df)
  /\ Forall (fun r => F64.isna (Housing.median_house_price r) = false)
            (fst (HousingSheet.load_housing_affordability to_numeric df))
  /\ List.length (fst (HousingSheet.load_housing_affordability to_numeric df))
     + dropped = List.length df
  /\ snd (HousingSheet.load_housing_affordability to_numeric df)
     = if dropped =? 0 then None else Some dropped.
Proof.
  intros numeric dropped.
  unfold HousingSheet.load_housing_affordability. cbn [fst snd].
  set (mk := fun r : HousingSheet.raw cell =>
               Housing.mk (HousingSheet.msoa_code r) (HousingSheet.msoa_name r)
                          (to_numeric (HousingSheet.all_properties r))).
  assert (Hkept : filter (fun r => negb (F64.isna (Housing.median_house_price r)))
                         (map mk df)
                  = map mk (filter numeric df)).
  { clear dropped. induction df as [|r df IH]; simpl; [reflexivity|].
    unfold numeric at 1. simpl.
    destruct (F64.isna (to_numeric (HousingSheet.all_properties r)));
      simpl; now rewrite IH. }
  rewrite Hkept, !length_map.
  pose proof (filter_split_length numeric df) as Hsplit.
  fold dropped in Hsplit.
  split; [reflexivity|]. split.
  - apply Forall_forall. intros r Hr. apply in_map_iff in Hr.
    destruct Hr as [x [<- Hx]]. apply filter_In in Hx.
    destruct Hx as [_ Hx]. unfold numeric in Hx.
    now apply negb_true_iff in Hx.
  - split; [exact Hsplit|].
    destruct (Nat.ltb_spec (List.length (filter numeric df)) (List.length df));
      destruct (Nat.eqb_spec dropped 0); try lia; try reflexivity.
    f_equal. lia.
Qed.
End HousingFacts.

(** ** The ethnicity table on its way to the joiner *)

(** X20.  When no observation is negative and the observations of every
    area sum to less than 2^63, the table that [load_black_population]
    builds from the reader's table has no repeated code and no infinite
    share: a share is a finite value or, for an area whose rows are all
    zero, NaN; so the distinct-codes condition of the joiner holds for it
    and a division by zero can only yield a row that the joiner drops. *)
Theorem pipeline_shares_never_infinite (df : list CensusCsv.row)
        (Hpos : Forall (fun r => (0 <= CensusCsv.observation r)%Z) df)
        (Hfit : Forall (fun r => (PerArea.total_population
                                    df (CensusCsv.geo r) < 2 ^ 63)%Z) df) :
  NoDup (map BlackShare.msoa
             (MapData.load_black_population
                (CensusCsv.process_census_data df)))
  /\ Forall (fun r =>
               (BlackShare.population r = 0%Z
                /\ BlackShare.black_share r = F64.NaN)
               \/ (BlackShare.population r <> 0%Z
                   /\ F64.is_finite (BlackShare.black_share r) = true))
            (MapData.load_black_population
               (CensusCsv.process_census_data df)).
Proof.
  unfold MapData.load_black_population. split.
  - rewrite map_map. cbn [BlackShare.msoa].
    rewrite (map_ext _ BlackPop.msoa) by reflexivity.
    rewrite process_census_data_areas.
    apply sorted_nodup, black_areas_sorted.
  - rewrite process_census_data_rows, map_map.
    apply Forall_forall. intros r Hr.
    apply in_map_iff in Hr. destruct Hr as [a [<- Ha]]. simpl.
    assert (Hb : (0 <= PerArea.group_count df a
                  <= PerArea.total_population df a)%Z).
    { apply sum_where_bounds; [exact Hpos|].
      intros r Hr. apply andb_true_iff in Hr. tauto. }
    pose proof (sums_fit a Hfit Ha) as Ht.
    rewrite !int64_fits by lia.
    unfold F64.truediv_int.
    destruct (Z.eqb_spec (PerArea.total_population df a) 0) as [E|NE].
    + left. split; [exact E|].
      assert (E0 : PerArea.group_count df a = 0%Z) by lia.
      rewrite E0. reflexivity.
    + right. split; [exact NE | reflexivity].
Qed.

Lemma pipeline_shares_never_infinite_witness :
  Forall (fun r => (0 <= CensusCsv.observation r)%Z) Scenario.census
  /\ Forall (fun r => (PerArea.total_population
                         Scenario.census (CensusCsv.geo r) < 2 ^ 63)%Z)
            Scenario.census
  /\ NoDup (map BlackShare.msoa
               (MapData.load_black_population
                  (CensusCsv.process_census_data Scenario.census)))
  /\ Forall (fun r =>
               (BlackShare.population r = 0%Z
                /\ BlackShare.black_share r = F64.NaN)
               \/ (BlackShare.population r <> 0%Z
                   /\ F64.is_finite (BlackShare.black_share r) = true))
            (MapData.load_black_population
               (CensusCsv.process_census_data Scenario.census)).
Proof.
  assert (H : Forall (fun r => (0 <= CensusCsv.observation r)%Z)
                     Scenario.census)
    by (repeat constructor; simpl; lia).
  assert (F : Forall (fun r => (PerArea.total_population
                                  Scenario.census (CensusCsv.geo r)
                                < 2 ^ 63)%Z) Scenario.census)
    by (repeat constructor; reflexivity).
  split; [exact H|]. split; [exact F|].
  exact (@pipeline_shares_never_infinite Scenario.census H F).
Defined.

(** ** The turns of the [while] loop *)

Section Fuel.
Import Download.

Lemma fetch_page_loop_consumes (n : nat) :
  forall (attempt : nat) (url : string) (acc : list CensusApi.obs)
         (net : list outcome) (log : list event)
         (step : page_step) (net' : list outcome) (log' : list event),
    fetch_page_loop (S n) attempt url acc net log = Some (step, net', log') ->
    List.length net' < List.length net.
Proof.
  induction n as [|n IH]; intros attempt url acc net log step net' log' H;
    destruct net as [|o net0]; try discriminate H;
    cbn [fetch_page_loop] in H.
  - destruct o as [exc| |data].
    + destruct (attempt =? MAX_RETRIES - 1);
        inversion H; subst; simpl; lia.
    + inversion H; subst; simpl; lia.
    + destruct (observations data); inversion H; subst; simpl; lia.
  - destruct o as [exc| |data].
    + destruct (attempt =? MAX_RETRIES - 1).
      * inversion H; subst; simpl; lia.
      * apply IH in H. simpl. lia.
    + inversion H; subst; simpl; lia.
    + destruct (observations data); inversion H; subst; simpl; lia.
Qed.

(** More turns than there are outcomes left are never used: the result
    does not depend on how many more are allowed. *)
Lemma while_url_enough (fuel1 : nat) :
  forall (fuel2 : nat) (url : option string) (acc : list CensusApi.obs)
         (net : list outcome) (log : list event),
    List.length net < fuel1 -> List.length net < fuel2 ->
    while_url fuel1 url acc net log = while_url fuel2 url acc net log.
Proof.
  induction fuel1 as [|fuel1 IH]; intros fuel2 url acc net log H1 H2;
    [lia|].
  destruct fuel2 as [|fuel2]; [lia|].
  destruct url as [u|]; [|reflexivity].
  cbn [while_url]. destruct (String.eqb u ""); [reflexivity|].
  destruct (fetch_page_loop MAX_RETRIES 0 u acc net log)
    as [[[step net'] log']|] eqn:E; [|reflexivity].
  pose proof (fetch_page_loop_consumes _ _ _ _ _ _ E) as Hlt.
  destruct step; [|reflexivity|]; apply IH; lia.
Qed.
End Fuel.

(** ** Shapefile selection among names of equal length *)

Lemma min_by_len_cons (best x : string) (others : list string) :
  MapData.min_by_len best (x :: others)
  = MapData.min_by_len
      (if String.length x <? String.length best then x else best) others.
Proof. reflexivity. Qed.

Lemma min_by_len_first (others : list string) :
  forall best : string,
    exists before after,
      best :: others = before ++ MapData.min_by_len best others :: after
      /\ Forall (fun m => String.length (MapData.min_by_len best others)
                          < String.length m) before
      /\ Forall (fun m => String.length (MapData.min_by_len best others)
                          <= String.length m) after.
Proof.
  induction others as [|x others IH]; intros best.
  - exists [], []. repeat split; constructor.
  - rewrite min_by_len_cons.
    destruct (Nat.ltb_spec (String.length x) (String.length best))
      as [Hlt|Hge].
    + destruct (IH x) as [before [after [E [Hb Ha]]]].
      exists (best :: before), after. rewrite <- app_comm_cons, <- E.
      split; [reflexivity|]. split; [|exact Ha].
      constructor; [|exact Hb].
      destruct (min_by_len_spec others x) as [_ Hall].
      inversion Hall; subst. lia.
    + destruct (IH best) as [before [after [E [Hb Ha]]]].
      destruct before as [|b before].
      * simpl in E. injection E as Eb Eo.
        exists [], (x :: others). rewrite <- Eb.
        split; [reflexivity|]. split; [constructor|].
        constructor; [exact Hge|].
        destruct (min_by_len_spec others best) as [_ Hall].
        rewrite <- Eb in Hall. inversion Hall; subst. assumption.
      * simpl in E. injection E as Eb Eo. subst b.
        exists (best :: x :: before), after.
        split; [simpl; congruence|].
        inversion Hb as [|? ? Hbest Hb']; subst.
        split; [|exact Ha].
        constructor; [exact Hbest|]. constructor; [lia|exact Hb'].
Qed.

(** X21.  Among the candidate members (".shp", "msoa" and "london" in the
    lower-cased name) the selection returns the first of least length in
    archive order: every candidate listed before it is strictly longer,
    every candidate after it at least as long. *)
Theorem search_shp_member_first_shortest (namelist : list string) :
  match MapData._search_shp_member namelist with
  | Ok chosen =>
      exists before after,
        filter MapData.is_candidate namelist = before ++ chosen :: after
        /\ Forall (fun m => String.length chosen < String.length m) before
        /\ Forall (fun m => String.length chosen <= String.length m) after
  | Raise _ => filter MapData.is_candidate namelist = []
  end.
Proof.
  unfold MapData._search_shp_member.
  destruct (filter MapData.is_candidate namelist) as [|first others];
    [reflexivity|].
  apply min_by_len_first.
Qed.
